(** * IWIN [Site]: phenology, light interception and yield pipeline

    A shallow embedding of the class [Site] of [iwin/__init__.py] and the
    properties its specification states about it.

    Modelling conventions.
    - Python floats (and numpy float64 cells) are exact rationals extended
      with the three non-finite values, [Np.npfloat]; rounding error of the
      binary representation and signed zeros are not represented.
    - A pandas [Timestamp] of the daily weather table is a day number in [Z].
    - A Python [dict] is a [gmap string _]; the attribute access [self.x] of
      a field that [__init__] does not create goes through [fields] and
      raises when the field was never assigned.
    - Exceptions carry their message ([str(err)]), since the handlers format
      it into the error entries.
    - Functions of numpy, pandas and of the package [iparyield] (which is not
      part of this file's source) are a type class of collaborators,
      [Externals]; the results hold for every instance. *)

From Stdlib Require Import QArith Qabs Qround ZArith Ascii String Lia Lqa.
From stdpp Require Import gmap strings list pretty.

Set Default Proof Using "Type".

(** ** numpy scalars and one-dimensional arrays *)

Module Np.

Inductive npfloat : Type :=
| Fin (q : Q)
| PInf
| NInf
| NaN.

Definition ndarray : Type := list npfloat.

Definition Qsgn (q : Q) : Z := Z.sgn (Qnum q).

Definition inf_of_sign (s : Z) : npfloat := if (0 <? s)%Z then PInf else NInf.

Definition neg (x : npfloat) : npfloat :=
  match x with
  | Fin q => Fin (- q)
  | PInf => NInf
  | NInf => PInf
  | NaN => NaN
  end.

Definition add (x y : npfloat) : npfloat :=
  match x, y with
  | NaN, _ | _, NaN => NaN
  | Fin a, Fin b => Fin (a + b)
  | PInf, NInf | NInf, PInf => NaN
  | PInf, _ | _, PInf => PInf
  | NInf, _ | _, NInf => NInf
  end.

Definition sub (x y : npfloat) : npfloat := add x (neg y).

Definition mul (x y : npfloat) : npfloat :=
  match x, y with
  | NaN, _ | _, NaN => NaN
  | Fin a, Fin b => Fin (a * b)
  | Fin a, PInf | PInf, Fin a =>
      if (Qsgn a =? 0)%Z then NaN else inf_of_sign (Qsgn a)
  | Fin a, NInf | NInf, Fin a =>
      if (Qsgn a =? 0)%Z then NaN else inf_of_sign (- Qsgn a)
  | PInf, PInf | NInf, NInf => PInf
  | PInf, NInf | NInf, PInf => NInf
  end.

(** Division as numpy does it with warnings silenced: [0/0] is [nan],
    [x/0] is an infinity of the sign of [x]. *)
Definition div (x y : npfloat) : npfloat :=
  match x, y with
  | NaN, _ | _, NaN => NaN
  | Fin a, Fin b =>
      if (Qsgn b =? 0)%Z
      then (if (Qsgn a =? 0)%Z then NaN else inf_of_sign (Qsgn a))
      else Fin (a / b)
  | Fin _, PInf | Fin _, NInf => Fin 0
  | PInf, Fin b => if (0 <=? Qsgn b)%Z then PInf else NInf
  | NInf, Fin b => if (0 <=? Qsgn b)%Z then NInf else PInf
  | _, _ => NaN
  end.

Definition abs (x : npfloat) : npfloat :=
  match x with
  | Fin q => Fin (Qabs q)
  | PInf | NInf => PInf
  | NaN => NaN
  end.

Definition isnan (x : npfloat) : bool :=
  match x with NaN => true | _ => false end.

(** Comparisons: every comparison with [nan] is false. *)
Definition leb (x y : npfloat) : bool :=
  match x, y with
  | NaN, _ | _, NaN => false
  | Fin a, Fin b => Qle_bool a b
  | NInf, _ | _, PInf => true
  | _, _ => false
  end.

Definition ltb (x y : npfloat) : bool :=
  match x, y with
  | NaN, _ | _, NaN => false
  | Fin a, Fin b => negb (Qle_bool b a)
  | PInf, _ | _, NInf => false
  | _, _ => true
  end.

Definition geb (x y : npfloat) : bool := leb y x.
Definition gtb (x y : npfloat) : bool := ltb y x.

(** [np.cumsum]. *)
Fixpoint cumsum_from (acc : npfloat) (a : ndarray) : ndarray :=
  match a with
  | [] => []
  | x :: r => add acc x :: cumsum_from (add acc x) r
  end.

Definition cumsum (a : ndarray) : ndarray :=
  match a with
  | [] => []
  | x :: r => x :: cumsum_from x r
  end.

(** [np.sum]; the sum of the empty array is [0.0]. *)
Definition sum (a : ndarray) : npfloat := fold_left add a (Fin 0).

(** Running minimum and maximum that skip [nan] cells ([np.fmin],
    [np.fmax]): the other operand wins over a [nan]. *)
Definition fmin (x y : npfloat) : npfloat :=
  match x, y with
  | NaN, _ => y
  | _, NaN => x
  | _, _ => if leb x y then x else y
  end.

Definition fmax (x y : npfloat) : npfloat :=
  match x, y with
  | NaN, _ => y
  | _, NaN => x
  | _, _ => if leb y x then x else y
  end.

(** [np.nanmin] and [np.nanmax]: [None] stands for the [ValueError] numpy
    raises on an empty array; an array of [nan] only gives [nan]. *)
Definition nanmin (a : ndarray) : option npfloat :=
  match a with
  | [] => None
  | x :: r => Some (fold_left fmin r x)
  end.

Definition nanmax (a : ndarray) : option npfloat :=
  match a with
  | [] => None
  | x :: r => Some (fold_left fmax r x)
  end.

(** [np.argmin], as numpy's loop computes it: the candidate is replaced
    when the next cell is not [>=] the current minimum, and the scan stops
    at the first [nan]. [argmin_from i best bi a] scans the cells of [a],
    which sit at the positions [i], [i+1], ... *)
Fixpoint argmin_from (i : nat) (best : npfloat) (bi : nat) (a : ndarray) : nat :=
  match a with
  | [] => bi
  | x :: r =>
      if isnan best then bi
      else if geb x best then argmin_from (S i) best bi r
           else argmin_from (S i) x i r
  end.

Definition argmin (a : ndarray) : option nat :=
  match a with
  | [] => None
  | x :: r => Some (argmin_from 1 x 0 r)
  end.

(** [np.nanmean]: the mean of the cells that are not [nan], [nan] when
    there is none. *)
Definition nanmean (a : ndarray) : npfloat :=
  let kept := filter (fun x => isnan x = false) a in
  match kept with
  | [] => NaN
  | _ => div (sum kept) (Fin (inject_Z (Z.of_nat (length kept))))
  end.

(** A pandas [Series] skips [nan] by default: [np.sum(series)] adds the
    other cells, and [np.cumsum(series)] leaves a [nan] cell as it is
    while the running sum goes on without it. *)
Definition series_sum (a : ndarray) : npfloat :=
  sum (filter (fun x => isnan x = false) a).

Fixpoint series_cumsum_from (acc : npfloat) (a : ndarray) : ndarray :=
  match a with
  | [] => []
  | x :: r =>
      if isnan x then NaN :: series_cumsum_from acc r
      else add acc x :: series_cumsum_from (add acc x) r
  end.

Definition series_cumsum (a : ndarray) : ndarray := series_cumsum_from (Fin 0) a.

(** [float("{:.nf}".format(x))]: round to [n] decimals, ties to even;
    non-finite values print and parse back as themselves. *)
Definition round_half_even (q : Q) : Z :=
  let f := Qfloor q in
  let r := (q - inject_Z f)%Q in
  match (r ?= 1 # 2)%Q with
  | Lt => f
  | Gt => (f + 1)%Z
  | Eq => if Z.even f then f else (f + 1)%Z
  end.

Definition round_dec (n : nat) (x : npfloat) : npfloat :=
  match x with
  | Fin q =>
      let p := (10 ^ Z.of_nat n)%Z in
      Fin (Qred (inject_Z (round_half_even (q * inject_Z p)) / inject_Z p))
  | _ => x
  end.

End Np.

Abbreviation npfloat := Np.npfloat.
Abbreviation ndarray := Np.ndarray.
Abbreviation Fin := Np.Fin.
Abbreviation NaN := Np.NaN.

(** ** Python values, exceptions and the state monad of a method *)

(** The values an attribute, a parameter or an argument holds. [PyErrorsRef]
    is a reference to the error list of the site itself: [getAttr] stores
    the list object, not a copy of it. [PyOther] is any other object, known
    by its [str()]. *)
Inductive pyval : Type :=
| PyNone
| PyBool (b : bool)
| PyStr (s : string)
| PyInt (z : Z)
| PyFloat (x : npfloat)
| PyErrorsRef
| PyOther (repr : string).

Definition exn : Type := string.

Inductive result (A : Type) : Type :=
| Ok (a : A)
| Raise (e : exn).
Arguments Ok {A} a.
Arguments Raise {A} e.

(** A method body over a state [St]: the state reached is kept when an
    exception is raised, as the assignments made before a [raise] stay. *)
Definition M (St A : Type) : Type := St -> St * result A.

Definition ret {St A} (a : A) : M St A := fun st => (st, Ok a).

Definition bind {St A B} (c : M St A) (k : A -> M St B) : M St B :=
  fun st =>
    match c st with
    | (st', Ok a) => k a st'
    | (st', Raise e) => (st', Raise e)
    end.

Definition raise {St A} (e : exn) : M St A := fun st => (st, Raise e).

Definition get {St} : M St St := fun st => (st, Ok st).

Definition gets {St A} (f : St -> A) : M St A := fun st => (st, Ok (f st)).

Definition modify {St} (f : St -> St) : M St unit := fun st => (f st, Ok tt).

(** A pure computation that may fail, run inside a method. *)
Definition lift {St A} (r : result A) : M St A := fun st => (st, r).

(** [try: body except Exception as err: handler err]. *)
Definition try_except {St A} (body : M St A) (handler : exn -> M St A) : M St A :=
  fun st =>
    match body st with
    | (st', Ok a) => (st', Ok a)
    | (st', Raise e) => handler e st'
    end.

(** A method of the object called from a body that also has local
    variables: the locals [L] are untouched by the callee. *)
Definition call {S L A} (c : M S A) : M (S * L) A :=
  fun st =>
    match c (fst st) with
    | (s', r) => ((s', snd st), r)
    end.

(** Run a body with fresh locals [l0] and hand its locals back. *)
Definition with_locals {S L A} (l0 : L) (c : M (S * L) A) : M S (L * result A) :=
  fun s =>
    match c (s, l0) with
    | ((s', l'), r) => (s', Ok (l', r))
    end.

Declare Scope py_scope.
Delimit Scope py_scope with py.
Notation "x <- c ;; k" := (bind c (fun x => k))
  (at level 100, c at next level, right associativity) : py_scope.
Notation "c ;; k" := (bind c (fun _ => k))
  (at level 100, right associativity) : py_scope.
Open Scope py_scope.

Definition when {St} (b : bool) (c : M St unit) : M St unit :=
  if b then c else ret tt.

(** ** The weather table *)

(** One row of the weather table. The table has the label positions
    [0 .. n-1] as its index, as [getWeather] leaves it
    ([reset_index(drop=True)]). *)
Record wrow : Type := {
  Date : Z;
  location : pyval;
  TMIN : npfloat;
  TMAX : npfloat;
  TAVG : npfloat;
  SolRad : npfloat;
  PCP : npfloat
}.

(** A [DataFrame]: the names of its columns and its rows. A cell of a row
    is only there when the column is. *)
Record DataFrame : Type := {
  df_columns : list string;
  df_rows : list wrow
}.

Definition has_column (df : DataFrame) (c : string) : bool :=
  bool_decide (c ∈ df_columns df).

(** [str(KeyError(k))]. *)
Definition key_error (k : string) : exn := "'" +:+ k +:+ "'".

(** [df['Date']], [df['location']] and [df[c]] for a numeric column. *)
Definition col_Date {St} (df : DataFrame) : M St (list Z) :=
  if has_column df "Date" then ret (map Date (df_rows df))
  else raise (key_error "Date").

Definition col_location {St} (df : DataFrame) : M St (list pyval) :=
  if has_column df "location" then ret (map location (df_rows df))
  else raise (key_error "location").

Definition numeric_cell (c : string) (r : wrow) : npfloat :=
  if String.eqb c "TMIN" then TMIN r
  else if String.eqb c "TMAX" then TMAX r
  else if String.eqb c "TAVG" then TAVG r
  else if String.eqb c "SolRad" then SolRad r
  else PCP r.

Definition col {St} (df : DataFrame) (c : string) : M St ndarray :=
  if has_column df c then ret (map (numeric_cell c) (df_rows df))
  else raise (key_error c).

(** A boolean mask over the rows, [df[mask]] and [len(df[mask])]. *)
Definition mask : Type := list bool.

Fixpoint select {A} (mk : mask) (l : list A) : list A :=
  match mk, l with
  | b :: mk', x :: l' => if b then x :: select mk' l' else select mk' l'
  | _, _ => []
  end.

Definition df_select (mk : mask) (df : DataFrame) : DataFrame :=
  {| df_columns := df_columns df; df_rows := select mk (df_rows df) |}.

Definition df_len (df : DataFrame) : nat := length (df_rows df).

Definition mask_and (a b : mask) : mask := zip_with andb a b.

(** [df[mask].index]: the positions of the selected rows. *)
Fixpoint positions_from (i : nat) (mk : mask) : list nat :=
  match mk with
  | [] => []
  | b :: mk' => if b then i :: positions_from (S i) mk' else positions_from (S i) mk'
  end.

Definition positions (mk : mask) : list nat := positions_from 0 mk.

(** ** The site *)

(** An entry of the error list is a [dict]. *)
Abbreviation error_entry := (gmap string pyval).

Record Site : Type := {
  uid : pyval;
  loc : pyval;
  attributes : gmap string pyval;
  params : gmap string pyval;
  pheno_dates : option (list Z);
  weather : option DataFrame;
  GDD : option ndarray;
  errors : list error_entry;
  (** the fields created after [__init__] ([Norm_TT_EH], [PRFT_HM], ...),
      each holding [None] or an array *)
  fields : gmap string (option ndarray)
}.

(** The configured model [m]: its [parameters] and its [config]. *)
Record Model : Type := {
  parameters : gmap string pyval;
  config : gmap string (option DataFrame)
}.

Definition set_attributes (a : gmap string pyval) (s : Site) : Site :=
  {| uid := uid s; loc := loc s; attributes := a; params := params s;
     pheno_dates := pheno_dates s; weather := weather s; GDD := GDD s;
     errors := errors s; fields := fields s |}.

Definition set_pheno_dates (d : option (list Z)) (s : Site) : Site :=
  {| uid := uid s; loc := loc s; attributes := attributes s; params := params s;
     pheno_dates := d; weather := weather s; GDD := GDD s;
     errors := errors s; fields := fields s |}.

Definition set_weather (w : option DataFrame) (s : Site) : Site :=
  {| uid := uid s; loc := loc s; attributes := attributes s; params := params s;
     pheno_dates := pheno_dates s; weather := w; GDD := GDD s;
     errors := errors s; fields := fields s |}.

Definition set_GDD (g : option ndarray) (s : Site) : Site :=
  {| uid := uid s; loc := loc s; attributes := attributes s; params := params s;
     pheno_dates := pheno_dates s; weather := weather s; GDD := g;
     errors := errors s; fields := fields s |}.

Definition set_errors (e : list error_entry) (s : Site) : Site :=
  {| uid := uid s; loc := loc s; attributes := attributes s; params := params s;
     pheno_dates := pheno_dates s; weather := weather s; GDD := GDD s;
     errors := e; fields := fields s |}.

Definition set_fields (f : gmap string (option ndarray)) (s : Site) : Site :=
  {| uid := uid s; loc := loc s; attributes := attributes s; params := params s;
     pheno_dates := pheno_dates s; weather := weather s; GDD := GDD s;
     errors := errors s; fields := f |}.

(** [self.attributes[k] = v] and [self.<f> = v]. *)
Definition set_attr (k : string) (v : pyval) : M Site unit :=
  modify (fun s => set_attributes (<[k := v]> (attributes s)) s).

Definition set_field (f : string) (v : option ndarray) : M Site unit :=
  modify (fun s => set_fields (<[f := v]> (fields s)) s).

(** [self.<f>]: an [AttributeError] when the field was never assigned. *)
Definition get_field (f : string) : M Site (option ndarray) :=
  s <- get;;
  match fields s !! f with
  | Some v => ret v
  | None => raise ("'Site' object has no attribute '" +:+ f +:+ "'")
  end.

(** [self.attributes[k]]: a [KeyError] when the key is absent. *)
Definition get_attr (k : string) : M Site pyval :=
  s <- get;;
  match attributes s !! k with
  | Some v => ret v
  | None => raise (key_error k)
  end.

(** The dict literal [{"uid": self.uid, "loc": self.loc, "error": msg}]. *)
Definition entry_of (s : Site) (msg : string) : error_entry :=
  <["uid" := uid s]> (<["loc" := loc s]> (<["error" := PyStr msg]> ∅)).

(** [self.errors.append({...})]. *)
Definition log_error (msg : string) : M Site unit :=
  modify (fun s => set_errors (errors s ++ [entry_of s msg]) s).

(** [Site.__init__]. *)
Definition Site_init (uid0 loc0 : pyval) (attributes0 params0 : gmap string pyval) : Site :=
  {| uid := uid0; loc := loc0; attributes := attributes0; params := params0;
     pheno_dates := None; weather := None; GDD := None; errors := [];
     fields := ∅ |}.

(** [Site.getAttr]. *)
Definition getAttr : M Site (gmap string pyval) :=
  set_attr "errors" PyErrorsRef;;
  gets attributes.

(** ** Collaborators *)

(** The functions of Python, pandas and numpy whose result depends on
    formats or shapes, and the functions of the package [iparyield]. Each
    returns its value or raises. *)
Class Externals : Type := {
  (** [str(x)] of a finite float *)
  repr_float : Q -> string;
  (** [int(s)] of a string *)
  int_of_string : string -> result Z;
  (** [pd.to_datetime(s)] and [pd.to_datetime(s, format='%Y-%m-%d')] *)
  to_datetime : string -> result Z;
  to_datetime_ymd : string -> result Z;
  (** [str(ts).split(' ')[0]] of a timestamp *)
  date_str : Z -> string;
  (** the operand of a comparison with the [Date] column, as pandas reads
      it: a timestamp, [NaT] ([None] here, every comparison is false), or a
      [TypeError] *)
  as_timestamp : pyval -> result (option Z);
  (** [pd.date_range(start, end)] *)
  date_range : pyval -> pyval -> result (list Z);
  (** [datetime.strptime(s, "%Y-%m-%d").timetuple().tm_yday] *)
  strptime_yday : pyval -> result Z;
  (** an elementwise operation on two arrays of different lengths:
      broadcast or [ValueError] *)
  shape_mismatch : (npfloat -> npfloat -> npfloat) -> ndarray -> ndarray -> result ndarray;
  (** [model.PARAMETERS], the defaults used when no model is passed *)
  PARAMETERS : gmap string pyval;
  (** [daylength.calculateDayLength(d, lat, p)] *)
  calculateDayLength : pyval -> pyval -> pyval -> result pyval;
  (** [tday.estimate_TDay(tmin, tmax, tminFactor)] *)
  estimate_TDay : ndarray -> ndarray -> pyval -> result (option ndarray);
  (** [gdd.calculateGDD(tmin, tmax, Tbase)] *)
  calculateGDD : ndarray -> ndarray -> pyval -> result (option ndarray);
  (** [tadjday.estimate_TAdjDay(tavg, threshold, scale, rate)] *)
  estimate_TAdjDay : ndarray -> pyval -> pyval -> pyval -> result ndarray;
  (** [ndvi.calculateNDVI_EH(norm_TT_EH, NDVI_lowerThreshold, NDVI_Threshold, NDVI_max)] *)
  calculateNDVI_EH : ndarray -> pyval -> pyval -> pyval -> result (option ndarray);
  (** [ndvi.calculateNDVI_HM(norm_TT_HM, NDVImax)] *)
  calculateNDVI_HM : ndarray -> pyval -> result (option ndarray);
  (** [ipar.estimate_IPAR(Norm_TT_EH, Norm_SimNDVI_EH, Norm_SimNDVI_HM,
      norm_iPAR_EH_bounds, NDVI_constantIPAR)]: the four arrays
      [NDVI_EM, iPAR_EM, iPAR_EH, iPAR_HM] *)
  estimate_IPAR : option ndarray -> option ndarray -> option ndarray -> pyval -> pyval ->
                  result (option ndarray * option ndarray * option ndarray * option ndarray)
}.

Section SiteMethods.
Context `{Ext : Externals}.

(** ** Python built-ins *)

(** [str(v)]. *)
Definition py_str (v : pyval) : string :=
  match v with
  | PyNone => "None"
  | PyBool true => "True"
  | PyBool false => "False"
  | PyStr s => s
  | PyInt z => pretty z
  | PyFloat (Fin q) => repr_float q
  | PyFloat Np.PInf => "inf"
  | PyFloat Np.NInf => "-inf"
  | PyFloat NaN => "nan"
  | PyErrorsRef => "[...]"
  | PyOther r => r
  end.

(** [v == 'text'], [v is None] and [v is True]. *)
Definition eq_str (v : pyval) (t : string) : bool :=
  match v with PyStr s => String.eqb s t | _ => false end.

Definition is_none (v : pyval) : bool :=
  match v with PyNone => true | _ => false end.

Definition is_true (v : pyval) : bool :=
  match v with PyBool true => true | _ => false end.

(** [x=='None' or x is None or str(x)=='nan' or str(x)=='null'], and the
    same test with [or str(x)==''] added. *)
Definition not_valid (v : pyval) : bool :=
  eq_str v "None" || is_none v || String.eqb (py_str v) "nan"
  || String.eqb (py_str v) "null".

Definition not_valid_or_empty (v : pyval) : bool :=
  not_valid v || String.eqb (py_str v) "".

(** A number as an operand of float arithmetic. *)
Definition as_float {St} (v : pyval) : M St npfloat :=
  match v with
  | PyInt z => ret (Fin (inject_Z z))
  | PyFloat x => ret x
  | PyBool b => ret (Fin (if b then 1 else 0))
  | _ => raise "unsupported operand type(s)"
  end.

(** [a < b] and [a >= b] on numbers. *)
Definition py_lt {St} (a b : pyval) : M St bool :=
  x <- as_float a;; y <- as_float b;; ret (Np.ltb x y).

Definition py_ge {St} (a b : pyval) : M St bool :=
  x <- as_float a;; y <- as_float b;; ret (Np.geb x y).

(** [int(x)] of a float: truncation toward zero. *)
Definition truncate (q : Q) : Z := Z.quot (Qnum q) (Zpos (Qden q)).

Definition int_of_float {St} (x : npfloat) : M St Z :=
  match x with
  | Fin q => ret (truncate q)
  | NaN => raise "cannot convert float NaN to integer"
  | _ => raise "cannot convert float infinity to integer"
  end.

(** [int(v)]. *)
Definition py_int {St} (v : pyval) : M St Z :=
  match v with
  | PyInt z => ret z
  | PyBool b => ret (if b then 1%Z else 0%Z)
  | PyFloat x => int_of_float x
  | PyStr s => lift (int_of_string s)
  | _ => raise "int() argument must be a string, a bytes-like object or a real number"
  end.

(** [float("{:.nf}".format(v))]. *)
Definition format_float {St} (n : nat) (v : pyval) : M St npfloat :=
  match v with
  | PyInt z => ret (Fin (inject_Z z))
  | PyFloat x => ret (Np.round_dec n x)
  | PyBool b => ret (Fin (if b then 1 else 0))
  | _ => raise "unsupported format string passed to __format__"
  end.

(** [m.parameters[k]]. *)
Definition m_parameter {St} (m : option Model) (k : string) : M St pyval :=
  match m with
  | None => raise "'NoneType' object has no attribute 'parameters'"
  | Some md =>
      match parameters md !! k with
      | Some v => ret v
      | None => raise (key_error k)
      end
  end.

(** [model.PARAMETERS[k]]. *)
Definition global_parameter {St} (k : string) : M St pyval :=
  match PARAMETERS !! k with
  | Some v => ret v
  | None => raise (key_error k)
  end.

(** [if (x is None and m is not None): x = m.parameters[k]
     elif (x is None): x = model.PARAMETERS[k]]. *)
Definition default_parameter {St} (x : pyval) (m : option Model) (k : string) : M St pyval :=
  if is_none x then
    match m with
    | Some _ => m_parameter m k
    | None => global_parameter k
    end
  else ret x.

(** [m.config['WeatherFile']]. *)
Definition m_WeatherFile {St} (m : option Model) : M St (option DataFrame) :=
  match m with
  | None => raise "'NoneType' object has no attribute 'config'"
  | Some md =>
      match config md !! "WeatherFile" with
      | Some w => ret w
      | None => raise (key_error "WeatherFile")
      end
  end.

(** [str(pd.to_datetime(str(s)) + pd.DateOffset(days=int(365))).split(' ')[0]]. *)
Definition a_year_after {St} (s : pyval) : M St pyval :=
  t <- lift (to_datetime (py_str s));;
  ret (PyStr (date_str (t + 365))).

(** The masks [df['Date'] > v], [df['Date'] >= v] and [df['Date'] <= v]. *)
Definition date_cmp {St} (cmp : Z -> Z -> bool) (df : DataFrame) (v : pyval) : M St mask :=
  d <- col_Date df;;
  t <- lift (as_timestamp v);;
  ret (map (fun x => match t with Some t' => cmp x t' | None => false end) d).

Definition date_gt {St} := @date_cmp St Z.gtb.
Definition date_ge {St} := @date_cmp St Z.geb.
Definition date_le {St} := @date_cmp St Z.leb.

(** [a == b] on the cells of a column. *)
Definition py_eqb (a b : pyval) : bool :=
  match a, b with
  | PyNone, PyNone => true
  | PyStr s, PyStr t => String.eqb s t
  | PyErrorsRef, PyErrorsRef => true
  | PyOther r, PyOther t => String.eqb r t
  | (PyBool _ | PyInt _ | PyFloat _), (PyBool _ | PyInt _ | PyFloat _) =>
      let num v := match v with
                   | PyInt z => Fin (inject_Z z)
                   | PyFloat x => x
                   | PyBool true => Fin 1
                   | _ => Fin 0
                   end in
      Np.leb (num a) (num b) && Np.leb (num b) (num a)
  | _, _ => false
  end.

(** ** Range of dates, weather and phenology dates *)

(** [Site.getRangeDates]. The [return] taken when the site has no sowing
    date leaves [pheno_dates] at [None], which is also what it returns. *)
Definition getRangeDates (s e : pyval) : M Site (option (list Z)) :=
  modify (set_pheno_dates None);;
  try_except
    (se <- (if is_none s || is_none e then
              attrs <- gets attributes;;
              match attrs !! "sowing" with
              | None => ret None
              | Some s' =>
                  e' <- match attrs !! "maturity" with
                        | Some e0 =>
                            if not_valid e0 then
                              prm <- gets params;;
                              em <- match prm !! "estimateMaturity" with
                                    | Some v => ret v
                                    | None => raise (key_error "estimateMaturity")
                                    end;;
                              if is_true em then
                                match attrs !! "PredMaturity_H", attrs !! "PredMaturity_pH" with
                                | Some p, _ => ret p
                                | None, Some p => ret p
                                | None, None => ret e0
                                end
                              else a_year_after s'
                            else ret e0
                        | None => a_year_after s'
                        end;;
                  ret (Some (s', e'))
              end
            else ret (Some (s, e)));;
     match se with
     | None => ret tt
     | Some (s1, e1) =>
         if not_valid s1 || not_valid e1
         then raise "exceptions must derive from BaseException"
         else d <- lift (date_range s1 e1);;
              modify (set_pheno_dates (Some d))
     end)
    (fun err => log_error ("Estimating range dates. Error: " +:+ err));;
  gets pheno_dates.

(** [Site.getWeather]. Every [return] hands back [self.weather], which is
    [None] unless the slice was taken. *)
Definition getWeather (weatherDF : option DataFrame) (s e : pyval) : M Site (option DataFrame) :=
  modify (set_weather None);;
  match weatherDF with
  | None => ret None
  | Some df =>
      try_except
        (se <- (if is_none s then
                  attrs <- gets attributes;;
                  let s' := match attrs !! "sowing" with Some v => v | None => s end in
                  e' <- (if is_none e then a_year_after s' else ret e);;
                  ret (s', e')
                else ret (s, e));;
         l <- gets loc;;
         if is_none l then ret tt
         else if not_valid (fst se) || not_valid (snd se) then ret tt
         else
           m1 <- date_ge df (fst se);;
           m2 <- date_le df (snd se);;
           c <- col_location df;;
           let m3 := map (fun v => py_eqb v l) c in
           modify (set_weather (Some (df_select (mask_and (mask_and m1 m2) m3) df))))
        (fun err => log_error ("Getting weather data. Error: " +:+ err));;
      gets weather
  end.

(** Local variables of a method body. *)
Definition set_local {S L} (f : L -> L) : M (S * L) unit :=
  modify (fun st => (fst st, f (snd st))).

Definition get_local {S L} : M (S * L) L := gets snd.

(** [UnboundLocalError] for a local read before any assignment. *)
Definition unbound (x : string) : exn :=
  "local variable '" +:+ x +:+ "' referenced before assignment".

(** [Site.getSowingDOY]. *)
Definition getSowingDOY : M Site (option Z) :=
  attrs <- gets attributes;;
  match attrs !! "sowing" with
  | Some s => d <- lift (strptime_yday s);; ret (Some d)
  | None => ret None
  end.

(** ** Day length, day temperature, growing degree days *)

(** [Site.getDayLength]. *)
Definition getDayLength (d lat p : pyval) : M Site pyval :=
  if is_none d then ret PyNone
  else
    attrs <- gets attributes;;
    match (if is_none lat then attrs !! "lat" else Some lat) with
    | None => ret PyNone
    | Some lat' =>
        dlength <- try_except (lift (calculateDayLength d lat' p))
                     (fun err => log_error ("Getting Daylength. Error: " +:+ err);;
                                 ret PyNone);;
        x <- format_float 2 dlength;;
        ret (PyFloat x)
    end.

(** [Site.getDayLengthDAP]: the pair [(dAS, dlength)]. *)
Definition getDayLengthDAP (m : option Model) (DAP : pyval) : M Site (option Z * pyval) :=
  dap <- default_parameter DAP m "DAP";;
  r <- with_locals (None, PyNone)
         (try_except
            (attrs <- call (gets attributes);;
             match attrs !! "sowing" with
             | None => ret tt
             | Some s =>
                 t <- lift (to_datetime (py_str s));;
                 n <- py_int dap;;
                 set_local (fun l => (Some (t + n)%Z, snd l));;
                 dl <- call (getDayLength (PyStr (date_str (t + n))) PyNone (PyFloat (Fin 0)));;
                 set_local (fun l => (fst l, dl))
             end)
            (fun err =>
               call (log_error ("Getting sowing date for estimating Daylength. Error: " +:+ err))));;
  ret (fst r).

(** [Site.getTDay]. The local [result] is [[]] unless the collaborator
    returned. *)
Definition getTDay (m : option Model) (w : option DataFrame) (tminFactor : pyval)
  : M Site (option ndarray) :=
  match w with
  | None => ret None
  | Some df =>
      f <- default_parameter tminFactor m "TMIN_PERC_FACTOR";;
      try_except
        (if has_column df "TMIN" && has_column df "TMAX" then
           tmin <- col df "TMIN";;
           tmax <- col df "TMAX";;
           lift (estimate_TDay tmin tmax f)
         else ret (Some []))
        (fun err => log_error ("Calculating Day temperature. Error: " +:+ err);;
                    ret (Some []))
  end.

(** [Site.getGDD]. *)
Definition getGDD (m : option Model) (w : option DataFrame) (Tbase : pyval)
  : M Site (option ndarray) :=
  match w with
  | None => ret None
  | Some df =>
      tb <- default_parameter Tbase m "CROP_TBASE_GDD";;
      try_except
        (if has_column df "TMIN" && has_column df "TMAX" then
           tmin <- col df "TMIN";;
           tmax <- col df "TMAX";;
           lift (calculateGDD tmin tmax tb)
         else ret (Some []))
        (fun err => log_error ("Calculating Growing degree days. Error: " +:+ err);;
                    ret (Some []))
  end.

(** ** Photosynthesis reduction factor *)

(** The parabola [1 - 0.0025 * (TDay - TOpt)^2] at one temperature. *)
Definition prft_at (topt tday : npfloat) : npfloat :=
  Np.sub (Fin 1) (Np.mul (Fin 0.0025) (Np.mul (Np.sub tday topt) (Np.sub tday topt))).

(** Modelled from the spec: [prft.calculatePRFT] of the package
    [iparyield.model], whose source is not in the repository files at hand.
    The specification (and the docstring of [getPRFT]) give
    [PRFT = 1 - 0.0025 * (TDay - TOpt)^2], applied elementwise to the day
    temperature. *)
Definition calculatePRFT {St} (TDay : ndarray) (TOpt : pyval) : M St ndarray :=
  topt <- as_float TOpt;;
  ret (map (prft_at topt) TDay).

(** [Site.getPRFT]. The local [result] is only bound by the call in the
    [try]: after a failure the [return] raises. *)
Definition getPRFT (m : option Model) (TDay : option ndarray) (TOpt : pyval)
  : M Site (option ndarray) :=
  match TDay with
  | None => ret None
  | Some td =>
      topt <- default_parameter TOpt m "CROP_OPTIMUM_TEMPERATURE";;
      r <- try_except
             (x <- calculatePRFT td topt;; ret (Some x))
             (fun err =>
                log_error ("Calculating photosynthesis reduction factor. Error: " +:+ err);;
                ret None);;
      match r with
      | Some x => ret (Some x)
      | None => raise (unbound "result")
      end
  end.

(** ** Emergence date *)

(** [idx = np.argmin(np.abs(cGDD - GDDreq))]. *)
Definition nearest_index (cGDD : ndarray) (GDDreq : npfloat) : option nat :=
  Np.argmin (map (fun c => Np.abs (Np.sub c GDDreq)) cGDD).

(** [Site.getEmergenceDate]: the date of [pheno_dates] at the position
    where the cumulative thermal time is nearest to the requirement. *)
Definition getEmergenceDate (m : option Model) (cGDD : option ndarray) (GDDreq : pyval)
  : M Site pyval :=
  req <- default_parameter GDDreq m "GDD_Required_to_EmergenceDate";;
  match cGDD with
  | None | Some [] => ret PyNone
  | Some c =>
      match m with
      | None => ret PyNone
      | Some _ =>
          pd <- gets pheno_dates;;
          (match pd with
           | None => getRangeDates PyNone PyNone;; ret tt
           | Some _ => ret tt
           end);;
          r <- as_float req;;
          match nearest_index c r with
          | None => raise "attempt to get argmin of an empty sequence"
          | Some idx =>
              try_except
                (pd' <- gets pheno_dates;;
                 match pd' with
                 | None => ret PyNone
                 | Some dates =>
                     match dates !! idx with
                     | Some t => ret (PyStr (date_str t))
                     | None => raise ("index " +:+ pretty idx +:+ " is out of bounds")
                     end
                 end)
                (fun err => log_error ("Estimating emergence date. Error: " +:+ err);;
                            ret PyNone)
          end
      end
  end.

(** ** Days to heading *)

(** The two regression lines of a nursery group: below the day-length
    boundary and from the boundary on. *)
Definition heading_line_below (sawyt : bool) (dayHR : npfloat) : npfloat :=
  if sawyt then Np.sub (Fin 617.68) (Np.mul (Fin 51.406) dayHR)
  else Np.sub (Fin 491.27) (Np.mul (Fin 38.62) dayHR).

Definition heading_line_from (sawyt : bool) (dayHR : npfloat) : npfloat :=
  if sawyt then Np.sub (Fin 87.38) (Np.mul (Fin 2.36) dayHR)
  else Np.sub (Fin 115.36) (Np.mul (Fin 3.87) dayHR).

(** The [if (dayHR < c): ... elif (dayHR >= c): ...] of one nursery group,
    followed by [int(DaysToHead)]; [DaysToHead] stays [0] when neither
    test holds. *)
Definition days_to_heading_of {St} (sawyt : bool) (m : option Model) (dayHR : pyval) : M St Z :=
  c <- m_parameter m "CONST_DAYHR_AS";;
  below <- py_lt dayHR c;;
  if below then
    d <- as_float dayHR;;
    int_of_float (heading_line_below sawyt d)
  else
    c' <- m_parameter m "CONST_DAYHR_AS";;
    from <- py_ge dayHR c';;
    if from then
      d <- as_float dayHR;;
      int_of_float (heading_line_from sawyt d)
    else ret 0%Z.

(** [Site.getDaysToHeading]. *)
Definition getDaysToHeading (m : option Model) (dayHR : pyval) : M Site Z :=
  attrs <- gets attributes;;
  match attrs !! "Nursery" with
  | Some n => if eq_str n "SAWYT" then days_to_heading_of true m dayHR
              else days_to_heading_of false m dayHR
  | None => days_to_heading_of false m dayHR
  end.

(** [Site._getDaysToHeading_SAWYT]. *)
Definition _getDaysToHeading_SAWYT (m : option Model) (dayHR : pyval) : M Site Z :=
  days_to_heading_of true m dayHR.

(** ** Maturity date *)

(** One variant of the maturity estimate from a heading date [anchor]:
    the weather from the anchor on, the cumulative adjusted thermal days,
    the row nearest to [daysGF]. The result is
    [(Sim_Maturity_date, Sim_DaysToMaturity, Sim_DaysHM)]. *)
Definition maturity_from {St} (w : DataFrame) (anchor sowing : Z)
    (threshold scale rate daysGF : pyval) : M St (Z * Z * Z) :=
  d <- col_Date w;;
  let df_tmp := df_select (map (fun x => (x >=? anchor)%Z) d) w in
  tavg <- col df_tmp "TAVG";;
  tadj <- lift (estimate_TAdjDay tavg threshold scale rate);;
  g <- as_float daysGF;;
  match nearest_index (Np.cumsum tadj) g with
  | None => raise "attempt to get argmin of an empty sequence"
  | Some n =>
      match df_rows df_tmp !! n with
      | Some r => ret (Date r, (Date r - sowing)%Z, (Date r - anchor)%Z)
      | None => raise (key_error (pretty n))
      end
  end.

(** The locals of [getMaturityDate] that it returns: the estimate from the
    observed heading and the one from the predicted heading. The three
    values of a variant are assigned by consecutive statements that cannot
    fail, so each variant is all there or all [None]. *)
Definition maturity_locals : Type := option (Z * Z * Z) * option (Z * Z * Z).

(** An attribute read as a date that may be missing: [None] when it is
    not valid, else parsed with the format [%Y-%m-%d]. *)
Definition optional_date {St} (v : option pyval) : M St (option Z) :=
  match v with
  | None => ret None
  | Some x =>
      if not_valid_or_empty x then ret None
      else t <- lift (to_datetime_ymd (py_str x));; ret (Some t)
  end.

(** [Site.getMaturityDate]: [None] when it returns early, else the
    locals it reached. *)
Definition getMaturityDate (m : option Model) (threshold scale rate daysGF : pyval)
  : M Site (option maturity_locals) :=
  gf <- default_parameter daysGF m "DAYS_GRAIN_FILLING";;
  th <- default_parameter threshold m "TDAYS_THRESHOLD_MATURITY";;
  sc <- default_parameter scale m "TDAYS_SCALE_MATURITY";;
  rt <- default_parameter rate m "TDAYS_RATE_MATURITY";;
  wo <- gets weather;;
  match wo with
  | None => ret None
  | Some w =>
      r <- with_locals (None, None)
             (try_except
                (attrs <- call (gets attributes);;
                 let sowing_date := default PyNone (attrs !! "sowing") in
                 if not_valid_or_empty sowing_date then ret true
                 else
                   sow <- lift (to_datetime_ymd (py_str sowing_date));;
                   heading_date <- optional_date (attrs !! "heading");;
                   pred_heading_date <- optional_date (attrs !! "PredHeading");;
                   (match heading_date with
                    | Some h =>
                        est <- maturity_from w h sow th sc rt gf;;
                        set_local (fun l => (Some est, snd l))
                    | None => ret tt
                    end);;
                   (match pred_heading_date with
                    | Some ph =>
                        est <- maturity_from w ph sow th sc rt gf;;
                        set_local (fun l => (fst l, Some est))
                    | None => ret tt
                    end);;
                   ret false)
                (fun err =>
                   call (log_error
                     ("Estimating maturity date from weather using TAdjDays. Error: " +:+ err));;
                   ret false));;
      match r with
      | (_, Ok true) => ret None
      | (l, _) => ret (Some l)
      end
  end.

(** [str(date).split(' ')[0]] of a local that is a timestamp or [None]. *)
Definition date_or_None_str (d : option Z) : pyval :=
  PyStr (match d with Some t => date_str t | None => "None" end).

Definition int_or_None (z : option Z) : pyval :=
  match z with Some n => PyInt n | None => PyNone end.

(** The test that opens the three estimators:
    [if ('sowing' in attributes): s = ...; if (s not valid): return]. *)
Definition sowing_rejected (attrs : gmap string pyval) : bool :=
  match attrs !! "sowing" with
  | Some s => not_valid s
  | None => false
  end.

(** The local [s] of the estimators, bound only when the key is there. *)
Definition local_s {St} (attrs : gmap string pyval) : M St pyval :=
  match attrs !! "sowing" with
  | Some s => ret s
  | None => raise (unbound "s")
  end.

(** [Site.getEstimatedMaturity]. *)
Definition getEstimatedMaturity (m : option Model) (threshold scale rate daysGF : pyval)
  : M Site unit :=
  attrs <- gets attributes;;
  if sowing_rejected attrs then ret tt
  else
    try_except
      (r <- getMaturityDate m threshold scale rate daysGF;;
       match r with
       | None => raise "cannot unpack non-iterable NoneType object"
       | Some (H, pH) =>
           set_attr "PredMaturity_H" (date_or_None_str (fst <$> (fst <$> H)));;
           set_attr "PredDays_HM" (int_or_None (snd <$> H));;
           set_attr "PredDaysToMaturity_H" (int_or_None (snd <$> (fst <$> H)));;
           set_attr "PredMaturity_pH" (date_or_None_str (fst <$> (fst <$> pH)));;
           set_attr "PredDays_pHM" (int_or_None (snd <$> pH));;
           set_attr "PredDaysToMaturity_pH" (int_or_None (snd <$> (fst <$> pH)))
       end)
      (fun err => log_error ("Estimating Maturity date. Error: " +:+ err)).

(** ** Estimated phenology *)

(** [if (self.weather is None):
        self.weather = self.getWeather(m.config['WeatherFile'])]. *)
Definition ensure_weather (m : option Model) : M Site unit :=
  w <- gets weather;;
  match w with
  | Some _ => ret tt
  | None =>
      wf <- m_WeatherFile m;;
      w' <- getWeather wf PyNone PyNone;;
      modify (set_weather w')
  end.

(** [np.cumsum(self.GDD)]. *)
Definition cumsum_of {St} (g : option ndarray) : M St ndarray :=
  match g with
  | Some a => ret (Np.cumsum a)
  | None => raise "unsupported operand type(s) for +: 'NoneType' and 'NoneType'"
  end.

(** [Site.getEstimatedEmergence]. *)
Definition getEstimatedEmergence (m : option Model) : M Site unit :=
  ensure_weather m;;
  attrs <- gets attributes;;
  if sowing_rejected attrs then ret tt
  else
    s <- local_s attrs;;
    e <- a_year_after s;;
    d <- lift (date_range s e);;
    modify (set_pheno_dates (Some d));;
    try_except
      (w <- gets weather;;
       g <- getGDD m w (PyInt 0);;
       modify (set_GDD g);;
       g' <- gets GDD;;
       cGDD <- cumsum_of g';;
       pe <- getEmergenceDate m (Some cGDD) PyNone;;
       set_attr "PredEmergence" pe;;
       t1 <- lift (to_datetime (py_str pe));;
       t0 <- lift (to_datetime (py_str s));;
       set_attr "PredDaysToEmergence" (PyInt (t1 - t0)))
      (fun err => log_error ("Estimating Emergence date. Error: " +:+ err)).

(** [Site.getEstimatedHeading]. *)
Definition getEstimatedHeading (m : option Model) : M Site unit :=
  attrs <- gets attributes;;
  if sowing_rejected attrs then ret tt
  else
    try_except
      (dd <- getDayLengthDAP m PyNone;;
       dap <- m_parameter m "DAP";;
       set_attr ("Date@" +:+ py_str dap +:+ "DAS") (date_or_None_str (fst dd));;
       dap' <- m_parameter m "DAP";;
       set_attr ("DayLength@" +:+ py_str dap' +:+ "DAS") (snd dd);;
       DaysToHead <- getDaysToHeading m (snd dd);;
       set_attr "PredDaysToHead" (PyInt DaysToHead);;
       s <- local_s attrs;;
       t <- lift (to_datetime (py_str s));;
       set_attr "PredHeading" (PyStr (date_str (t + DaysToHead))))
      (fun err => log_error ("Estimating Heading date. Error: " +:+ err)).

(** [Site.getEstimatedPhenologyDates]. *)
Definition getEstimatedPhenologyDates (m : option Model) : M Site unit :=
  try_except
    (getEstimatedEmergence m;;
     getEstimatedHeading m;;
     getEstimatedMaturity m PyNone PyNone PyNone PyNone)
    (fun err => log_error ("Estimating phenology dates. Error: " +:+ err)).

(** ** Observed phenology *)

(** A local date of [getPhenologyDates]: the raw attribute, or the
    timestamp it was parsed to. *)
Inductive pydate : Type :=
| Raw (v : pyval)
| Stamp (t : Z).

Record pheno_locals : Type := {
  sowing_date : pydate;
  emergence_date : pydate;
  heading_date : pydate;
  anthesis_date : pydate;
  maturity_date : pydate
}.

Definition set_sowing_date (d : pydate) (l : pheno_locals) : pheno_locals :=
  {| sowing_date := d; emergence_date := emergence_date l; heading_date := heading_date l;
     anthesis_date := anthesis_date l; maturity_date := maturity_date l |}.
Definition set_emergence_date (d : pydate) (l : pheno_locals) : pheno_locals :=
  {| sowing_date := sowing_date l; emergence_date := d; heading_date := heading_date l;
     anthesis_date := anthesis_date l; maturity_date := maturity_date l |}.
Definition set_heading_date (d : pydate) (l : pheno_locals) : pheno_locals :=
  {| sowing_date := sowing_date l; emergence_date := emergence_date l; heading_date := d;
     anthesis_date := anthesis_date l; maturity_date := maturity_date l |}.
Definition set_anthesis_date (d : pydate) (l : pheno_locals) : pheno_locals :=
  {| sowing_date := sowing_date l; emergence_date := emergence_date l;
     heading_date := heading_date l; anthesis_date := d; maturity_date := maturity_date l |}.
Definition set_maturity_date (d : pydate) (l : pheno_locals) : pheno_locals :=
  {| sowing_date := sowing_date l; emergence_date := emergence_date l;
     heading_date := heading_date l; anthesis_date := anthesis_date l; maturity_date := d |}.

(** One stage date of [getPhenologyDates]: the observed date when it is
    valid, else the sowing date plus the reported number of days, which is
    also written back as the observed date. *)
Definition observed_or_offset (key days_key : string) (sow : Z) (cur : pyval)
    (setl : pydate -> pheno_locals -> pheno_locals) : M (Site * pheno_locals) unit :=
  if negb (not_valid_or_empty cur) then
    t <- lift (to_datetime_ymd (py_str cur));;
    set_local (setl (Stamp t))
  else
    attrs <- call (gets attributes);;
    match attrs !! days_key with
    | None => ret tt
    | Some D =>
        if negb (not_valid_or_empty D) then
          n <- py_int D;;
          call (set_attr key (PyStr (date_str (sow + n))));;
          t <- lift (to_datetime_ymd (date_str (sow + n)));;
          set_local (setl (Stamp t))
        else ret tt
    end.

(** [Site.getPhenologyDates]: [None] when the sowing date is rejected,
    else the five locals. *)
Definition getPhenologyDates (m : option Model) : M Site (option pheno_locals) :=
  r <- with_locals
         {| sowing_date := Raw PyNone; emergence_date := Raw PyNone;
            heading_date := Raw PyNone; anthesis_date := Raw PyNone;
            maturity_date := Raw PyNone |}
         (try_except
            (attrs <- call (gets attributes);;
             let read k := default PyNone (attrs !! k) in
             set_local (set_sowing_date (Raw (read "sowing")));;
             set_local (set_emergence_date (Raw (read "emergence")));;
             set_local (set_heading_date (Raw (read "heading")));;
             set_local (set_anthesis_date (Raw (read "anthesis")));;
             set_local (set_maturity_date (Raw (read "maturity")));;
             if not_valid_or_empty (read "sowing") then ret true
             else
               sow <- lift (to_datetime_ymd (py_str (read "sowing")));;
               set_local (set_sowing_date (Stamp sow));;
               observed_or_offset "emergence" "Days_To_Emergence" sow (read "emergence")
                 set_emergence_date;;
               observed_or_offset "heading" "Days_To_Heading" sow (read "heading")
                 set_heading_date;;
               observed_or_offset "anthesis" "Days_To_Anthesis" sow (read "anthesis")
                 set_anthesis_date;;
               observed_or_offset "maturity" "Days_To_Maturity" sow (read "maturity")
                 set_maturity_date;;
               call (ensure_weather m);;
               ret false)
            (fun err =>
               call (log_error ("Estimating phenology dates. Error: " +:+ err));;
               ret false));;
  match r with
  | (_, Ok true) => ret None
  | (l, _) => ret (Some l)
  end.

(** ** Period masks *)

(** The named periods between two phenology events: S sowing, E emergence,
    H heading, M maturity, a [p] marks a predicted date; [dDAS] is the date
    [DAP] days after sowing. *)
Inductive period : Type :=
| SE | SpE | EH | pEH | EpH | pEpH | EM | pEM | pEpM
| SM | SpM | SH | SpH | HM | HpM | pHM | pHpM | dDAS_H | dDAS_pH.

Global Instance period_eq_dec : EqDecision period.
Proof. solve_decision. Defined.

Definition period_name (p : period) : string :=
  match p with
  | SE => "SE" | SpE => "SpE" | EH => "EH" | pEH => "pEH" | EpH => "EpH"
  | pEpH => "pEpH" | EM => "EM" | pEM => "pEM" | pEpM => "pEpM"
  | SM => "SM" | SpM => "SpM" | SH => "SH" | SpH => "SpH" | HM => "HM"
  | HpM => "HpM" | pHM => "pHM" | pHpM => "pHpM"
  | dDAS_H => "dDAS_H" | dDAS_pH => "dDAS_pH"
  end.

(** The locals [_mask_SE], ..., [_mask_dDAS_pH], each [None] or a mask. *)
Definition masks : Type := period -> option mask.

Definition no_masks : masks := fun _ => None.

Definition set_mask (p : period) (v : option mask) (ms : masks) : masks :=
  fun q => if decide (q = p) then v else ms q.

(** The locals of [getFilters] that its [try] block assigns.
    [pred_emergence_date] has no initial value: it is unbound ([None]
    here) until the block of [PredEmergence] runs. *)
Record filter_locals : Type := {
  fl_masks : masks;
  pred_emergence_date : option pyval;
  pred_heading_date : pyval;
  pred_maturity_date : pyval
}.

Definition fl_set_mask (p : period) (v : option mask) (l : filter_locals) : filter_locals :=
  {| fl_masks := set_mask p v (fl_masks l);
     pred_emergence_date := pred_emergence_date l;
     pred_heading_date := pred_heading_date l;
     pred_maturity_date := pred_maturity_date l |}.

Definition fl_set_pred_emergence (v : pyval) (l : filter_locals) : filter_locals :=
  {| fl_masks := fl_masks l; pred_emergence_date := Some v;
     pred_heading_date := pred_heading_date l;
     pred_maturity_date := pred_maturity_date l |}.

Definition fl_set_pred_heading (v : pyval) (l : filter_locals) : filter_locals :=
  {| fl_masks := fl_masks l; pred_emergence_date := pred_emergence_date l;
     pred_heading_date := v; pred_maturity_date := pred_maturity_date l |}.

Definition fl_set_pred_maturity (v : pyval) (l : filter_locals) : filter_locals :=
  {| fl_masks := fl_masks l; pred_emergence_date := pred_emergence_date l;
     pred_heading_date := pred_heading_date l; pred_maturity_date := v |}.

Definition assign_mask {S} (p : period) (v : option mask) : M (S * filter_locals) unit :=
  set_local (fl_set_mask p v).

(** [((self.weather['Date'] > a) & (self.weather['Date'] <= b))]. *)
Definition between {St} (w : DataFrame) (a b : pyval) : M St mask :=
  x <- date_gt w a;;
  y <- date_le w b;;
  ret (mask_and x y).

(** [_mask_P = between(a, b)]. *)
Definition assign_between {S} (p : period) (w : DataFrame) (a b : pyval)
  : M (S * filter_locals) unit :=
  mk <- between w a b;;
  assign_mask p (Some mk).

(** [str(a) >= str(b)], the comparison of Python strings. *)
Definition str_ge (a b : pyval) : bool := String.leb (py_str b) (py_str a).

(** A date local of [getFilters] after the check for empty values: kept
    when valid, [None] otherwise. *)
Definition checked (v : pyval) : pyval := if not_valid v then PyNone else v.

(** [if (_mask_P is not None):
        self.attributes['Days_P'] = len(self.weather[_mask_P])
        if (self.attributes['Days_P'] <= 0): _mask_P = None]. *)
Definition count_days (w : DataFrame) (p : period) : M (Site * filter_locals) unit :=
  l <- get_local;;
  match fl_masks l p with
  | None => ret tt
  | Some mk =>
      let n := df_len (df_select mk w) in
      call (set_attr ("Days_" +:+ period_name p) (PyInt (Z.of_nat n)));;
      if (Z.of_nat n <=? 0)%Z then assign_mask p None else ret tt
  end.

(** [self.weather[mask]]: the rows of the weather table under a mask; a
    [TypeError] when the table is [None]. *)
Definition weather_rows (k : mask) : M Site DataFrame :=
  wo <- gets weather;;
  match wo with
  | Some w => ret (df_select k w)
  | None => raise "'NoneType' object is not subscriptable"
  end.

(** The five statistics that [updateWeatherparams] writes for the rows of
    a mask; the keys carry the suffix of the period ([""] for the season). *)
Definition write_stats (suffix : string) (mk : option mask) : M Site unit :=
  match mk with
  | None => ret tt
  | Some k =>
      df <- weather_rows k;;
      tmin <- col df "TMIN";;
      set_attr ("Tmin" +:+ suffix) (PyFloat (Np.round_dec 1 (Np.nanmean tmin)));;
      tmax <- col df "TMAX";;
      set_attr ("Tmax" +:+ suffix) (PyFloat (Np.round_dec 1 (Np.nanmean tmax)));;
      tavg <- col df "TAVG";;
      set_attr ("Tavg" +:+ suffix) (PyFloat (Np.round_dec 1 (Np.nanmean tavg)));;
      srad <- col df "SolRad";;
      set_attr ("Srad" +:+ suffix) (PyFloat (Np.round_dec 1 (Np.nanmean srad)));;
      pcp <- col df "PCP";;
      set_attr ("Pcp" +:+ suffix) (PyFloat (Np.round_dec 0 (Np.series_sum pcp)))
  end.

(** [Site.updateWeatherparams]. *)
Definition updateWeatherparams (ms : masks) (season : bool) : M Site unit :=
  write_stats "" (ms SM);;
  if season then
    write_stats "_SH" (ms SH);;
    write_stats "_EH" (ms EH);;
    write_stats "_EpH" (ms EpH);;
    write_stats "_pEH" (ms pEH);;
    write_stats "_HM" (ms HM);;
    write_stats "_SpM" (ms SpM);;
    write_stats "_SpH" (ms SpH);;
    write_stats "_pEpH" (ms pEpH);;
    write_stats "_HpM" (ms HpM);;
    write_stats "_pHpM" (ms pHpM)
  else ret tt.

(** The body of the [try] of [getFilters]. [sowing], [emergence],
    [heading] and [maturity] are the observed dates after the check for
    empty values; [attrs] are the attributes, which no statement changes
    before the day counts. *)
Definition getFilters_body (m : option Model) (season : bool) (w : DataFrame)
    (attrs : gmap string pyval) (sowing emergence heading maturity : pyval)
  : M (Site * filter_locals) unit :=
  let there v := negb (is_none v) in
  (if there emergence then assign_between SE w sowing emergence
   else assign_mask SE None);;
  (if there emergence && there heading then assign_between EH w emergence heading
   else assign_mask EH None);;
  (if there emergence && there maturity then assign_between EM w emergence maturity
   else assign_mask EM None);;
  (if there heading && there maturity then
     assign_between HM w heading maturity;;
     if str_ge heading maturity then
       assign_mask HM None;;
       call (log_error "Observed heading is equal or greater than maturity")
     else ret tt
   else assign_mask HM None);;
  (if there sowing && there heading then assign_between SH w sowing heading
   else assign_mask SH None);;
  (if there sowing && there maturity then assign_between SM w sowing maturity
   else assign_mask SM None);;
  (match attrs !! "PredEmergence" with
   | Some pe =>
       set_local (fl_set_pred_emergence pe);;
       if not_valid pe then
         assign_mask SpE None;; assign_mask pEH None;; assign_mask pEM None
       else
         assign_between SpE w sowing pe;;
         (if there heading then assign_between pEH w pe heading
          else assign_mask pEH None);;
         (if there maturity then assign_between pEM w pe maturity
          else assign_mask pEM None)
   | None =>
       assign_mask SpE None;; assign_mask pEH None;; assign_mask pEM None
   end);;
  (match attrs !! "PredHeading" with
   | Some ph =>
       set_local (fl_set_pred_heading ph);;
       if not_valid ph then
         assign_mask SpH None;; assign_mask pHM None;;
         assign_mask EpH None;; assign_mask pEpH None
       else
         (if there sowing then assign_between SpH w sowing ph
          else assign_mask SpH None);;
         (if there emergence then assign_between EpH w emergence ph
          else assign_mask EpH None);;
         (if there maturity then
            assign_between pHM w ph maturity;;
            if str_ge ph maturity then
              call (log_error "Estimated heading is equal or greater than maturity")
            else ret tt
          else assign_mask pHM None);;
         l <- get_local;;
         match pred_emergence_date l with
         | None => raise (unbound "pred_emergence_date")
         | Some pe => if there pe then assign_between pEpH w pe ph else ret tt
         end
   | None =>
       assign_mask SpH None;; assign_mask pHM None;;
       assign_mask EpH None;; assign_mask pEpH None
   end);;
  (match attrs !! "PredMaturity_H" with
   | Some pm =>
       set_local (fl_set_pred_maturity pm);;
       if not_valid pm then
         assign_mask HpM None;; assign_mask pEpM None
       else
         (if there sowing then assign_between SpM w sowing pm
          else assign_mask SpM None);;
         (if there heading then
            assign_between HpM w heading pm;;
            if str_ge heading pm then
              assign_mask HpM None;;
              call (log_error "Observed heading is equal or greater than estimated maturity")
            else ret tt
          else assign_mask HpM None);;
         l <- get_local;;
         match pred_emergence_date l with
         | None => raise (unbound "pred_emergence_date")
         | Some pe => if there pe then assign_between pEpM w pe pm
                      else assign_mask pEpM None
         end
   | None => assign_mask HpM None;; assign_mask pEpM None
   end);;
  (match attrs !! "PredMaturity_pH" with
   | Some pm =>
       set_local (fl_set_pred_maturity pm);;
       if not_valid pm then assign_mask pHpM None
       else
         l <- get_local;;
         assign_between pHpM w (pred_heading_date l) pm;;
         if str_ge (pred_heading_date l) pm then
           assign_mask pHpM None;;
           call (log_error "Estimated heading is equal or greater than estimated maturity")
         else ret tt
   | None => assign_mask pHpM None
   end);;
  dap <- m_parameter m "DAP";;
  (match attrs !! ("Date@" +:+ py_str dap +:+ "DAS") with
   | Some dDAS =>
       (if there heading then assign_between dDAS_H w dDAS heading
        else assign_mask dDAS_H None);;
       l <- get_local;;
       if there (pred_heading_date l) then
         assign_between dDAS_pH w dDAS (pred_heading_date l)
       else assign_mask dDAS_pH None
   | None => ret tt
   end);;
  count_days w SE;; count_days w SpE;; count_days w EH;; count_days w pEH;;
  count_days w EpH;; count_days w pEpH;; count_days w EM;; count_days w pEM;;
  count_days w pEpM;; count_days w SM;; count_days w SpM;; count_days w SH;;
  count_days w SpH;; count_days w HM;; count_days w HpM;; count_days w pHM;;
  count_days w pHpM;;
  l <- get_local;;
  call (updateWeatherparams (fl_masks l) season).

(** [Site.getFilters]: [None] when it returns early, else the masks. *)
Definition getFilters (m : option Model) (season : bool) : M Site (option masks) :=
  wo <- gets weather;;
  match wo with
  | None => ret None
  | Some w =>
      attrs <- gets attributes;;
      let read k := default PyNone (attrs !! k) in
      if not_valid (read "sowing") then ret None
      else
        r <- with_locals
               {| fl_masks := no_masks; pred_emergence_date := None;
                  pred_heading_date := PyNone; pred_maturity_date := PyNone |}
               (try_except
                  (getFilters_body m season w attrs (read "sowing")
                     (checked (read "emergence")) (checked (read "heading"))
                     (checked (read "maturity")))
                  (fun err =>
                     call (log_error ("Getting filters for weather. Error: " +:+ err))));;
        ret (Some (fl_masks (fst r)))
  end.

(** ** Normalized thermal time *)

(** [(g - np.nanmin(g)) / (np.nanmax(g) - np.nanmin(g))]. *)
Definition normalize {St} (g : ndarray) : M St ndarray :=
  match Np.nanmin g, Np.nanmax g with
  | Some lo, Some hi => ret (map (fun x => Np.div (Np.sub x lo) (Np.sub hi lo)) g)
  | _, _ => raise "zero-size array to reduction operation fmin which has no identity"
  end.

(** [if (cGDD is not None): self.<f> = normalize(cGDD) else: self.<f> = None]. *)
Definition normalize_into (f : string) (cGDD : option ndarray) : M Site unit :=
  match cGDD with
  | Some g => n <- normalize g;; set_field f (Some n)
  | None => set_field f None
  end.

(** [Site.getNormalizeThermalTime]. *)
Definition getNormalizeThermalTime
    (cGDD_EH cGDD_pEH cGDD_EpH cGDD_pEpH cGDD_HM cGDD_pHM cGDD_pHpM cGDD_HpM : option ndarray)
  : M Site unit :=
  try_except
    (normalize_into "Norm_TT_EH" cGDD_EH;;
     normalize_into "Norm_TT_EpH" cGDD_EpH;;
     normalize_into "Norm_TT_pEH" cGDD_pEH;;
     normalize_into "Norm_TT_pEpH" cGDD_pEpH)
    (fun err => log_error
       ("Normalizing GDD or thermal time from Emergence to Heading. Error: " +:+ err));;
  try_except
    (normalize_into "Norm_TT_HM" cGDD_HM;;
     normalize_into "Norm_TT_pHM" cGDD_pHM;;
     normalize_into "Norm_TT_HpM" cGDD_HpM;;
     normalize_into "Norm_TT_pHpM" cGDD_pHpM)
    (fun err => log_error
       ("Normalizing GDD or thermal time from Heading to Maturity. Error: " +:+ err)).

(** ** Inputs of the light interception *)

(** The part of [setupIPAR] for one period: day temperature and reduction
    factor of the rows of its mask. *)
Definition setup_prft (m : option Model) (p : string) (mk : option mask)
  : M Site unit :=
  match mk with
  | Some k =>
      df <- weather_rows k;;
      TDay <- getTDay m (Some df) PyNone;;
      set_field ("TDay_" +:+ p) TDay;;
      match TDay with
      | Some _ => prft <- getPRFT m TDay PyNone;; set_field ("PRFT_" +:+ p) prft
      | None => ret tt
      end
  | None =>
      set_field ("TDay_" +:+ p) None;;
      set_field ("PRFT_" +:+ p) None
  end.

(** The part of [setupIPAR] for the solar radiation of one period. *)
Definition setup_solrad (p : string) (mk : option mask) : M Site unit :=
  match mk with
  | Some k =>
      df <- weather_rows k;;
      sr <- col df "SolRad";;
      set_field ("SolRad_" +:+ p) (Some sr)
  | None => set_field ("SolRad_" +:+ p) None
  end.

(** [Site.setupIPAR]. *)
Definition setupIPAR (m : option Model)
    (mEH mpEH mEpH mpEpH mHM mpHM mHpM mpHpM : option mask) : M Site unit :=
  setup_prft m "EH" mEH;;
  setup_prft m "pEH" mpEH;;
  setup_prft m "EpH" mEpH;;
  setup_prft m "pEpH" mpEpH;;
  setup_prft m "HM" mHM;;
  setup_prft m "pHM" mpHM;;
  setup_prft m "HpM" mHpM;;
  setup_prft m "pHpM" mpHpM;;
  setup_solrad "EH" mEH;;
  setup_solrad "EpH" mEpH;;
  setup_solrad "pEH" mpEH;;
  setup_solrad "pEpH" mpEpH;;
  setup_solrad "HM" mHM;;
  setup_solrad "pHM" mpHM;;
  setup_solrad "HpM" mHpM;;
  setup_solrad "pHpM" mpHpM.

(** ** Weather parameters of the periods *)

(** [self.GDD[idxs]]: the cells of the array at the positions. *)
Definition take_positions {St} (g : option ndarray) (idxs : list nat) : M St ndarray :=
  match g with
  | None => raise "'NoneType' object is not subscriptable"
  | Some a =>
      match mapM (fun i => a !! i) idxs with
      | Some cells => ret cells
      | None => raise "index is out of bounds for axis 0"
      end
  end.

(** The cumulative thermal time of one period in [getWeatherParameters]:
    the positions of its rows ([None] when the mask is [None] or selects
    no row), and the attribute set to the largest cumulative sum. The key
    of the attribute is evaluated after the value. *)
Definition period_cGDD (key : M Site string) (mk : option mask) : M Site (option (list nat)) :=
  match mk with
  | None => ret None
  | Some k =>
      let idxs := positions k in
      if (Z.of_nat (length idxs) <=? 0)%Z then ret None
      else
        g <- gets GDD;;
        cells <- take_positions g idxs;;
        match Np.nanmax (Np.cumsum cells) with
        | Some x => name <- key;; set_attr name (PyFloat x);; ret (Some idxs)
        | None => raise "zero-size array to reduction operation fmax which has no identity"
        end
  end.

(** The key ['cGDD_{}DAS_H'.format(m.parameters['DAP'])] and its like. *)
Definition das_key (m : option Model) (suffix : string) : M Site string :=
  dap <- m_parameter m "DAP";;
  ret ("cGDD_" +:+ py_str dap +:+ suffix).

(** [np.cumsum(self.GDD[idxs])] when the positions are not [None]. *)
Definition cGDD_of (idxs : option (list nat)) : M Site (option ndarray) :=
  match idxs with
  | None => ret None
  | Some i =>
      g <- gets GDD;;
      cells <- take_positions g i;;
      ret (Some (Np.cumsum cells))
  end.

(** The mask a period keeps after its positions were taken. *)
Definition kept_mask (mk : option mask) (idxs : option (list nat)) : option mask :=
  match idxs with
  | Some _ => mk
  | None => None
  end.

(** The fields that [getWeatherParameters] resets to [None]. *)
Definition reset_fields : list string :=
  ["Norm_TT_EH"; "Norm_TT_HM"; "Norm_TT_pEH"; "Norm_TT_EpH"; "Norm_TT_pHM";
   "Norm_TT_HpM"; "Norm_TT_pEpH"; "Norm_TT_pHpM";
   "Norm_SimNDVI_EH"; "Norm_SimNDVI_HM"; "Norm_SimNDVI_EpH"; "Norm_SimNDVI_pEH";
   "Norm_SimNDVI_pHM"; "Norm_SimNDVI_HpM"; "Norm_SimNDVI_pEpH"; "Norm_SimNDVI_pHpM"].

Definition set_fields_None (fs : list string) : M Site unit :=
  modify (fun s => set_fields (foldl (fun acc f => <[f := None]> acc) (fields s) fs) s).

(** [Site.getWeatherParameters]. *)
Definition getWeatherParameters (m : option Model) (season : bool) : M Site unit :=
  wo <- gets weather;;
  match wo with
  | None => ret tt
  | Some w =>
      set_fields_None reset_fields;;
      fo <- getFilters m season;;
      match fo with
      | None => raise "cannot unpack non-iterable NoneType object"
      | Some ms =>
          try_except
            (period_cGDD (ret "cGDD_SM") (ms SM);;
             period_cGDD (ret "cGDD_SH") (ms SH);;
             period_cGDD (ret "cGDD_SE") (ms SE);;
             period_cGDD (ret "cGDD_SpE") (ms SpE);;
             iEH <- period_cGDD (ret "cGDD_EH") (ms EH);;
             iEpH <- period_cGDD (ret "cGDD_EpH") (ms EpH);;
             ipEH <- period_cGDD (ret "cGDD_pEH") (ms pEH);;
             ipEpH <- period_cGDD (ret "cGDD_pEpH") (ms pEpH);;
             period_cGDD (ret "cGDD_EM") (ms EM);;
             period_cGDD (ret "cGDD_pEM") (ms pEM);;
             iHM <- period_cGDD (ret "cGDD_HM") (ms HM);;
             period_cGDD (das_key m "DAS_H") (ms dDAS_H);;
             ipHM <- period_cGDD (ret "cGDD_pHM") (ms pHM);;
             iHpM <- period_cGDD (ret "cGDD_HpM") (ms HpM);;
             period_cGDD (das_key m "DAS_pH") (ms dDAS_pH);;
             ipHpM <- period_cGDD (ret "cGDD_pHpM") (ms pHpM);;
             cGDD_EH <- cGDD_of iEH;;
             cGDD_EpH <- cGDD_of iEpH;;
             cGDD_pEH <- cGDD_of ipEH;;
             cGDD_pEpH <- cGDD_of ipEpH;;
             cGDD_HM <- cGDD_of iHM;;
             cGDD_pHM <- cGDD_of ipHM;;
             cGDD_HpM <- cGDD_of iHpM;;
             cGDD_pHpM <- cGDD_of ipHpM;;
             getNormalizeThermalTime cGDD_EH cGDD_pEH cGDD_EpH cGDD_pEpH
               cGDD_HM cGDD_pHM cGDD_pHpM cGDD_HpM;;
             setupIPAR m (kept_mask (ms EH) iEH) (kept_mask (ms pEH) ipEH)
               (kept_mask (ms EpH) iEpH) (kept_mask (ms pEpH) ipEpH)
               (kept_mask (ms HM) iHM) (kept_mask (ms pHM) ipHM)
               (kept_mask (ms HpM) iHpM) (kept_mask (ms pHpM) ipHpM))
            (fun err => log_error
               ("Calculating additional weather parameters. Error: " +:+ err))
      end
  end.

(** ** Simulated NDVI *)

(** [Site.estimateNDVI_EH]. *)
Definition estimateNDVI_EH (m : option Model) (Norm_TT_EH : option ndarray)
  : M Site (option ndarray) :=
  match Norm_TT_EH with
  | None => ret None
  | Some t =>
      let parameter k := match m with
                         | Some _ => m_parameter m k
                         | None => global_parameter k
                         end in
      lower <- parameter "NDVI_lowerThreshold";;
      threshold <- parameter "NDVI_Threshold";;
      top <- parameter "NDVI_max";;
      lift (calculateNDVI_EH t lower threshold top)
  end.

(** [Site.estimateNDVI_HM]. *)
Definition estimateNDVI_HM (m : option Model) (Norm_TT_HM : option ndarray)
    (NDVI_atHeading : pyval) : M Site (option ndarray) :=
  match Norm_TT_HM with
  | None => ret None
  | Some t => lift (calculateNDVI_HM t NDVI_atHeading)
  end.

(** One emergence-to-heading variant of [estimateNDVI]. *)
Definition ndvi_rise (m : option Model) (p : string) : M Site unit :=
  t <- get_field ("Norm_TT_" +:+ p);;
  match t with
  | None => ret tt
  | Some _ =>
      x <- estimateNDVI_EH m t;;
      match x with
      | None => ret tt
      | Some a =>
          match last a with
          | Some v =>
              set_attr ("NDVI_atHeading_" +:+ p) (PyFloat v);;
              set_field ("Norm_SimNDVI_" +:+ p) (Some a)
          | None => raise "index -1 is out of bounds for axis 0 with size 0"
          end
      end
  end.

(** One heading-to-maturity variant of [estimateNDVI]: the NDVI at
    heading comes from the variant [a1], else from [a2]. *)
Definition ndvi_decay (m : option Model) (p a1 a2 : string) : M Site unit :=
  t <- get_field ("Norm_TT_" +:+ p);;
  match t with
  | None => ret tt
  | Some _ =>
      attrs <- gets attributes;;
      match attrs !! ("NDVI_atHeading_" +:+ a1), attrs !! ("NDVI_atHeading_" +:+ a2) with
      | Some v, _ | None, Some v =>
          x <- estimateNDVI_HM m t v;;
          match x with
          | Some a => set_field ("Norm_SimNDVI_" +:+ p) (Some a)
          | None => ret tt
          end
      | None, None => ret tt
      end
  end.

(** [Site.estimateNDVI]. *)
Definition estimateNDVI (m : option Model) : M Site unit :=
  try_except
    (ndvi_rise m "EH";;
     ndvi_rise m "pEH";;
     ndvi_rise m "EpH";;
     ndvi_rise m "pEpH";;
     ndvi_decay m "HM" "EH" "pEH";;
     ndvi_decay m "pHM" "EpH" "pEpH";;
     ndvi_decay m "HpM" "EH" "pEH";;
     ndvi_decay m "pHpM" "EpH" "pEpH")
    (fun err => log_error
       ("Estimating the normalized difference vegetation index (NDVI). Error: " +:+ err)).

(** ** Light interception, gross primary production and yield *)

(** Elementwise product of two arrays, and of an array and a number. *)
Definition arr_mul {St} (a b : ndarray) : M St ndarray :=
  if (length a =? length b)%nat then ret (zip_with Np.mul a b)
  else lift (shape_mismatch Np.mul a b).

Definition arr_scale (a : ndarray) (c : npfloat) : ndarray :=
  map (fun x => Np.mul x c) a.

(** [float("{:.3f}".format(x))] as an attribute value. *)
Definition rounded (n : nat) (x : npfloat) : pyval := PyFloat (Np.round_dec n x).

(** [np.concatenate([a, b[1:]])]: the value at heading is in both. *)
Definition join_at_heading (a b : ndarray) : ndarray := a ++ tail b.

(** One of the eight calls of [ipar.estimate_IPAR] in [getIPAR]. [tE] and
    [nE] name the emergence-to-heading variant, [nH] the heading-to-maturity
    one; [fNDVI], [fM], [fE], [fH] are the fields that take the four
    results and [fC] the field of the joined series. The attributes have
    the names of the fields. *)
Definition ipar_block (bounds constantIPAR : pyval)
    (tE nE nH fNDVI fM fE fH fC : string) : M Site unit :=
  let skip := set_field fC None;; set_field fNDVI None;; set_field fM None;;
              set_field fE None;; set_field fH None in
  t <- get_field ("Norm_TT_" +:+ tE);;
  match t with
  | None => skip
  | Some _ =>
      h <- get_field ("Norm_SimNDVI_" +:+ nH);;
      match h with
      | None => skip
      | Some _ =>
          e <- get_field ("Norm_SimNDVI_" +:+ nE);;
          r <- lift (estimate_IPAR t e h bounds constantIPAR);;
          let NDVI_xM := fst (fst (fst r)) in
          let iPAR_xM := snd (fst (fst r)) in
          let iPAR_E := snd (fst r) in
          let iPAR_H := snd r in
          set_field fNDVI NDVI_xM;;
          set_field fM iPAR_xM;;
          set_field fE iPAR_E;;
          set_field fH iPAR_H;;
          (match iPAR_xM with
           | Some a => set_attr fM (rounded 3 (Np.sum a))
           | None => ret tt
           end);;
          match iPAR_E, iPAR_H with
          | Some a, Some b =>
              set_field fC (Some (join_at_heading a b));;
              set_attr fE (rounded 3 (Np.sum a));;
              set_attr fH (rounded 3 (Np.sum b));;
              set_attr fC (rounded 3 (Np.sum (join_at_heading a b)))
          | _, _ => set_field fC None
          end
      end
  end.

(** [if ((self.<a> is not None) and (self.<b> is not None)):
        self.<c> = np.concatenate([self.<a>, self.<b>[1:]])
     else: self.<c> = None]. *)
Definition join_fields (a b c : string) : M Site unit :=
  x <- get_field a;;
  match x with
  | None => set_field c None
  | Some xa =>
      y <- get_field b;;
      match y with
      | None => set_field c None
      | Some yb => set_field c (Some (join_at_heading xa yb))
      end
  end.

(** The three fields when none of them is [None], read in this order. *)
Definition all_three (a b c : string) : M Site (option (ndarray * ndarray * ndarray)) :=
  x <- get_field a;;
  match x with
  | None => ret None
  | Some xa =>
      y <- get_field b;;
      match y with
      | None => ret None
      | Some yb =>
          z <- get_field c;;
          match z with
          | None => ret None
          | Some zc => ret (Some (xa, yb, zc))
          end
      end
  end.

(** [self.fIPAR_X = self.iPAR_X * self.PRFT_X * self.SolRad_X * 0.5]. *)
Definition fipar_of (x : string) : M Site unit :=
  r <- all_three ("iPAR_" +:+ x) ("PRFT_" +:+ x) ("SolRad_" +:+ x);;
  match r with
  | Some (ipar, prft, solrad) =>
      a <- arr_mul ipar prft;;
      b <- arr_mul a solrad;;
      set_field ("fIPAR_" +:+ x) (Some (arr_scale b (Fin 0.5)))
  | None => set_field ("fIPAR_" +:+ x) None
  end.

Definition sum_fipar_of (x : string) : M Site unit :=
  f <- get_field ("fIPAR_" +:+ x);;
  match f with
  | Some a => set_attr ("sumfIPAR_" +:+ x) (rounded 3 (Np.sum a))
  | None => ret tt
  end.

Definition norm_ipar_of (x : string) : M Site unit :=
  f <- get_field ("iPAR_" +:+ x);;
  match f with
  | Some a => n <- normalize a;; set_field ("Norm_iPAR_" +:+ x) (Some n)
  | None => ret tt
  end.

(** [SolRad * 0.5 * RUE * PRFT * iPAR]. *)
Definition gpp {St} (RUE : pyval) (solrad prft ipar : ndarray) : M St ndarray :=
  rue <- as_float RUE;;
  a <- arr_mul (arr_scale (arr_scale solrad (Fin 0.5)) rue) prft;;
  arr_mul a ipar.

(** The largest value of a cumulative sum. *)
Definition peak {St} (c : ndarray) : M St npfloat :=
  match Np.nanmax c with
  | Some x => ret x
  | None => raise "zero-size array to reduction operation fmax which has no identity"
  end.

(** The gross primary production of a joined series, in a [try] whose
    handler records nothing. *)
Definition gpp_joined (RUE : pyval) (x : string) : M Site unit :=
  try_except
    (if is_none RUE then ret tt
     else
       r <- all_three ("SolRad_" +:+ x) ("PRFT_" +:+ x) ("iPAR_" +:+ x);;
       match r with
       | Some (solrad, prft, ipar) =>
           g <- gpp RUE solrad prft ipar;;
           set_field ("GPP_" +:+ x) (Some g);;
           top <- peak (Np.cumsum g);;
           set_attr ("cGPP_" +:+ x) (rounded 3 top)
       | None => ret tt
       end)
    (fun _ => ret tt).

(** The gross primary production of one period: the attributes [cGPP_p]
    and [sumGPP_p], and the peak of the cumulative series when the inputs
    are there. The solar radiation is a pandas [Series], and so is the
    product. *)
Definition gpp_period (RUE : pyval) (p : string) : M Site (option npfloat) :=
  r <- (if is_none RUE then ret None
        else all_three ("SolRad_" +:+ p) ("PRFT_" +:+ p) ("iPAR_" +:+ p));;
  match r with
  | Some (solrad, prft, ipar) =>
      g <- gpp RUE solrad prft ipar;;
      top <- peak (Np.series_cumsum g);;
      set_attr ("cGPP_" +:+ p) (rounded 3 top);;
      set_attr ("sumGPP_" +:+ p) (rounded 3 (Np.series_sum g));;
      ret (Some top)
  | None =>
      set_attr ("cGPP_" +:+ p) PyNone;;
      set_attr ("sumGPP_" +:+ p) PyNone;;
      ret None
  end.

(** The NDVI at heading from the accumulated production:
    [0.00024355578828840187 * np.nanmax(cGPP) + 0.5755361655424565]. *)
Definition corrected_NDVI_atHeading (top : npfloat) : npfloat :=
  Np.add (Np.mul (Fin 0.00024355578828840187) top) (Fin 0.5755361655424565).

(** [(v * (max_val - min_val)) + min_val] with the bounds [0.16], [0.94]. *)
Definition denormalize (v : npfloat) : npfloat :=
  Np.add (Np.mul v (Np.sub (Fin 0.94) (Fin 0.16))) (Fin 0.16).

(** The period of a predicted emergence or heading: production and the
    attribute of the corrected NDVI at heading. *)
Definition gpp_rise (RUE : pyval) (p : string) : M Site unit :=
  top <- gpp_period RUE p;;
  match top with
  | Some x => set_attr ("NDVI_atHeading_" +:+ p) (rounded 3 (corrected_NDVI_atHeading x))
  | None => ret tt
  end.

(** The observed emergence-to-heading period: production, corrected NDVI
    at heading, and the heading-to-maturity curve computed again from it. *)
Definition gpp_EH (RUE : pyval) : M Site unit :=
  top <- gpp_period RUE "EH";;
  match top with
  | None => ret tt
  | Some x =>
      let corrected := corrected_NDVI_atHeading x in
      set_attr "NDVI_atHeading_EH" (rounded 3 corrected);;
      t <- get_field "Norm_TT_HM";;
      match t with
      | None => ret tt
      | Some tt_HM =>
          c <- lift (calculateNDVI_HM tt_HM (PyFloat corrected));;
          set_field "NDVI" c;;
          match c with
          | None => raise "'NoneType' object is not iterable"
          | Some curve => set_field "NDVI" (Some (map denormalize curve))
          end
      end
  end.

(** [self.attributes[dst] = float("{:.2f}".format(self.attributes[src] * YIELD_FACTOR))],
    or [None] when the production is [None]. *)
Definition yield_of (YIELD_FACTOR : pyval) (src dst : string) : M Site unit :=
  g <- get_attr src;;
  if is_none g then set_attr dst PyNone
  else
    x <- as_float g;;
    f <- as_float YIELD_FACTOR;;
    set_attr dst (rounded 2 (Np.mul x f)).

(** The block of [getIPAR] under "Cumulative GPP from Emergence to
    Heading" and "from Heading to Maturity": one [try] for the eight
    periods. *)
Definition cumulative_GPP (RUE : pyval) : M Site unit :=
  try_except
    (gpp_EH RUE;;
     gpp_rise RUE "pEH";;
     gpp_rise RUE "EpH";;
     gpp_rise RUE "pEpH";;
     gpp_period RUE "HM";;
     gpp_period RUE "pHM";;
     gpp_period RUE "HpM";;
     gpp_period RUE "pHpM";;
     ret tt)
    (fun err => log_error ("Cumulative GPP from Heading to Maturity. Error: " +:+ err)).

(** The block of [getIPAR] under "Estimate Yield from GPP". *)
Definition estimate_yield (YIELD_FACTOR : pyval) : M Site unit :=
  try_except
    (yield_of YIELD_FACTOR "sumGPP_HM" "SimYield";;
     yield_of YIELD_FACTOR "sumGPP_pHM" "SimYield_pH";;
     yield_of YIELD_FACTOR "sumGPP_HpM" "SimYield_pM";;
     yield_of YIELD_FACTOR "sumGPP_pHpM" "SimYield_pHpM")
    (fun err => log_error ("Estimating Yield. Error: " +:+ err)).

(** [Site.getIPAR]. *)
Definition getIPAR (m : option Model)
    (norm_iPAR_EH_bounds NDVI_constantIPAR RUE YIELD_FACTOR : pyval) : M Site unit :=
  nEH <- get_field "Norm_SimNDVI_EH";;
  npEH <- get_field "Norm_SimNDVI_pEH";;
  nEpH <- get_field "Norm_SimNDVI_EpH";;
  npEpH <- get_field "Norm_SimNDVI_pEpH";;
  match nEH, nEpH, npEH, npEpH with
  | None, None, None, None => ret tt
  | _, _, _, _ =>
      get_field "Norm_SimNDVI_HM";;
      get_field "Norm_SimNDVI_pHM";;
      get_field "Norm_SimNDVI_HpM";;
      get_field "Norm_SimNDVI_pHpM";;
      get_field "Norm_TT_EH";;
      get_field "Norm_TT_EpH";;
      get_field "Norm_TT_pEH";;
      get_field "Norm_TT_pEpH";;
      bounds <- default_parameter norm_iPAR_EH_bounds m "NORM_iPAR_EH_BOUNDS";;
      constantIPAR <- default_parameter NDVI_constantIPAR m "NDVI_constantIPAR";;
      rue <- default_parameter RUE m "RUE";;
      yield_factor <- default_parameter YIELD_FACTOR m "YIELD_FACTOR";;
      try_except
        (ipar_block bounds constantIPAR "EH" "EH" "HM"
           "NDVI_EM" "iPAR_EM" "iPAR_EH" "iPAR_HM" "iPAR_EHHM";;
         ipar_block bounds constantIPAR "pEH" "pEH" "HM"
           "NDVI_pEM" "iPAR_pEM" "iPAR_pEH" "iPAR_HM" "iPAR_pEHHM";;
         ipar_block bounds constantIPAR "EpH" "EpH" "pHM"
           "NDVI_EM" "iPAR_EM" "iPAR_EpH" "iPAR_pHM" "iPAR_EpHpHM";;
         ipar_block bounds constantIPAR "pEpH" "pEpH" "pHM"
           "NDVI_pEM" "iPAR_pEM" "iPAR_pEpH" "iPAR_pHM" "iPAR_pEpHpHM";;
         ipar_block bounds constantIPAR "EH" "EH" "HpM"
           "NDVI_EpM" "iPAR_EpM" "iPAR_EH" "iPAR_HpM" "iPAR_EHHpM";;
         ipar_block bounds constantIPAR "EpH" "EpH" "pHpM"
           "NDVI_EpM" "iPAR_EpM" "iPAR_EpH" "iPAR_pHpM" "iPAR_EpHpHpM";;
         ipar_block bounds constantIPAR "pEpH" "pEpH" "pHpM"
           "NDVI_pEpM" "iPAR_pEpM" "iPAR_pEpH" "iPAR_pHpM" "iPAR_pEpHpHpM";;
         ipar_block bounds constantIPAR "pEH" "pEH" "HpM"
           "NDVI_pEpM" "iPAR_pEpM" "iPAR_pEH" "iPAR_HpM" "iPAR_pEHHpM")
        (fun err => log_error
           ("Estimating Total light interception (iPAR). Error: " +:+ err));;
      join_fields "PRFT_EH" "PRFT_HM" "PRFT_EHHM";;
      join_fields "PRFT_EpH" "PRFT_pHM" "PRFT_EpHpHM";;
      join_fields "PRFT_pEH" "PRFT_HM" "PRFT_pEHHM";;
      join_fields "PRFT_EH" "PRFT_HpM" "PRFT_EHHpM";;
      join_fields "PRFT_pEH" "PRFT_HpM" "PRFT_pEHHpM";;
      join_fields "PRFT_EpH" "PRFT_pHpM" "PRFT_EpHpHpM";;
      join_fields "PRFT_pEpH" "PRFT_pHpM" "PRFT_pEpHpHpM";;
      join_fields "SolRad_EH" "SolRad_HM" "SolRad_EHHM";;
      join_fields "SolRad_EpH" "SolRad_pHM" "SolRad_EpHpHM";;
      join_fields "SolRad_pEH" "SolRad_HM" "SolRad_pEHHM";;
      join_fields "SolRad_EH" "SolRad_HpM" "SolRad_EHHpM";;
      join_fields "SolRad_pEH" "SolRad_HpM" "SolRad_pEHHpM";;
      join_fields "SolRad_EpH" "SolRad_pHpM" "SolRad_EpHpHpM";;
      join_fields "SolRad_pEpH" "SolRad_pHpM" "SolRad_pEpHpHpM";;
      try_except
        (fipar_of "EHHM";; fipar_of "EpHpHM";; fipar_of "pEHHM";; fipar_of "EHHpM";;
         fipar_of "pEHHpM";; fipar_of "EpHpHpM";; fipar_of "pEpHpHpM")
        (fun err => log_error ("Estimating fiPAR. Error: " +:+ err));;
      sum_fipar_of "EHHM";; sum_fipar_of "EpHpHM";; sum_fipar_of "pEHHM";;
      sum_fipar_of "EHHpM";; sum_fipar_of "pEHHpM";; sum_fipar_of "EpHpHpM";;
      sum_fipar_of "pEpHpHpM";;
      norm_ipar_of "EHHM";; norm_ipar_of "EpHpHM";; norm_ipar_of "pEHHM";;
      norm_ipar_of "EHHpM";; norm_ipar_of "pEHHpM";; norm_ipar_of "EpHpHpM";;
      norm_ipar_of "pEpHpHpM";;
      gpp_joined rue "EHHM";; gpp_joined rue "EpHpHM";; gpp_joined rue "pEHHM";;
      gpp_joined rue "EHHpM";; gpp_joined rue "pEHHpM";; gpp_joined rue "EpHpHpM";;
      gpp_joined rue "pEpHpHpM";;
      cumulative_GPP rue;;
      estimate_yield yield_factor
  end.

(** ** The pipeline *)

(** [Site.fit]: [None] without a model, else the attributes that
    [getAttr] returns. A bare [except:] swallows whatever a stage lets
    escape. *)
Definition fit (m : option Model) (season : bool) : M Site (option (gmap string pyval)) :=
  match m with
  | None => ret None
  | Some _ =>
      try_except
        (getPhenologyDates m;;
         getEstimatedPhenologyDates m;;
         getWeatherParameters m season;;
         estimateNDVI m;;
         getIPAR m PyNone PyNone PyNone PyNone;;
         u <- gets uid;;
         set_attr "UID" u;;
         l <- gets loc;;
         set_attr "location" l)
        (fun _ => ret tt);;
      a <- getAttr;;
      ret (Some a)
  end.

End SiteMethods.

(** ** A reference instance of the collaborators

    Dates are ISO strings ([YYYY-MM-DD]) on the proleptic Gregorian
    calendar; the functions of [iparyield] are stand-ins of the right
    shape. The instance serves the closed examples; the theorems are
    stated for every instance. *)
Module Reference.

(** Day number of a civil date, and back (days since 1970-01-01). *)
Definition days_from_civil (y m d : Z) : Z :=
  let y' := (if m <=? 2 then y - 1 else y)%Z in
  let era := (y' / 400)%Z in
  let yoe := (y' - era * 400)%Z in
  let mp := (if m >? 2 then m - 3 else m + 9)%Z in
  let doy := ((153 * mp + 2) / 5 + d - 1)%Z in
  let doe := (yoe * 365 + yoe / 4 - yoe / 100 + doy)%Z in
  (era * 146097 + doe - 719468)%Z.

Definition civil_from_days (t : Z) : Z * Z * Z :=
  let z := (t + 719468)%Z in
  let era := (z / 146097)%Z in
  let doe := (z - era * 146097)%Z in
  let yoe := ((doe - doe / 1460 + doe / 36524 - doe / 146096) / 365)%Z in
  let doy := (doe - (365 * yoe + yoe / 4 - yoe / 100))%Z in
  let mp := ((5 * doy + 2) / 153)%Z in
  let d := (doy - (153 * mp + 2) / 5 + 1)%Z in
  let m := (if mp <? 10 then mp + 3 else mp - 9)%Z in
  let y := (yoe + era * 400)%Z in
  ((if m <=? 2 then y + 1 else y)%Z, m, d).

Definition digit (a : Ascii.ascii) : option Z :=
  let n := Z.of_N (Ascii.N_of_ascii a) in
  if ((48 <=? n) && (n <=? 57))%Z then Some (n - 48)%Z else None.

Fixpoint digits (acc : Z) (s : string) : option Z :=
  match s with
  | EmptyString => Some acc
  | String a r =>
      match digit a with
      | Some d => digits (acc * 10 + d) r
      | None => None
      end
  end.

Definition parse_int (s : string) : option Z :=
  match s with
  | EmptyString => None
  | String a r =>
      if Ascii.eqb a "-"%char then
        match r with
        | EmptyString => None
        | _ => Z.opp <$> digits 0 r
        end
      else digits 0 s
  end.

Definition parse_ymd (s : string) : option Z :=
  if (String.length s =? 10)%nat then
    match digits 0 (substring 0 4 s), digits 0 (substring 5 2 s),
          digits 0 (substring 8 2 s) with
    | Some y, Some m, Some d =>
        if String.eqb (substring 4 1 s) "-" && String.eqb (substring 7 1 s) "-"
           && (1 <=? m)%Z && (m <=? 12)%Z && (1 <=? d)%Z && (d <=? 31)%Z
        then Some (days_from_civil y m d)
        else None
    | _, _, _ => None
    end
  else None.

Definition pad (width : nat) (z : Z) : string :=
  let s := pretty z in
  String.concat "" (replicate (width - String.length s) "0") +:+ s.

Definition show_ymd (t : Z) : string :=
  match civil_from_days t with
  | (y, m, d) => pad 4 y +:+ "-" +:+ pad 2 m +:+ "-" +:+ pad 2 d
  end.

Definition parsed (s : string) (msg : exn) : result Z :=
  match parse_ymd s with
  | Some t => Ok t
  | None => Raise msg
  end.

Definition number (v : pyval) : option npfloat :=
  match v with
  | PyInt z => Some (Fin (inject_Z z))
  | PyFloat x => Some x
  | _ => None
  end.

Definition days_between (a b : Z) : list Z :=
  map (fun i => (a + Z.of_nat i)%Z) (seq 0 (Z.to_nat (b - a + 1))).

Definition ipar_of_ndvi (a : ndarray) : ndarray :=
  map (fun x => Np.sub (Np.mul x (Fin 1.25)) (Fin 0.19)) a.

#[export] Instance externals : Externals := {|
  repr_float q := pretty (Qnum q) +:+ "/" +:+ pretty (Zpos (Qden q));
  int_of_string s :=
    match parse_int s with
    | Some z => Ok z
    | None => Raise "invalid literal for int() with base 10"
    end;
  to_datetime s := parsed s "Unknown datetime string format";
  to_datetime_ymd s := parsed s "time data doesn't match format";
  date_str := show_ymd;
  as_timestamp v :=
    match v with
    | PyStr s =>
        match parse_ymd s with
        | Some t => Ok (Some t)
        | None => Raise "Invalid comparison between dtype=datetime64[ns] and str"
        end
    | _ => Raise "Invalid comparison between dtype=datetime64[ns] and object"
    end;
  date_range a b :=
    match a, b with
    | PyStr s, PyStr e =>
        match parse_ymd s, parse_ymd e with
        | Some t, Some u => Ok (days_between t u)
        | _, _ => Raise "Unknown datetime string format"
        end
    | _, _ => Raise "Cannot convert input to Timestamp"
    end;
  strptime_yday v :=
    match v with
    | PyStr s =>
        match parse_ymd s with
        | Some t => Ok (t - days_from_civil (fst (fst (civil_from_days t))) 1 1 + 1)%Z
        | None => Raise "time data does not match format '%Y-%m-%d'"
        end
    | _ => Raise "strptime() argument 1 must be str"
    end;
  shape_mismatch _ _ _ := Raise "operands could not be broadcast together";
  PARAMETERS := ∅;
  calculateDayLength _ _ _ := Ok (PyFloat (Fin 10.5));
  estimate_TDay tmin tmax f :=
    match number f with
    | Some k => Ok (Some (zip_with (fun lo hi => Np.add lo (Np.mul k (Np.sub hi lo))) tmin tmax))
    | None => Raise "unsupported operand type(s)"
    end;
  calculateGDD tmin tmax base :=
    match number base with
    | Some b =>
        Ok (Some (zip_with
                    (fun lo hi => Np.fmax (Fin 0)
                                    (Np.sub (Np.div (Np.add lo hi) (Fin 2)) b))
                    tmin tmax))
    | None => Raise "unsupported operand type(s)"
    end;
  estimate_TAdjDay tavg _ _ _ := Ok (map (fun _ => Fin 1) tavg);
  calculateNDVI_EH t _ _ top :=
    match number top with
    | Some k => Ok (Some (map (fun x => Np.mul k x) t))
    | None => Raise "unsupported operand type(s)"
    end;
  calculateNDVI_HM t top :=
    match number top with
    | Some k => Ok (Some (map (fun x => Np.mul k (Np.sub (Fin 1) x)) t))
    | None => Raise "unsupported operand type(s)"
    end;
  estimate_IPAR _ nE nH _ _ :=
    match nE, nH with
    | Some a, Some b =>
        Ok (Some (a ++ tail b), Some (ipar_of_ndvi (a ++ tail b)),
            Some (ipar_of_ndvi a), Some (ipar_of_ndvi b))
    | _, _ => Ok (None, None, None, None)
    end
|}.

End Reference.

(** ** Concrete sites for the closed examples *)
Module Examples.
Import Reference.

Definition all_columns : list string :=
  ["Date"; "location"; "TMIN"; "TMAX"; "TAVG"; "SolRad"; "PCP"].

(** A weather row of location [1] on day [t]. *)
Definition wrow_at (t : Z) : wrow :=
  {| Date := t; location := PyInt 1; TMIN := Fin 10; TMAX := Fin 25;
     TAVG := Fin 17.5; SolRad := Fin 20; PCP := Fin 0 |}.

(** Daily weather of location [1] from [2015-11-15] for [n + 1] days. *)
Definition weather_from_sowing (n : nat) : DataFrame :=
  {| df_columns := all_columns;
     df_rows := map wrow_at (days_between 16754 (16754 + Z.of_nat n)) |}.

Definition model_with (prm : list (string * pyval)) : Model :=
  {| parameters := list_to_map prm; config := ∅ |}.

Definition site_with (attrs : list (string * pyval)) : Site :=
  Site_init (PyInt 7) (PyInt 1) (list_to_map attrs) ∅.

(** A SAWYT site, a model whose day-length boundary is 13 h, and one with
    the boundary 10.8 h. *)
Definition sawyt_site : Site := site_with [("Nursery", PyStr "SAWYT")].
Definition boundary_13 : Model := model_with [("CONST_DAYHR_AS", PyFloat (Fin 13))].
Definition boundary_10_8 : Model := model_with [("CONST_DAYHR_AS", PyFloat (Fin 10.8))].

(** A model that only has the parameter [DAP]. *)
Definition dap_model : Model := model_with [("DAP", PyInt 35)].

(** Thirteen days of weather and the dates of a season in which the
    observed heading is before maturity (the pair that is in order) while
    emergence is after heading and the estimated heading after maturity. *)
Definition unordered_site : Site :=
  set_weather (Some (weather_from_sowing 12))
    (site_with [("sowing", PyStr "2015-11-15"); ("emergence", PyStr "2015-11-20");
                ("heading", PyStr "2015-11-18"); ("maturity", PyStr "2015-11-25");
                ("PredEmergence", PyStr "2015-11-17");
                ("PredHeading", PyStr "2015-11-26")]).

(** The same weather and an observed heading on the day of maturity. *)
Definition heading_at_maturity : Site :=
  set_weather (Some (weather_from_sowing 12))
    (site_with [("sowing", PyStr "2015-11-15"); ("heading", PyStr "2015-11-25");
                ("maturity", PyStr "2015-11-25")]).

(** Weather, and a sowing date that is not valid. *)
Definition unsown_site : Site :=
  set_weather (Some (weather_from_sowing 12)) (site_with [("sowing", PyStr "nan")]).

(** Summed productions of the four variants, two of them [None]. *)
Definition gpp_site : Site :=
  site_with [("sumGPP_HM", PyFloat (Fin 1.234)); ("sumGPP_pHM", PyNone);
             ("sumGPP_HpM", PyFloat (Fin 2.5)); ("sumGPP_pHpM", PyNone)].

(** Two days from emergence to heading with their inputs of the
    production, and the normalized thermal time [tt] from heading to
    maturity. *)
Definition ndvi_site (tt : option ndarray) : Site :=
  set_fields
    (<["SolRad_EH" := Some [Fin 20; Fin 20]]>
     (<["PRFT_EH" := Some [Fin 1; Fin 1]]>
      (<["iPAR_EH" := Some [Fin 0.5; Fin 0.5]]>
       (<["Norm_TT_HM" := tt]> ∅))))
    (site_with []).

(** The parameters of the maturity estimate. *)
Definition maturity_model : Model :=
  model_with [("DAYS_GRAIN_FILLING", PyInt 40); ("TDAYS_THRESHOLD_MATURITY", PyInt 45);
              ("TDAYS_SCALE_MATURITY", PyInt 45);
              ("TDAYS_RATE_MATURITY", PyFloat (Fin 0.5))].

(** Thirteen days of weather from sowing, an observed heading [h] and an
    estimated heading [ph]. *)
Definition maturity_site (h ph : string) : Site :=
  set_weather (Some (weather_from_sowing 12))
    (site_with [("sowing", PyStr "2015-11-15"); ("heading", PyStr h);
                ("PredHeading", PyStr ph)]).

(** A weather row of location [2] on day [t], and a table of two
    locations over seven days from [2015-11-15]. *)
Definition wrow_elsewhere (t : Z) : wrow :=
  {| Date := t; location := PyInt 2; TMIN := Fin 5; TMAX := Fin 15;
     TAVG := Fin 10; SolRad := Fin 12; PCP := Fin 1 |}.

Definition two_locations : DataFrame :=
  {| df_columns := all_columns;
     df_rows := map wrow_at (days_between 16754 16760)
                ++ map wrow_elsewhere (days_between 16754 16760) |}.

(** A site with a sowing date and no weather. *)
Definition sown_site : Site := site_with [("sowing", PyStr "2015-11-15")].

(** A site with weather and no attribute at all. *)
Definition bare_site : Site :=
  set_weather (Some (weather_from_sowing 3)) (site_with []).

(** Weather, a sowing date and an estimated heading, without an estimated
    emergence. *)
Definition no_emergence_site : Site :=
  set_weather (Some (weather_from_sowing 12))
    (site_with [("sowing", PyStr "2015-11-15"); ("PredHeading", PyStr "2015-11-20")]).

End Examples.

(** ** Definitions used by the statements *)

(** The nursery group that [getDaysToHeading] reads from the attributes. *)
Definition is_sawyt (s : Site) : bool :=
  match attributes s !! "Nursery" with
  | Some n => eq_str n "SAWYT"
  | None => false
  end.

(** The regression line that the day length [d] selects at the boundary
    [c]: the line "from the boundary on" when [c <= d]. *)
Definition selected_line (sawyt : bool) (c d : Q) : npfloat :=
  if Qle_bool c d then heading_line_from sawyt (Fin d)
  else heading_line_below sawyt (Fin d).

(** The least and the greatest value of the series [x :: r]. *)
Definition qmin (a b : Q) : Q := if Qle_bool a b then a else b.
Definition qmax (a b : Q) : Q := if Qle_bool b a then a else b.
Definition least (x : Q) (r : list Q) : Q := fold_left qmin r x.
Definition greatest (x : Q) (r : list Q) : Q := fold_left qmax r x.

(** The normalization in the words of the specification:
    [(g - min(g)) / (max(g) - min(g))], elementwise. *)
Definition normalized_thermal_time (g : list Q) : ndarray :=
  match g with
  | [] => []
  | x :: r =>
      map (fun v => Np.div (Fin (v - least x r)) (Fin (greatest x r - least x r))) g
  end.

(** [x :: r] is strictly increasing. *)
Fixpoint strictly_increasing (x : Q) (r : list Q) : bool :=
  match r with
  | [] => true
  | y :: r' => negb (Qle_bool y x) && strictly_increasing y r'
  end.

(** A cumulative series handed to [getNormalizeThermalTime]: [None], or
    the finite cells [x :: r]. *)
Definition series_arg (o : option (Q * list Q)) : option ndarray :=
  (fun g => map Fin (fst g :: snd g)) <$> o.

Definition normalized_arg (o : option (Q * list Q)) : option ndarray :=
  (fun g => normalized_thermal_time (fst g :: snd g)) <$> o.

(** ** Invariants of method bodies *)

(** A body that never changes the state it runs in. *)
Definition stateless {St A} (c : M St A) : Prop :=
  forall st, fst (c st) = st.

(** An invariant kept by a body, whether it returns or raises. *)
Definition keeps {St A} (I : St -> Prop) (c : M St A) : Prop :=
  forall st, I st -> I (fst (c st)).

(** An invariant of the site, seen from a body that also has locals. *)
Definition on_site {L} (I : Site -> Prop) : Site * L -> Prop :=
  fun st => I (fst st).

(** An error entry of the site [s0]: a dict with exactly the keys [uid],
    [loc] and [error], the first two holding the identifiers of [s0]. *)
Definition tagged (s0 : Site) (e : error_entry) : Prop :=
  dom e = ({["uid"; "loc"; "error"]} : gset string)
  /\ e !! "uid" = Some (uid s0)
  /\ e !! "loc" = Some (loc s0)
  /\ exists msg, e !! "error" = Some (PyStr msg).

(** The site [s] comes from [s0] with the same identifiers and an error
    list that only got entries of [s0] appended. *)
Definition extends (s0 s : Site) : Prop :=
  uid s = uid s0 /\ loc s = loc s0
  /\ exists new, errors s = errors s0 ++ new /\ Forall (tagged s0) new.

(** ** The operations of a site *)

(** A call of a method of [Site] with its arguments. *)
Inductive operation : Type :=
| Call_getAttr
| Call_getRangeDates (s e : pyval)
| Call_getPhenologyDates (m : option Model)
| Call_getEstimatedEmergence (m : option Model)
| Call_getEstimatedHeading (m : option Model)
| Call_getEstimatedMaturity (m : option Model) (threshold scale rate daysGF : pyval)
| Call_getEstimatedPhenologyDates (m : option Model)
| Call_getWeather (weatherDF : option DataFrame) (s e : pyval)
| Call_getSowingDOY
| Call_getDayLength (d lat p : pyval)
| Call_getDayLengthDAP (m : option Model) (DAP : pyval)
| Call_getTDay (m : option Model) (w : option DataFrame) (tminFactor : pyval)
| Call_getGDD (m : option Model) (w : option DataFrame) (Tbase : pyval)
| Call_getPRFT (m : option Model) (TDay : option ndarray) (TOpt : pyval)
| Call_getEmergenceDate (m : option Model) (cGDD : option ndarray) (GDDreq : pyval)
| Call_getDaysToHeading (m : option Model) (dayHR : pyval)
| Call_getDaysToHeading_SAWYT (m : option Model) (dayHR : pyval)
| Call_getMaturityDate (m : option Model) (threshold scale rate daysGF : pyval)
| Call_getFilters (m : option Model) (season : bool)
| Call_getWeatherParameters (m : option Model) (season : bool)
| Call_setupIPAR (m : option Model) (mEH mpEH mEpH mpEpH mHM mpHM mHpM mpHpM : option mask)
| Call_getNormalizeThermalTime
    (cGDD_EH cGDD_pEH cGDD_EpH cGDD_pEpH cGDD_HM cGDD_pHM cGDD_pHpM cGDD_HpM : option ndarray)
| Call_updateWeatherparams (ms : masks) (season : bool)
| Call_estimateNDVI (m : option Model)
| Call_estimateNDVI_EH (m : option Model) (Norm_TT_EH : option ndarray)
| Call_estimateNDVI_HM (m : option Model) (Norm_TT_HM : option ndarray) (NDVI_atHeading : pyval)
| Call_getIPAR (m : option Model) (norm_iPAR_EH_bounds NDVI_constantIPAR RUE YIELD_FACTOR : pyval)
| Call_fit (m : option Model) (season : bool).

(** The effect of a call on the site, its result put aside. *)
Definition run `{Externals} (op : operation) : M Site unit :=
  let drop {A} (c : M Site A) : M Site unit := bind c (fun _ => ret tt) in
  match op with
  | Call_getAttr => drop getAttr
  | Call_getRangeDates s e => drop (getRangeDates s e)
  | Call_getPhenologyDates m => drop (getPhenologyDates m)
  | Call_getEstimatedEmergence m => getEstimatedEmergence m
  | Call_getEstimatedHeading m => getEstimatedHeading m
  | Call_getEstimatedMaturity m threshold scale rate daysGF =>
      getEstimatedMaturity m threshold scale rate daysGF
  | Call_getEstimatedPhenologyDates m => getEstimatedPhenologyDates m
  | Call_getWeather weatherDF s e => drop (getWeather weatherDF s e)
  | Call_getSowingDOY => drop getSowingDOY
  | Call_getDayLength d lat p => drop (getDayLength d lat p)
  | Call_getDayLengthDAP m DAP => drop (getDayLengthDAP m DAP)
  | Call_getTDay m w tminFactor => drop (getTDay m w tminFactor)
  | Call_getGDD m w Tbase => drop (getGDD m w Tbase)
  | Call_getPRFT m TDay TOpt => drop (getPRFT m TDay TOpt)
  | Call_getEmergenceDate m cGDD GDDreq => drop (getEmergenceDate m cGDD GDDreq)
  | Call_getDaysToHeading m dayHR => drop (getDaysToHeading m dayHR)
  | Call_getDaysToHeading_SAWYT m dayHR => drop (_getDaysToHeading_SAWYT m dayHR)
  | Call_getMaturityDate m threshold scale rate daysGF =>
      drop (getMaturityDate m threshold scale rate daysGF)
  | Call_getFilters m season => drop (getFilters m season)
  | Call_getWeatherParameters m season => getWeatherParameters m season
  | Call_setupIPAR m mEH mpEH mEpH mpEpH mHM mpHM mHpM mpHpM =>
      setupIPAR m mEH mpEH mEpH mpEpH mHM mpHM mHpM mpHpM
  | Call_getNormalizeThermalTime a b c d e f g h =>
      getNormalizeThermalTime a b c d e f g h
  | Call_updateWeatherparams ms season => updateWeatherparams ms season
  | Call_estimateNDVI m => estimateNDVI m
  | Call_estimateNDVI_EH m t => drop (estimateNDVI_EH m t)
  | Call_estimateNDVI_HM m t v => drop (estimateNDVI_HM m t v)
  | Call_getIPAR m a b c d => getIPAR m a b c d
  | Call_fit m season => drop (fit m season)
  end.

(** A body that always returns: no exception escapes it. *)
Definition never_raises {St A} (c : M St A) : Prop :=
  forall st, exists a, snd (c st) = Ok a.

(** A postcondition for a body: [Q] when it returns, [E] when it raises. *)
Definition triple {St A} (P : St -> Prop) (c : M St A) (Q E : St -> Prop) : Prop :=
  forall st, P st ->
    match c st with
    | (st', Ok _) => Q st'
    | (st', Raise _) => E st'
    end.

(** ** The ordering checks of [getFilters] *)

(** The three pairs of dates whose order [getFilters] checks and whose
    mask it sets to [None] on a violation. *)
Inductive ordering_check : Type :=
| Heading_Maturity
| Heading_PredMaturity
| PredHeading_PredMaturity.

Definition check_period (c : ordering_check) : period :=
  match c with
  | Heading_Maturity => HM
  | Heading_PredMaturity => HpM
  | PredHeading_PredMaturity => pHpM
  end.

(** The attribute that counts the days of a period. *)
Definition days_key (p : period) : string := "Days_" +:+ period_name p.

(** The site has its weather and a valid sowing date, both dates of the
    pair are there (valid where [getFilters] asks for it), and the start
    is not before the end as strings. *)
Definition violated `{Externals} (c : ordering_check) (s : Site) : bool :=
  let attrs := attributes s in
  match weather s with
  | None => false
  | Some _ =>
      negb (not_valid (default PyNone (attrs !! "sowing")))
      && match c with
         | Heading_Maturity =>
             match attrs !! "heading", attrs !! "maturity" with
             | Some h, Some mt =>
                 negb (not_valid h) && negb (not_valid mt) && str_ge h mt
             | _, _ => false
             end
         | Heading_PredMaturity =>
             match attrs !! "heading", attrs !! "PredMaturity_H" with
             | Some h, Some pm =>
                 negb (not_valid h) && negb (not_valid pm) && str_ge h pm
             | _, _ => false
             end
         | PredHeading_PredMaturity =>
             match attrs !! "PredHeading", attrs !! "PredMaturity_pH" with
             | Some ph, Some pm => negb (not_valid pm) && str_ge ph pm
             | _, _ => false
             end
         end
  end.

(** What [getFilters] keeps of the site [s0] while the mask of [p] is
    dropped: the day count of [p] is untouched, the errors only grow, by
    [n] entries at least. *)
Definition site_kept (p : period) (s0 : Site) (n : nat) (s : Site) : Prop :=
  attributes s !! days_key p = attributes s0 !! days_key p
  /\ extends s0 s
  /\ length (errors s0) + n <= length (errors s).

(** The same with the locals: the mask of [p] is [None], and the local
    [pred_heading_date] is the tracked value, when one is tracked. *)
Definition dropped (p : period) (s0 : Site) (n : nat) (track : option pyval)
    (st : Site * filter_locals) : Prop :=
  fl_masks (snd st) p = None
  /\ (forall v, track = Some v -> pred_heading_date (snd st) = v)
  /\ site_kept p s0 n (fst st).

(** ** Yield *)

(** A summed production as the attribute holds it: [None] or a float. *)
Definition gpp_attr (g : option Q) : pyval :=
  match g with
  | Some q => PyFloat (Fin q)
  | None => PyNone
  end.

(** The yield stored for it: [None], or the product with the factor at
    two decimals. *)
Definition yield_attr (f : Q) (g : option Q) : pyval :=
  match g with
  | Some q => rounded 2 (Fin (q * f))
  | None => PyNone
  end.

(** ** Maturity from the two heading dates *)

(** The attribute [v] read as a heading date gives the anchor [a]: none
    when the key is absent or its value not valid, else the parsed date. *)
Definition anchor_is `{Externals} (v : option pyval) (a : option Z) : Prop :=
  match a with
  | None =>
      match v with
      | None => True
      | Some x => not_valid_or_empty x = true
      end
  | Some t =>
      exists x, v = Some x /\ not_valid_or_empty x = false
                /\ to_datetime_ymd (py_str x) = Ok t
  end.

(** The variant of the anchor [a] gives the estimate [e]: none without an
    anchor, else what [maturity_from] returns. *)
Definition variant_is `{Externals} (w : DataFrame) (sow : Z)
    (th sc rt gf : pyval) (a : option Z) (e : option (Z * Z * Z)) : Prop :=
  match a with
  | None => e = None
  | Some t =>
      exists est, e = Some est
        /\ forall st : Site * maturity_locals,
             maturity_from w t sow th sc rt gf st = (st, Ok est)
  end.

(** The three attributes that [getEstimatedMaturity] writes for one
    variant, in the order date, days from heading, days from sowing: the
    date of no estimate is the string ['None'], its day counts are [None]. *)
Definition maturity_attrs `{Externals} (e : option (Z * Z * Z)) : pyval * pyval * pyval :=
  match e with
  | Some (d, to_maturity, from_heading) =>
      (PyStr (date_str d), PyInt from_heading, PyInt to_maturity)
  | None => (PyStr "None", PyNone, PyNone)
  end.

(** A key that [updateWeatherparams] may write: one of the five
    statistics with the suffix of a period. *)
Definition season_stats : list string := ["Tmin"; "Tmax"; "Tavg"; "Srad"; "Pcp"].

Definition statistic (x : string) : Prop :=
  exists base suffix, base ∈ season_stats /\ x = base +:+ suffix.

(** The site [s] is [s0] but for the attributes under the keys [written]. *)
Definition same_but (written : string -> Prop) (s0 s : Site) : Prop :=
  (forall x, ~ written x -> attributes s !! x = attributes s0 !! x)
  /\ uid s = uid s0 /\ loc s = loc s0 /\ params s = params s0
  /\ pheno_dates s = pheno_dates s0 /\ weather s = weather s0
  /\ GDD s = GDD s0 /\ errors s = errors s0 /\ fields s = fields s0.

(** The rows of the weather strictly after [ta] and up to [tb]. *)
Definition rows_between (w : DataFrame) (ta tb : Z) : list wrow :=
  List.filter (fun r => (Date r >? ta)%Z && (Date r <=? tb)%Z) (df_rows w).

(** While [getFilters] runs on [s0] with no estimated emergence: the
    attributes and the identifiers of the site are the ones of [s0], and
    the local [pred_emergence_date] is still unbound. *)
Definition emergence_unbound (s0 : Site) (st : Site * filter_locals) : Prop :=
  attributes (fst st) = attributes s0
  /\ extends s0 (fst st)
  /\ pred_emergence_date (snd st) = None.

(** * Properties *)

(** ** Invariants: the rules of the combinators *)

Section Rules.
Context {St : Type}.

Lemma stateless_ret {A} (a : A) : stateless (@ret St A a).
Proof. intros st. reflexivity. Qed.

Lemma stateless_raise {A} (e : exn) : stateless (@raise St A e).
Proof. intros st. reflexivity. Qed.

Lemma stateless_lift {A} (r : result A) : stateless (@lift St A r).
Proof. intros st. reflexivity. Qed.

Lemma stateless_get : stateless (@get St).
Proof. intros st. reflexivity. Qed.

Lemma stateless_gets {A} (f : St -> A) : stateless (gets f).
Proof. intros st. reflexivity. Qed.

Lemma stateless_bind {A B} (c : M St A) (k : A -> M St B) :
  stateless c -> (forall a, stateless (k a)) -> stateless (bind c k).
Proof.
  intros Hc Hk st. unfold bind. specialize (Hc st).
  destruct (c st) as [st' [a|e]]; cbn in Hc; subst st'; [apply Hk|reflexivity].
Qed.

Lemma stateless_try {A} (c : M St A) (h : exn -> M St A) :
  stateless c -> (forall e, stateless (h e)) -> stateless (try_except c h).
Proof.
  intros Hc Hh st. unfold try_except. specialize (Hc st).
  destruct (c st) as [st' [a|e]]; cbn in Hc; subst st'; [reflexivity|apply Hh].
Qed.

Lemma keeps_stateless {A} (I : St -> Prop) (c : M St A) : stateless c -> keeps I c.
Proof. intros Hc st Hst. rewrite Hc. exact Hst. Qed.

Lemma keeps_bind {A B} (I : St -> Prop) (c : M St A) (k : A -> M St B) :
  keeps I c -> (forall a, keeps I (k a)) -> keeps I (bind c k).
Proof.
  intros Hc Hk st Hst. unfold bind. specialize (Hc st Hst).
  destruct (c st) as [st' [a|e]]; cbn in Hc; [apply Hk|]; exact Hc.
Qed.

Lemma keeps_try {A} (I : St -> Prop) (c : M St A) (h : exn -> M St A) :
  keeps I c -> (forall e, keeps I (h e)) -> keeps I (try_except c h).
Proof.
  intros Hc Hh st Hst. unfold try_except. specialize (Hc st Hst).
  destruct (c st) as [st' [a|e]]; cbn in Hc; [|apply Hh]; exact Hc.
Qed.

Lemma keeps_modify (I : St -> Prop) (f : St -> St) :
  (forall st, I st -> I (f st)) -> keeps I (modify f).
Proof. intros Hf st Hst. apply Hf, Hst. Qed.

End Rules.

Lemma keeps_call {L A} (I : Site -> Prop) (c : M Site A) :
  keeps I c -> keeps (@on_site L I) (call c).
Proof.
  intros Hc [s l] Hst. unfold call, on_site in *. cbn [fst snd] in *.
  specialize (Hc s Hst). destruct (c s) as [s' r]. exact Hc.
Qed.

Lemma keeps_set_local {L} (I : Site -> Prop) (f : L -> L) :
  keeps (on_site I) (@set_local Site L f).
Proof. intros [s l] Hst. exact Hst. Qed.

Lemma keeps_with_locals {L A} (I : Site -> Prop) (l0 : L) (c : M (Site * L) A) :
  keeps (on_site I) c -> keeps I (with_locals l0 c).
Proof.
  intros Hc s Hs. unfold with_locals. specialize (Hc (s, l0) Hs).
  destruct (c (s, l0)) as [[s' l'] r]. exact Hc.
Qed.

Create HintDb stateless discriminated.
Create HintDb keeps discriminated.

#[local] Hint Resolve stateless_ret stateless_raise stateless_lift stateless_get
  stateless_gets : stateless.

(** Walk through a body: one rule per combinator, a case split per [if]
    and [match], the hint base for the bodies already done. *)
Ltac stateless_tac :=
  repeat first
    [ match goal with
      | |- stateless (ret _) => apply stateless_ret
      | |- stateless (raise _) => apply stateless_raise
      | |- stateless (lift _) => apply stateless_lift
      | |- stateless get => apply stateless_get
      | |- stateless (gets _) => apply stateless_gets
      | |- stateless (bind _ _) => apply stateless_bind; [|intros ?]
      | |- stateless (try_except _ _) => apply stateless_try; [|intros ?]
      | |- stateless (if ?b then _ else _) => destruct b
      | |- stateless (match ?x with _ => _ end) => destruct x
      | |- stateless (let _ := _ in _) => cbv zeta
      end
    | solve [auto with stateless]
    | apply stateless_ret | apply stateless_raise | apply stateless_lift
    | apply stateless_get | apply stateless_gets
    | apply stateless_bind; [|intros ?]
    | apply stateless_try; [|intros ?] ].

Ltac keeps_tac :=
  repeat first
    [ match goal with
      | |- keeps _ (bind _ _) => apply keeps_bind; [|intros ?]
      | |- keeps _ (try_except _ _) => apply keeps_try; [|intros ?]
      | |- keeps _ (call _) => apply keeps_call
      | |- keeps _ (set_local _) => apply keeps_set_local
      | |- keeps _ (with_locals _ _) => apply keeps_with_locals
      | |- keeps _ (if ?b then _ else _) => destruct b
      | |- keeps _ (match ?x with _ => _ end) => destruct x
      | |- keeps _ (let _ := _ in _) => cbv zeta
      end
    | solve [auto with keeps stateless]
    | solve [apply keeps_stateless; stateless_tac]
    | apply keeps_bind; [|intros ?]
    | apply keeps_try; [|intros ?]
    | apply keeps_call
    | apply keeps_set_local
    | apply keeps_with_locals ].

Section Properties.
Context `{Ext : Externals}.

(** ** Bodies that leave the state alone *)

Lemma stateless_as_float {St} v : stateless (as_float (St:=St) v).
Proof. unfold as_float; stateless_tac. Qed.
#[local] Hint Resolve stateless_as_float : stateless.

Lemma stateless_py_lt {St} a b : stateless (py_lt (St:=St) a b).
Proof. unfold py_lt; stateless_tac. Qed.
#[local] Hint Resolve stateless_py_lt : stateless.

Lemma stateless_py_ge {St} a b : stateless (py_ge (St:=St) a b).
Proof. unfold py_ge; stateless_tac. Qed.
#[local] Hint Resolve stateless_py_ge : stateless.

Lemma stateless_int_of_float {St} x : stateless (int_of_float (St:=St) x).
Proof. unfold int_of_float; stateless_tac. Qed.
#[local] Hint Resolve stateless_int_of_float : stateless.

Lemma stateless_py_int {St} v : stateless (py_int (St:=St) v).
Proof. unfold py_int; stateless_tac. Qed.
#[local] Hint Resolve stateless_py_int : stateless.

Lemma stateless_format_float {St} n v : stateless (format_float (St:=St) n v).
Proof. unfold format_float; stateless_tac. Qed.
#[local] Hint Resolve stateless_format_float : stateless.

Lemma stateless_m_parameter {St} m k : stateless (m_parameter (St:=St) m k).
Proof. unfold m_parameter; stateless_tac. Qed.
#[local] Hint Resolve stateless_m_parameter : stateless.

Lemma stateless_global_parameter {St} k : stateless (global_parameter (St:=St) k).
Proof. unfold global_parameter; stateless_tac. Qed.
#[local] Hint Resolve stateless_global_parameter : stateless.

Lemma stateless_default_parameter {St} x m k : stateless (default_parameter (St:=St) x m k).
Proof. unfold default_parameter; stateless_tac. Qed.
#[local] Hint Resolve stateless_default_parameter : stateless.

Lemma stateless_m_WeatherFile {St} m : stateless (m_WeatherFile (St:=St) m).
Proof. unfold m_WeatherFile; stateless_tac. Qed.
#[local] Hint Resolve stateless_m_WeatherFile : stateless.

Lemma stateless_a_year_after {St} s : stateless (a_year_after (St:=St) s).
Proof. unfold a_year_after; stateless_tac. Qed.
#[local] Hint Resolve stateless_a_year_after : stateless.

Lemma stateless_col_Date {St} df : stateless (col_Date (St:=St) df).
Proof. unfold col_Date; stateless_tac. Qed.
#[local] Hint Resolve stateless_col_Date : stateless.

Lemma stateless_col_location {St} df : stateless (col_location (St:=St) df).
Proof. unfold col_location; stateless_tac. Qed.
#[local] Hint Resolve stateless_col_location : stateless.

Lemma stateless_col {St} df c : stateless (col (St:=St) df c).
Proof. unfold col; stateless_tac. Qed.
#[local] Hint Resolve stateless_col : stateless.

Lemma stateless_date_cmp {St} cmp df v : stateless (date_cmp (St:=St) cmp df v).
Proof. unfold date_cmp; stateless_tac. Qed.
#[local] Hint Resolve stateless_date_cmp : stateless.

Lemma stateless_date_gt {St} df v : stateless (date_gt (St:=St) df v).
Proof. unfold date_gt; stateless_tac. Qed.
#[local] Hint Resolve stateless_date_gt : stateless.

Lemma stateless_date_ge {St} df v : stateless (date_ge (St:=St) df v).
Proof. unfold date_ge; stateless_tac. Qed.
#[local] Hint Resolve stateless_date_ge : stateless.

Lemma stateless_date_le {St} df v : stateless (date_le (St:=St) df v).
Proof. unfold date_le; stateless_tac. Qed.
#[local] Hint Resolve stateless_date_le : stateless.

Lemma stateless_between {St} w a b : stateless (between (St:=St) w a b).
Proof. unfold between; stateless_tac. Qed.
#[local] Hint Resolve stateless_between : stateless.

Lemma stateless_optional_date {St} v : stateless (optional_date (St:=St) v).
Proof. unfold optional_date; stateless_tac. Qed.
#[local] Hint Resolve stateless_optional_date : stateless.

Lemma stateless_local_s {St} attrs : stateless (local_s (St:=St) attrs).
Proof. unfold local_s; stateless_tac. Qed.
#[local] Hint Resolve stateless_local_s : stateless.

Lemma stateless_cumsum_of {St} g : stateless (cumsum_of (St:=St) g).
Proof. unfold cumsum_of; stateless_tac. Qed.
#[local] Hint Resolve stateless_cumsum_of : stateless.

Lemma stateless_maturity_from {St} w anchor sowing th sc rt gf : stateless (maturity_from (St:=St) w anchor sowing th sc rt gf).
Proof. unfold maturity_from; stateless_tac. Qed.
#[local] Hint Resolve stateless_maturity_from : stateless.

Lemma stateless_days_to_heading_of {St} sawyt m dayHR : stateless (days_to_heading_of (St:=St) sawyt m dayHR).
Proof. unfold days_to_heading_of; stateless_tac. Qed.
#[local] Hint Resolve stateless_days_to_heading_of : stateless.

Lemma stateless_calculatePRFT {St} TDay TOpt : stateless (calculatePRFT (St:=St) TDay TOpt).
Proof. unfold calculatePRFT; stateless_tac. Qed.
#[local] Hint Resolve stateless_calculatePRFT : stateless.

Lemma stateless_normalize {St} g : stateless (normalize (St:=St) g).
Proof. unfold normalize; stateless_tac. Qed.
#[local] Hint Resolve stateless_normalize : stateless.

Lemma stateless_arr_mul {St} a b : stateless (arr_mul (St:=St) a b).
Proof. unfold arr_mul; stateless_tac. Qed.
#[local] Hint Resolve stateless_arr_mul : stateless.

Lemma stateless_gpp {St} RUE solrad prft ipar : stateless (gpp (St:=St) RUE solrad prft ipar).
Proof. unfold gpp; stateless_tac. Qed.
#[local] Hint Resolve stateless_gpp : stateless.

Lemma stateless_peak {St} c : stateless (peak (St:=St) c).
Proof. unfold peak; stateless_tac. Qed.
#[local] Hint Resolve stateless_peak : stateless.

Lemma stateless_take_positions {St} g idxs : stateless (take_positions (St:=St) g idxs).
Proof. unfold take_positions; stateless_tac. Qed.
#[local] Hint Resolve stateless_take_positions : stateless.

Lemma stateless_get_field f : stateless (get_field f).
Proof. unfold get_field; stateless_tac. Qed.
#[local] Hint Resolve stateless_get_field : stateless.

Lemma stateless_get_attr k : stateless (get_attr k).
Proof. unfold get_attr; stateless_tac. Qed.
#[local] Hint Resolve stateless_get_attr : stateless.

Lemma stateless_getSowingDOY  : stateless (getSowingDOY).
Proof. unfold getSowingDOY; stateless_tac. Qed.
#[local] Hint Resolve stateless_getSowingDOY : stateless.

Lemma stateless_getDaysToHeading m dayHR : stateless (getDaysToHeading m dayHR).
Proof. unfold getDaysToHeading; stateless_tac. Qed.
#[local] Hint Resolve stateless_getDaysToHeading : stateless.

Lemma stateless_getDaysToHeading_SAWYT m dayHR : stateless (_getDaysToHeading_SAWYT m dayHR).
Proof. unfold _getDaysToHeading_SAWYT; stateless_tac. Qed.
#[local] Hint Resolve stateless_getDaysToHeading_SAWYT : stateless.

Lemma stateless_estimateNDVI_EH m t : stateless (estimateNDVI_EH m t).
Proof. unfold estimateNDVI_EH; stateless_tac. Qed.
#[local] Hint Resolve stateless_estimateNDVI_EH : stateless.

Lemma stateless_estimateNDVI_HM m t v : stateless (estimateNDVI_HM m t v).
Proof. unfold estimateNDVI_HM; stateless_tac. Qed.
#[local] Hint Resolve stateless_estimateNDVI_HM : stateless.

Lemma stateless_weather_rows k : stateless (weather_rows k).
Proof. unfold weather_rows; stateless_tac. Qed.
#[local] Hint Resolve stateless_weather_rows : stateless.

Lemma stateless_all_three a b c : stateless (all_three a b c).
Proof. unfold all_three; stateless_tac. Qed.
#[local] Hint Resolve stateless_all_three : stateless.

Lemma stateless_das_key m suffix : stateless (das_key m suffix).
Proof. unfold das_key; stateless_tac. Qed.
#[local] Hint Resolve stateless_das_key : stateless.

Lemma stateless_cGDD_of idxs : stateless (cGDD_of idxs).
Proof. unfold cGDD_of; stateless_tac. Qed.
#[local] Hint Resolve stateless_cGDD_of : stateless.


(** ** The error list only grows *)

Lemma extends_refl (s : Site) : extends s s.
Proof.
  split; [reflexivity|]. split; [reflexivity|].
  exists []. split; [symmetry; apply app_nil_r|constructor].
Qed.

Lemma extends_same (s0 s s' : Site) :
  uid s' = uid s -> loc s' = loc s -> errors s' = errors s ->
  extends s0 s -> extends s0 s'.
Proof.
  intros Hu Hl He (U & L & new & E & T).
  split; [congruence|]. split; [congruence|]. exists new. split; [congruence|exact T].
Qed.

Lemma entry_of_tagged (s0 s : Site) (msg : string) :
  uid s = uid s0 -> loc s = loc s0 -> tagged s0 (entry_of s msg).
Proof.
  intros Hu Hl. unfold tagged, entry_of. rewrite Hu, Hl. split.
  - rewrite !dom_insert_L, dom_empty_L. set_solver.
  - split; [apply lookup_insert_eq|]. split.
    + rewrite lookup_insert_ne by discriminate. apply lookup_insert_eq.
    + exists msg. rewrite !lookup_insert_ne by discriminate. apply lookup_insert_eq.
Qed.

Lemma extends_log_error (s0 : Site) (msg : string) : keeps (extends s0) (log_error msg).
Proof.
  apply keeps_modify. intros s (U & L & new & E & T).
  split; [exact U|]. split; [exact L|].
  exists (new ++ [entry_of s msg]). cbn [errors set_errors]. rewrite E, app_assoc.
  split; [reflexivity|]. apply Forall_app. split; [exact T|].
  constructor; [|constructor]. apply entry_of_tagged; assumption.
Qed.

Lemma extends_set_attr (s0 : Site) (k : string) (v : pyval) :
  keeps (extends s0) (set_attr k v).
Proof. apply keeps_modify. intros s H. eapply extends_same; [reflexivity..|exact H]. Qed.

Lemma extends_set_field (s0 : Site) (f : string) (v : option ndarray) :
  keeps (extends s0) (set_field f v).
Proof. apply keeps_modify. intros s H. eapply extends_same; [reflexivity..|exact H]. Qed.

Lemma extends_set_fields_None (s0 : Site) (fs : list string) :
  keeps (extends s0) (set_fields_None fs).
Proof. apply keeps_modify. intros s H. eapply extends_same; [reflexivity..|exact H]. Qed.

Lemma extends_set_pheno_dates (s0 : Site) d :
  keeps (extends s0) (modify (set_pheno_dates d)).
Proof. apply keeps_modify. intros s H. eapply extends_same; [reflexivity..|exact H]. Qed.

Lemma extends_set_weather (s0 : Site) w :
  keeps (extends s0) (modify (set_weather w)).
Proof. apply keeps_modify. intros s H. eapply extends_same; [reflexivity..|exact H]. Qed.

Lemma extends_set_GDD (s0 : Site) g :
  keeps (extends s0) (modify (set_GDD g)).
Proof. apply keeps_modify. intros s H. eapply extends_same; [reflexivity..|exact H]. Qed.

#[local] Hint Resolve extends_log_error extends_set_attr extends_set_field
  extends_set_fields_None extends_set_pheno_dates extends_set_weather
  extends_set_GDD : keeps.

Lemma extends_getAttr s0  : keeps (extends s0) (getAttr).
Proof. unfold getAttr; keeps_tac. Qed.
#[local] Hint Resolve extends_getAttr : keeps.

Lemma extends_getRangeDates s0 s e : keeps (extends s0) (getRangeDates s e).
Proof. unfold getRangeDates; keeps_tac. Qed.
#[local] Hint Resolve extends_getRangeDates : keeps.

Lemma extends_getWeather s0 weatherDF s e : keeps (extends s0) (getWeather weatherDF s e).
Proof. unfold getWeather; keeps_tac. Qed.
#[local] Hint Resolve extends_getWeather : keeps.

Lemma extends_getDayLength s0 d lat p : keeps (extends s0) (getDayLength d lat p).
Proof. unfold getDayLength; keeps_tac. Qed.
#[local] Hint Resolve extends_getDayLength : keeps.

Lemma extends_getDayLengthDAP s0 m DAP : keeps (extends s0) (getDayLengthDAP m DAP).
Proof. unfold getDayLengthDAP; keeps_tac. Qed.
#[local] Hint Resolve extends_getDayLengthDAP : keeps.

Lemma extends_getTDay s0 m w tminFactor : keeps (extends s0) (getTDay m w tminFactor).
Proof. unfold getTDay; keeps_tac. Qed.
#[local] Hint Resolve extends_getTDay : keeps.

Lemma extends_getGDD s0 m w Tbase : keeps (extends s0) (getGDD m w Tbase).
Proof. unfold getGDD; keeps_tac. Qed.
#[local] Hint Resolve extends_getGDD : keeps.

Lemma extends_getPRFT s0 m TDay TOpt : keeps (extends s0) (getPRFT m TDay TOpt).
Proof. unfold getPRFT; keeps_tac. Qed.
#[local] Hint Resolve extends_getPRFT : keeps.

Lemma extends_getEmergenceDate s0 m cGDD GDDreq : keeps (extends s0) (getEmergenceDate m cGDD GDDreq).
Proof. unfold getEmergenceDate; keeps_tac. Qed.
#[local] Hint Resolve extends_getEmergenceDate : keeps.

Lemma extends_getMaturityDate s0 m threshold scale rate daysGF : keeps (extends s0) (getMaturityDate m threshold scale rate daysGF).
Proof. unfold getMaturityDate; keeps_tac. Qed.
#[local] Hint Resolve extends_getMaturityDate : keeps.

Lemma extends_getEstimatedMaturity s0 m threshold scale rate daysGF : keeps (extends s0) (getEstimatedMaturity m threshold scale rate daysGF).
Proof. unfold getEstimatedMaturity; keeps_tac. Qed.
#[local] Hint Resolve extends_getEstimatedMaturity : keeps.

Lemma extends_ensure_weather s0 m : keeps (extends s0) (ensure_weather m).
Proof. unfold ensure_weather; keeps_tac. Qed.
#[local] Hint Resolve extends_ensure_weather : keeps.

Lemma extends_getEstimatedEmergence s0 m : keeps (extends s0) (getEstimatedEmergence m).
Proof. unfold getEstimatedEmergence; keeps_tac. Qed.
#[local] Hint Resolve extends_getEstimatedEmergence : keeps.

Lemma extends_getEstimatedHeading s0 m : keeps (extends s0) (getEstimatedHeading m).
Proof. unfold getEstimatedHeading; keeps_tac. Qed.
#[local] Hint Resolve extends_getEstimatedHeading : keeps.

Lemma extends_getEstimatedPhenologyDates s0 m : keeps (extends s0) (getEstimatedPhenologyDates m).
Proof. unfold getEstimatedPhenologyDates; keeps_tac. Qed.
#[local] Hint Resolve extends_getEstimatedPhenologyDates : keeps.

Lemma extends_observed_or_offset s0 key days_key sow cur setl : keeps (on_site (extends s0)) (observed_or_offset key days_key sow cur setl).
Proof. unfold observed_or_offset; keeps_tac. Qed.
#[local] Hint Resolve extends_observed_or_offset : keeps.

Lemma extends_getPhenologyDates s0 m : keeps (extends s0) (getPhenologyDates m).
Proof. unfold getPhenologyDates; keeps_tac. Qed.
#[local] Hint Resolve extends_getPhenologyDates : keeps.

Lemma extends_assign_mask s0 p v : keeps (on_site (extends s0)) (assign_mask (S:=Site) p v).
Proof. unfold assign_mask; keeps_tac. Qed.
#[local] Hint Resolve extends_assign_mask : keeps.

Lemma extends_assign_between s0 p w a b : keeps (on_site (extends s0)) (assign_between (S:=Site) p w a b).
Proof. unfold assign_between; keeps_tac. Qed.
#[local] Hint Resolve extends_assign_between : keeps.

Lemma extends_count_days s0 w p : keeps (on_site (extends s0)) (count_days w p).
Proof. unfold count_days; keeps_tac. Qed.
#[local] Hint Resolve extends_count_days : keeps.

Lemma extends_write_stats s0 suffix mk : keeps (extends s0) (write_stats suffix mk).
Proof. unfold write_stats; keeps_tac. Qed.
#[local] Hint Resolve extends_write_stats : keeps.

Lemma extends_updateWeatherparams s0 ms season : keeps (extends s0) (updateWeatherparams ms season).
Proof. unfold updateWeatherparams; keeps_tac. Qed.
#[local] Hint Resolve extends_updateWeatherparams : keeps.

Lemma extends_getFilters_body s0 m season w attrs sowing emergence heading maturity : keeps (on_site (extends s0)) (getFilters_body m season w attrs sowing emergence heading maturity).
Proof. unfold getFilters_body; keeps_tac. Qed.
#[local] Hint Resolve extends_getFilters_body : keeps.

Lemma extends_getFilters s0 m season : keeps (extends s0) (getFilters m season).
Proof. unfold getFilters; keeps_tac. Qed.
#[local] Hint Resolve extends_getFilters : keeps.

Lemma extends_normalize_into s0 f cGDD : keeps (extends s0) (normalize_into f cGDD).
Proof. unfold normalize_into; keeps_tac. Qed.
#[local] Hint Resolve extends_normalize_into : keeps.

Lemma extends_getNormalizeThermalTime s0 a b c d e f g h : keeps (extends s0) (getNormalizeThermalTime a b c d e f g h).
Proof. unfold getNormalizeThermalTime; keeps_tac. Qed.
#[local] Hint Resolve extends_getNormalizeThermalTime : keeps.

Lemma extends_setup_prft s0 m p mk : keeps (extends s0) (setup_prft m p mk).
Proof. unfold setup_prft; keeps_tac. Qed.
#[local] Hint Resolve extends_setup_prft : keeps.

Lemma extends_setup_solrad s0 p mk : keeps (extends s0) (setup_solrad p mk).
Proof. unfold setup_solrad; keeps_tac. Qed.
#[local] Hint Resolve extends_setup_solrad : keeps.

Lemma extends_setupIPAR s0 m a b c d e f g h : keeps (extends s0) (setupIPAR m a b c d e f g h).
Proof. unfold setupIPAR; keeps_tac. Qed.
#[local] Hint Resolve extends_setupIPAR : keeps.

Lemma extends_period_cGDD s0 key mk :
  stateless key -> keeps (extends s0) (period_cGDD key mk).
Proof. intros Hkey. unfold period_cGDD; keeps_tac. Qed.

#[local] Hint Resolve extends_period_cGDD : keeps.

Lemma extends_getWeatherParameters s0 m season : keeps (extends s0) (getWeatherParameters m season).
Proof. unfold getWeatherParameters; keeps_tac. Qed.
#[local] Hint Resolve extends_getWeatherParameters : keeps.

Lemma extends_ndvi_rise s0 m p : keeps (extends s0) (ndvi_rise m p).
Proof. unfold ndvi_rise; keeps_tac. Qed.
#[local] Hint Resolve extends_ndvi_rise : keeps.

Lemma extends_ndvi_decay s0 m p a1 a2 : keeps (extends s0) (ndvi_decay m p a1 a2).
Proof. unfold ndvi_decay; keeps_tac. Qed.
#[local] Hint Resolve extends_ndvi_decay : keeps.

Lemma extends_estimateNDVI s0 m : keeps (extends s0) (estimateNDVI m).
Proof. unfold estimateNDVI; keeps_tac. Qed.
#[local] Hint Resolve extends_estimateNDVI : keeps.

Lemma extends_ipar_block s0 bounds cst tE nE nH fNDVI fM fE fH fC : keeps (extends s0) (ipar_block bounds cst tE nE nH fNDVI fM fE fH fC).
Proof. unfold ipar_block; keeps_tac. Qed.
#[local] Hint Resolve extends_ipar_block : keeps.

Lemma extends_join_fields s0 a b c : keeps (extends s0) (join_fields a b c).
Proof. unfold join_fields; keeps_tac. Qed.
#[local] Hint Resolve extends_join_fields : keeps.

Lemma extends_fipar_of s0 x : keeps (extends s0) (fipar_of x).
Proof. unfold fipar_of; keeps_tac. Qed.
#[local] Hint Resolve extends_fipar_of : keeps.

Lemma extends_sum_fipar_of s0 x : keeps (extends s0) (sum_fipar_of x).
Proof. unfold sum_fipar_of; keeps_tac. Qed.
#[local] Hint Resolve extends_sum_fipar_of : keeps.

Lemma extends_norm_ipar_of s0 x : keeps (extends s0) (norm_ipar_of x).
Proof. unfold norm_ipar_of; keeps_tac. Qed.
#[local] Hint Resolve extends_norm_ipar_of : keeps.

Lemma extends_gpp_joined s0 RUE x : keeps (extends s0) (gpp_joined RUE x).
Proof. unfold gpp_joined; keeps_tac. Qed.
#[local] Hint Resolve extends_gpp_joined : keeps.

Lemma extends_gpp_period s0 RUE p : keeps (extends s0) (gpp_period RUE p).
Proof. unfold gpp_period; keeps_tac. Qed.
#[local] Hint Resolve extends_gpp_period : keeps.

Lemma extends_gpp_rise s0 RUE p : keeps (extends s0) (gpp_rise RUE p).
Proof. unfold gpp_rise; keeps_tac. Qed.
#[local] Hint Resolve extends_gpp_rise : keeps.

Lemma extends_gpp_EH s0 RUE : keeps (extends s0) (gpp_EH RUE).
Proof. unfold gpp_EH; keeps_tac. Qed.
#[local] Hint Resolve extends_gpp_EH : keeps.

Lemma extends_yield_of s0 YF src dst : keeps (extends s0) (yield_of YF src dst).
Proof. unfold yield_of; keeps_tac. Qed.
#[local] Hint Resolve extends_yield_of : keeps.

Lemma extends_cumulative_GPP s0 RUE : keeps (extends s0) (cumulative_GPP RUE).
Proof. unfold cumulative_GPP; keeps_tac. Qed.
#[local] Hint Resolve extends_cumulative_GPP : keeps.

Lemma extends_estimate_yield s0 YF : keeps (extends s0) (estimate_yield YF).
Proof. unfold estimate_yield; keeps_tac. Qed.
#[local] Hint Resolve extends_estimate_yield : keeps.

Lemma extends_getIPAR s0 m a b c d : keeps (extends s0) (getIPAR m a b c d).
Proof. unfold getIPAR; keeps_tac. Qed.
#[local] Hint Resolve extends_getIPAR : keeps.

Lemma extends_fit s0 m season : keeps (extends s0) (fit m season).
Proof. unfold fit; keeps_tac. Qed.
#[local] Hint Resolve extends_fit : keeps.

(** C10. A site starts with an empty error list, and no operation takes
    an entry away or rewrites one: after any call the error list is the
    one before with entries appended, each a dict with exactly the keys
    [uid], [loc] and [error] that holds the identifiers of the site;
    the identifiers themselves never change. *)
Theorem errors_only_grow (op : operation) (s : Site)
    (uid0 loc0 : pyval) (attributes0 params0 : gmap string pyval) :
  errors (Site_init uid0 loc0 attributes0 params0) = []
  /\ extends s (fst (run op s)).
Proof.
  split; [reflexivity|].
  assert (keeps (extends s) (run op)) as H.
  { destruct op; unfold run; keeps_tac. }
  apply H, extends_refl.
Qed.

(** ** The pipeline always hands back the errors *)

Lemma never_raises_try {St A} (c : M St A) (h : exn -> M St A) :
  (forall e, never_raises (h e)) -> never_raises (try_except c h).
Proof.
  intros Hh st. unfold try_except. destruct (c st) as [st' [a|e]].
  - exists a. reflexivity.
  - apply Hh.
Qed.

Lemma never_raises_log (msg : string) : never_raises (log_error msg).
Proof. intros st. exists tt. reflexivity. Qed.

Lemma getPhenologyDates_never_raises (m : option Model) :
  never_raises (getPhenologyDates m).
Proof.
  intros s. unfold getPhenologyDates, bind, with_locals.
  match goal with |- context [try_except ?c ?h (s, ?l)] =>
    destruct (try_except c h (s, l)) as [[s' l'] r] end.
  destruct r as [[|]|e]; eexists; reflexivity.
Qed.

Lemma getEstimatedPhenologyDates_never_raises (m : option Model) :
  never_raises (getEstimatedPhenologyDates m).
Proof. apply never_raises_try. intros e. apply never_raises_log. Qed.

Lemma estimateNDVI_never_raises (m : option Model) : never_raises (estimateNDVI m).
Proof. apply never_raises_try. intros e. apply never_raises_log. Qed.

Lemma guarded_then_getAttr (c : M Site unit) (s : Site) :
  (try_except c (fun _ => ret tt);; a <- getAttr;; ret (Some a)) s
  = (set_attributes (<["errors" := PyErrorsRef]> (attributes (fst (c s)))) (fst (c s)),
     Ok (Some (<["errors" := PyErrorsRef]> (attributes (fst (c s)))))).
Proof.
  unfold bind, try_except. destruct (c s) as [s1 [[]|e]]; reflexivity.
Qed.


(** ** A violated ordering drops the period *)

Lemma triple_bind {St A B} (P Q R E : St -> Prop) (c : M St A) (k : A -> M St B) :
  triple P c Q E -> (forall a, triple Q (k a) R E) -> triple P (bind c k) R E.
Proof.
  intros Hc Hk st Hst. unfold bind. specialize (Hc st Hst).
  destruct (c st) as [st' [a|e]]; [apply Hk|]; exact Hc.
Qed.

Lemma triple_keeps {St A} (I : St -> Prop) (c : M St A) :
  keeps I c -> triple I c I I.
Proof.
  intros Hc st Hst. specialize (Hc st Hst). destruct (c st) as [st' [a|e]]; exact Hc.
Qed.

Lemma triple_weaken {St A} (P Q E Q' E' : St -> Prop) (c : M St A) :
  triple P c Q E -> (forall st, Q st -> Q' st) -> (forall st, E st -> E' st) ->
  triple P c Q' E'.
Proof.
  intros Hc HQ HE st Hst. specialize (Hc st Hst).
  destruct (c st) as [st' [a|e]]; [apply HQ|apply HE]; exact Hc.
Qed.

Lemma days_key_inj (p q : period) : days_key p = days_key q -> p = q.
Proof. destruct p, q; intros H; try reflexivity; discriminate H. Qed.

Section Dropped.
Variables (p : period) (s0 : Site).

Lemma site_kept_same (n : nat) (s s' : Site) :
  attributes s' !! days_key p = attributes s !! days_key p ->
  uid s' = uid s -> loc s' = loc s -> errors s' = errors s ->
  site_kept p s0 n s -> site_kept p s0 n s'.
Proof.
  intros Ha Hu Hl He (A & X & N). split; [congruence|].
  split; [eapply extends_same; eassumption|]. rewrite He. exact N.
Qed.

Lemma site_kept_weaken (n : nat) (s : Site) :
  site_kept p s0 (S n) s -> site_kept p s0 n s.
Proof. intros (A & X & N). split; [exact A|]. split; [exact X|lia]. Qed.

Lemma site_kept_logged (n : nat) (msg : string) (s : Site) :
  site_kept p s0 n s -> site_kept p s0 (S n) (fst (log_error msg s)).
Proof.
  intros (A & X & N). split; [exact A|].
  split; [apply extends_log_error; exact X|].
  cbn. rewrite length_app. cbn. lia.
Qed.

Lemma site_kept_log_error (n : nat) (msg : string) :
  keeps (site_kept p s0 n) (log_error msg).
Proof. intros s H. apply site_kept_weaken, site_kept_logged, H. Qed.

Lemma site_kept_set_attr (n : nat) (k : string) (v : pyval) :
  k <> days_key p -> keeps (site_kept p s0 n) (set_attr k v).
Proof.
  intros Hk. apply keeps_modify. intros s H.
  apply (site_kept_same n s); [|reflexivity..|exact H].
  cbn. apply lookup_insert_ne. exact Hk.
Qed.

Lemma site_kept_write_stats (n : nat) (suffix : string) (mk : option mask) :
  keeps (site_kept p s0 n) (write_stats suffix mk).
Proof.
  unfold write_stats.
  keeps_tac; apply site_kept_set_attr; destruct p; discriminate.
Qed.

Lemma site_kept_updateWeatherparams (n : nat) (ms : masks) (season : bool) :
  keeps (site_kept p s0 n) (updateWeatherparams ms season).
Proof.
  unfold updateWeatherparams. keeps_tac; apply site_kept_write_stats.
Qed.

Lemma dropped_weaken (n : nat) (track : option pyval) (st : Site * filter_locals) :
  dropped p s0 (S n) track st -> dropped p s0 n None st.
Proof.
  intros (Hm & Ht & Hs). split; [exact Hm|]. split; [discriminate|].
  apply site_kept_weaken, Hs.
Qed.

Lemma dropped_untrack (n : nat) (track : option pyval) (st : Site * filter_locals) :
  dropped p s0 n track st -> dropped p s0 n None st.
Proof. intros (Hm & Ht & Hs). split; [exact Hm|]. split; [discriminate|exact Hs]. Qed.

Lemma dropped_call {A} (n : nat) (track : option pyval) (c : M Site A) :
  keeps (site_kept p s0 n) c -> keeps (dropped p s0 n track) (call c).
Proof.
  intros Hc [s l] (Hm & Ht & Hs). unfold call. cbn [fst snd] in *.
  specialize (Hc s Hs). destruct (c s) as [s' r]. split; [exact Hm|]. split; assumption.
Qed.

Lemma dropped_assign_mask (n : nat) (track : option pyval) (q : period) (v : option mask) :
  q <> p \/ v = None -> keeps (dropped p s0 n track) (assign_mask q v).
Proof.
  intros Hq [s l] (Hm & Ht & Hs). split; [|split; assumption].
  cbn. unfold set_mask. destruct (decide (p = q)) as [->|]; [|exact Hm].
  destruct Hq as [Hq| ->]; [contradiction|reflexivity].
Qed.

Lemma dropped_assign_between (n : nat) (track : option pyval) (q : period)
    (w : DataFrame) (a b : pyval) :
  q <> p -> keeps (dropped p s0 n track) (assign_between q w a b).
Proof.
  intros Hq. unfold assign_between. apply keeps_bind.
  - apply keeps_stateless. stateless_tac.
  - intros mk. apply dropped_assign_mask. left. exact Hq.
Qed.

Lemma dropped_set_pred_emergence (n : nat) (track : option pyval) (v : pyval) :
  keeps (dropped p s0 n track) (set_local (fl_set_pred_emergence v)).
Proof. intros [s l] H. exact H. Qed.

Lemma dropped_set_pred_maturity (n : nat) (track : option pyval) (v : pyval) :
  keeps (dropped p s0 n track) (set_local (fl_set_pred_maturity v)).
Proof. intros [s l] H. exact H. Qed.

Lemma dropped_set_pred_heading (n : nat) (v : pyval) :
  keeps (dropped p s0 n None) (set_local (fl_set_pred_heading v)).
Proof.
  intros [s l] (Hm & Ht & Hs). split; [exact Hm|]. split; [discriminate|exact Hs].
Qed.

Lemma dropped_count_days (n : nat) (track : option pyval) (w : DataFrame) (q : period) :
  keeps (dropped p s0 n track) (count_days w q).
Proof.
  intros [s l] H. pose proof H as (Hm & Ht & Hs). cbn [fst snd] in Hm.
  unfold count_days. unfold bind at 1. unfold get_local, gets. cbn [fst snd].
  destruct (fl_masks l q) as [mk|] eqn:Hq; [|exact H].
  assert (q <> p) as Hne by (intros E; rewrite E in Hq; congruence).
  match goal with |- dropped _ _ _ _ (fst (?c ?st)) =>
    cut (keeps (dropped p s0 n track) c); [intros K; exact (K st H)|] end.
  apply keeps_bind.
  - apply dropped_call, site_kept_set_attr.
    intros E. apply Hne. apply days_key_inj. exact E.
  - intros _. destruct (_ <=? _)%Z.
    + apply dropped_assign_mask. right. reflexivity.
    + apply keeps_stateless, stateless_ret.
Qed.

(** The check of an ordering that is violated: the mask is assigned, set
    back to [None], and the error is logged. *)
Lemma dropped_check (n : nat) (track : option pyval) (w : DataFrame)
    (a b : pyval) (msg : string) :
  triple (dropped p s0 n track)
    (assign_between p w a b;; assign_mask p None;; call (log_error msg))
    (dropped p s0 (S n) track) (dropped p s0 n track).
Proof.
  intros [s l] (Hm & Ht & Hs). unfold assign_between. unfold bind at 1 2.
  pose proof (stateless_between (St:=Site * filter_locals) w a b (s, l)) as Hb.
  destruct (between w a b (s, l)) as [st' [mk|e]]; cbn [fst] in Hb; subst st'.
  - cbn. split; [|split].
    + cbn. unfold set_mask. destruct (decide (p = p)); [reflexivity|contradiction].
    + exact Ht.
    + apply (site_kept_logged n msg s Hs).
  - split; [exact Hm|]. split; assumption.
Qed.

(** The same for the pair of estimates, whose start is the local
    [pred_heading_date]. *)
Lemma dropped_check_local (n : nat) (ph : pyval) (w : DataFrame)
    (b : pyval) (msg : string) :
  str_ge ph b = true ->
  triple (dropped p s0 n (Some ph))
    (l <- get_local;;
     assign_between p w (pred_heading_date l) b;;
     if str_ge (pred_heading_date l) b then
       assign_mask p None;; call (log_error msg)
     else ret tt)
    (dropped p s0 (S n) (Some ph)) (dropped p s0 n (Some ph)).
Proof.
  intros Hge [s l] H. pose proof H as (Hm & Ht & Hs).
  unfold bind at 1. unfold get_local, gets. cbn [fst snd] in *.
  rewrite (Ht ph eq_refl), Hge.
  apply (dropped_check n (Some ph) w ph b msg (s, l) H).
Qed.

Lemma dropped_track (n : nat) (v : pyval) :
  triple (dropped p s0 n None) (set_local (fl_set_pred_heading v))
    (dropped p s0 n (Some v)) (dropped p s0 n None).
Proof.
  intros [s l] (Hm & Ht & Hs). cbn. split; [exact Hm|].
  split; [intros x [= <-]; reflexivity|exact Hs].
Qed.

Lemma triple_kept {A} (n : nat) (track : option pyval)
    (c : M (Site * filter_locals) A) :
  keeps (dropped p s0 n track) c ->
  triple (dropped p s0 n track) c (dropped p s0 n track) (dropped p s0 n None).
Proof.
  intros Hc. eapply triple_weaken; [apply triple_keeps, Hc|auto|].
  intros st. apply dropped_untrack.
Qed.

Lemma triple_logged {A} (n : nat) (track : option pyval)
    (c : M (Site * filter_locals) A) :
  keeps (dropped p s0 (S n) track) c ->
  triple (dropped p s0 (S n) track) c (dropped p s0 (S n) None) (dropped p s0 n None).
Proof.
  intros Hc. eapply triple_weaken; [apply triple_keeps, Hc| |].
  - intros st. apply dropped_untrack.
  - intros st. apply dropped_weaken.
Qed.

End Dropped.

(** The statements of [getFilters] that leave the mask of a dropped period
    alone. *)
Ltac dropped_tac :=
  repeat first
    [ match goal with
      | |- keeps _ (bind _ _) => apply keeps_bind; [|intros ?]
      | |- keeps _ (assign_mask _ _) =>
          apply dropped_assign_mask; solve [left; discriminate | right; reflexivity]
      | |- keeps _ (assign_between _ _ _ _) => apply dropped_assign_between; discriminate
      | |- keeps _ (set_local (fl_set_pred_emergence _)) => apply dropped_set_pred_emergence
      | |- keeps _ (set_local (fl_set_pred_maturity _)) => apply dropped_set_pred_maturity
      | |- keeps _ (set_local (fl_set_pred_heading _)) => apply dropped_set_pred_heading
      | |- keeps _ (count_days _ _) => apply dropped_count_days
      | |- keeps _ (call (log_error _)) => apply dropped_call, site_kept_log_error
      | |- keeps _ (call (updateWeatherparams _ _)) =>
          apply dropped_call, site_kept_updateWeatherparams
      | |- keeps _ (if ?b then _ else _) => destruct b
      | |- keeps _ (match ?x with _ => _ end) => destruct x
      end
    | solve [apply keeps_stateless; stateless_tac] ].

Ltac kept_step :=
  eapply triple_bind; [apply triple_kept; dropped_tac|intros ?].

Ltac logged_rest := apply triple_logged; dropped_tac.

Lemma getFilters_body_HM (s0 : Site) (m : option Model) (season : bool)
    (w : DataFrame) (attrs : gmap string pyval) (sowing emergence h mt : pyval) :
  is_none h = false -> is_none mt = false -> str_ge h mt = true ->
  triple (dropped HM s0 0 None)
    (getFilters_body m season w attrs sowing emergence h mt)
    (dropped HM s0 1 None) (dropped HM s0 0 None).
Proof.
  intros Hh Hmt Hge. unfold getFilters_body. cbv zeta.
  rewrite Hh, Hmt, Hge. cbn [negb andb].
  do 3 kept_step.
  eapply triple_bind; [|intros ?; logged_rest].
  eapply triple_weaken; [apply dropped_check|intros ? HH; exact HH..].
Qed.

Lemma getFilters_body_HpM (s0 : Site) (m : option Model) (season : bool)
    (w : DataFrame) (attrs : gmap string pyval) (sowing emergence h mt pm : pyval) :
  is_none h = false -> attrs !! "PredMaturity_H" = Some pm ->
  not_valid pm = false -> str_ge h pm = true ->
  triple (dropped HpM s0 0 None)
    (getFilters_body m season w attrs sowing emergence h mt)
    (dropped HpM s0 1 None) (dropped HpM s0 0 None).
Proof.
  intros Hh Hpm Hv Hge. unfold getFilters_body. cbv zeta.
  rewrite Hh, Hpm, Hv, Hge. cbn [negb andb].
  do 8 kept_step.
  eapply triple_bind; [|intros ?; logged_rest].
  do 2 kept_step.
  eapply triple_bind; [|intros ?; logged_rest].
  eapply triple_weaken; [apply dropped_check|intros ? HH; exact HH..].
Qed.

Lemma getFilters_body_pHpM (s0 : Site) (m : option Model) (season : bool)
    (w : DataFrame) (attrs : gmap string pyval) (sowing emergence h mt ph pm : pyval) :
  attrs !! "PredHeading" = Some ph -> attrs !! "PredMaturity_pH" = Some pm ->
  not_valid pm = false -> str_ge ph pm = true ->
  triple (dropped pHpM s0 0 None)
    (getFilters_body m season w attrs sowing emergence h mt)
    (dropped pHpM s0 1 None) (dropped pHpM s0 0 None).
Proof.
  intros Hph Hpm Hv Hge. unfold getFilters_body. cbv zeta.
  rewrite Hph, Hpm, Hv.
  do 7 kept_step.
  eapply triple_bind.
  { eapply triple_bind; [apply dropped_track|intros ?].
    apply triple_kept. dropped_tac. }
  intros ?. kept_step.
  eapply triple_bind; [|intros ?; logged_rest].
  kept_step.
  eapply triple_weaken; [apply dropped_check_local, Hge|intros ? HH; exact HH|].
  intros st. apply dropped_untrack.
Qed.


Lemma valid_not_none (v : pyval) : not_valid v = false -> is_none v = false.
Proof.
  unfold not_valid. intros H.
  apply orb_false_elim in H as [H _]. apply orb_false_elim in H as [H _].
  apply orb_false_elim in H as [_ H]. exact H.
Qed.

Lemma checked_valid (v : pyval) : not_valid v = false -> checked v = v.
Proof. intros H. unfold checked. rewrite H. reflexivity. Qed.

(** From the body to the method: the handler of [getFilters] logs what the
    body lets escape. *)
Lemma getFilters_dropped (p : period) (m : option Model) (season : bool)
    (s : Site) (w : DataFrame) :
  weather s = Some w ->
  not_valid (default PyNone (attributes s !! "sowing")) = false ->
  triple (dropped p s 0 None)
    (getFilters_body m season w (attributes s)
       (default PyNone (attributes s !! "sowing"))
       (checked (default PyNone (attributes s !! "emergence")))
       (checked (default PyNone (attributes s !! "heading")))
       (checked (default PyNone (attributes s !! "maturity"))))
    (dropped p s 1 None) (dropped p s 0 None) ->
  exists s' ms,
    getFilters m season s = (s', Ok (Some ms))
    /\ ms p = None
    /\ attributes s' !! days_key p = attributes s !! days_key p
    /\ extends s s'
    /\ length (errors s) < length (errors s').
Proof.
  intros Hw Hsow T.
  set (l0 := {| fl_masks := no_masks; pred_emergence_date := None;
                pred_heading_date := PyNone; pred_maturity_date := PyNone |}).
  assert (dropped p s 0 None (s, l0)) as H0.
  { split; [reflexivity|]. split; [discriminate|].
    split; [reflexivity|]. split; [apply extends_refl|cbn; lia]. }
  specialize (T (s, l0) H0).
  unfold getFilters. unfold bind at 1. unfold gets at 1. rewrite Hw.
  unfold bind at 1. unfold gets at 1. cbv beta iota. rewrite Hsow.
  unfold bind at 1. unfold with_locals, try_except. fold l0.
  match type of T with match ?b ?st with _ => _ end =>
    destruct (b st) as [[s1 l1] [[]|e]] end.
  - exists s1, (fl_masks l1). split; [reflexivity|].
    destruct T as (Hm & _ & Ha & He & Hn). cbn [fst snd] in *.
    split; [exact Hm|]. split; [exact Ha|]. split; [exact He|lia].
  - exists (fst (log_error ("Getting filters for weather. Error: " +:+ e) s1)),
      (fl_masks l1).
    split; [reflexivity|].
    destruct T as (Hm & _ & Hs). cbn [fst snd] in Hm, Hs.
    destruct (site_kept_logged p s 0 ("Getting filters for weather. Error: " +:+ e) s1 Hs)
      as (Ha & He & Hn).
    split; [exact Hm|]. split; [exact Ha|]. split; [exact He|lia].
Qed.

(** C1 (amended). For the three pairs of dates that [getFilters] checks
    (observed heading and observed maturity, observed heading and the
    maturity estimated from it, estimated heading and the maturity
    estimated from it), on a site with weather and a valid sowing date
    whose pair is there and not in order (start >= end as strings):
    [getFilters] returns its masks, the mask of the period of the pair is
    [None], the day count of that period is the one before the call, and
    the error list got at least one entry of the site appended. *)
Theorem getFilters_drops_violated (c : ordering_check) (m : option Model)
    (season : bool) (s : Site) :
  violated c s = true ->
  exists s' ms,
    getFilters m season s = (s', Ok (Some ms))
    /\ ms (check_period c) = None
    /\ attributes s' !! days_key (check_period c)
       = attributes s !! days_key (check_period c)
    /\ extends s s'
    /\ length (errors s) < length (errors s').
Proof.
  unfold violated. intros H.
  destruct (weather s) as [w|] eqn:Hw; [|discriminate].
  apply andb_prop in H as [Hsow H]. apply negb_true_iff in Hsow.
  apply (getFilters_dropped (check_period c) m season s w Hw Hsow).
  destruct c; cbn [check_period].
  - destruct (attributes s !! "heading") as [h|] eqn:Hh; [|discriminate].
    destruct (attributes s !! "maturity") as [mt|] eqn:Hmt; [|discriminate].
    apply andb_prop in H as [H Hge]. apply andb_prop in H as [Hvh Hvm].
    apply negb_true_iff in Hvh, Hvm. cbn [from_option id].
    rewrite (checked_valid h Hvh), (checked_valid mt Hvm).
    apply getFilters_body_HM; auto using valid_not_none.
  - destruct (attributes s !! "heading") as [h|] eqn:Hh; [|discriminate].
    destruct (attributes s !! "PredMaturity_H") as [pm|] eqn:Hpm; [|discriminate].
    apply andb_prop in H as [H Hge]. apply andb_prop in H as [Hvh Hvm].
    apply negb_true_iff in Hvh, Hvm. cbn [from_option id].
    rewrite (checked_valid h Hvh).
    apply (getFilters_body_HpM s _ _ _ _ _ _ _ _ pm); auto using valid_not_none.
  - destruct (attributes s !! "PredHeading") as [ph|] eqn:Hph; [|discriminate].
    destruct (attributes s !! "PredMaturity_pH") as [pm|] eqn:Hpm; [|discriminate].
    apply andb_prop in H as [Hvm Hge]. apply negb_true_iff in Hvm.
    apply (getFilters_body_pHpM s _ _ _ _ _ _ _ _ ph pm); auto.
Qed.

(** ** Photosynthesis reduction factor *)

Lemma prft_at_Fin (topt t : Q) :
  prft_at (Fin topt) (Fin t) = Fin (1 - 0.0025 * ((t - topt) * (t - topt))).
Proof. reflexivity. Qed.


(** ** Days to heading *)

Lemma truncate_nonneg (v : Q) : (0 <= v)%Q -> truncate v = Qfloor v.
Proof.
  destruct v as [n p]. unfold Qle, truncate, Qfloor. cbn. intros H.
  apply Z.quot_div_nonneg; lia.
Qed.

Lemma days_to_heading_of_Fin (sawyt : bool) (m : Model) (s : Site) (c d : Q) :
  parameters m !! "CONST_DAYHR_AS" = Some (PyFloat (Fin c)) ->
  exists v, selected_line sawyt c d = Fin v /\
    days_to_heading_of sawyt (Some m) (PyFloat (Fin d)) s = (s, Ok (truncate v)).
Proof.
  intros Hc. unfold days_to_heading_of, selected_line, m_parameter, bind.
  rewrite Hc. cbn. destruct (Qle_bool c d) eqn:E; cbn.
  - destruct sawyt; eexists; (split; [reflexivity|reflexivity]).
  - destruct sawyt; eexists; (split; [reflexivity|reflexivity]).
Qed.

(** C3 (amended). At a day length equal to the boundary constant
    [getDaysToHeading] takes the line of the [>=] branch, for the SAWYT
    coefficients and for the others; it returns the value of the selected
    line truncated toward zero ([int()]), which is its floor whenever that
    value is not negative. *)
Theorem getDaysToHeading_truncates (m : Model) (s : Site) (c d : Q)
    (Hc : parameters m !! "CONST_DAYHR_AS" = Some (PyFloat (Fin c))) :
  exists v : Q,
    selected_line (is_sawyt s) c d = Fin v
    /\ getDaysToHeading (Some m) (PyFloat (Fin d)) s = (s, Ok (truncate v))
    /\ ((d == c)%Q -> selected_line (is_sawyt s) c d = heading_line_from (is_sawyt s) (Fin d))
    /\ ((0 <= v)%Q -> truncate v = Qfloor v).
Proof.
  destruct (days_to_heading_of_Fin (is_sawyt s) m s c d Hc) as (v & Hv & Hrun).
  exists v. split; [exact Hv|]. split; [|split].
  - unfold getDaysToHeading, bind, gets, is_sawyt in *.
    destruct (attributes s !! "Nursery") as [n|]; [|exact Hrun].
    destruct (eq_str n "SAWYT"); exact Hrun.
  - intros E. unfold selected_line.
    assert (Qle_bool c d = true) as ->; [|reflexivity].
    apply Qle_bool_iff. rewrite E. apply Qle_refl.
  - apply truncate_nonneg.
Qed.

(** ** Emergence date *)

Lemma argmin_from_least (r : list Q) : forall (i bi : nat) (b : Q),
  (Np.argmin_from i (Fin b) bi (map Fin r) = bi
   /\ forall j x, r !! j = Some x -> (b <= x)%Q)
  \/ (exists k x, Np.argmin_from i (Fin b) bi (map Fin r) = (i + k)%nat
        /\ r !! k = Some x /\ (x < b)%Q
        /\ (forall j y, r !! j = Some y -> (x <= y)%Q)
        /\ (forall j y, (j < k)%nat -> r !! j = Some y -> (x < y)%Q)).
Proof.
  induction r as [|x r IH]; intros i bi b.
  - left. split; [reflexivity|]. intros j y Hj. destruct j; discriminate Hj.
  - cbn [map Np.argmin_from Np.isnan]. unfold Np.geb. cbn [Np.leb].
    destruct (Qle_bool b x) eqn:E.
    + apply Qle_bool_iff in E.
      destruct (IH (S i) bi b) as [[Hi Hall]|(k & v & Hi & Hk & Hlt & Hmin & Hfirst)].
      * left. split; [exact Hi|]. intros [|j] y Hj; cbn in Hj.
        -- injection Hj as <-. exact E.
        -- eapply Hall; eassumption.
      * right. exists (S k), v. split; [rewrite Hi; lia|]. split; [exact Hk|].
        split; [exact Hlt|]. split.
        -- intros [|j] y Hj; cbn in Hj.
           ++ injection Hj as <-. lra.
           ++ eapply Hmin; eassumption.
        -- intros [|j] y Hlt' Hj; cbn in Hj.
           ++ injection Hj as <-. lra.
           ++ eapply (Hfirst j); [lia|eassumption].
    + assert (x < b)%Q as Hxb.
      { apply Qnot_le_lt. intros H. apply Qle_bool_iff in H. congruence. }
      destruct (IH (S i) i x) as [[Hi Hall]|(k & v & Hi & Hk & Hlt & Hmin & Hfirst)].
      * right. exists 0%nat, x. split; [rewrite Hi; lia|]. split; [reflexivity|].
        split; [exact Hxb|]. split.
        -- intros [|j] y Hj; cbn in Hj.
           ++ injection Hj as <-. lra.
           ++ eapply Hall; eassumption.
        -- intros j y Hlt'. lia.
      * right. exists (S k), v. split; [rewrite Hi; lia|]. split; [exact Hk|].
        split; [lra|]. split.
        -- intros [|j] y Hj; cbn in Hj.
           ++ injection Hj as <-. lra.
           ++ eapply Hmin; eassumption.
        -- intros [|j] y Hlt' Hj; cbn in Hj.
           ++ injection Hj as <-. exact Hlt.
           ++ eapply (Hfirst j); [lia|eassumption].
Qed.

(** [np.argmin] on finite cells: the first position of the least value. *)
Lemma argmin_first_least (x0 : Q) (r : list Q) :
  exists idx v, Np.argmin (map Fin (x0 :: r)) = Some idx
    /\ (x0 :: r) !! idx = Some v
    /\ (forall j y, (x0 :: r) !! j = Some y -> (v <= y)%Q)
    /\ (forall j y, (j < idx)%nat -> (x0 :: r) !! j = Some y -> (v < y)%Q).
Proof.
  cbn [map Np.argmin].
  destruct (argmin_from_least r 1 0 x0) as [[Hi Hall]|(k & v & Hi & Hk & Hlt & Hmin & Hfirst)].
  - exists 0%nat, x0. rewrite Hi. split; [reflexivity|]. split; [reflexivity|]. split.
    + intros [|j] y Hj; cbn in Hj.
      * injection Hj as <-. lra.
      * eapply Hall; eassumption.
    + intros j y Hlt. lia.
  - exists (S k), v. rewrite Hi. split; [reflexivity|]. split; [exact Hk|]. split.
    + intros [|j] y Hj; cbn in Hj.
      * injection Hj as <-. lra.
      * eapply Hmin; eassumption.
    + intros [|j] y Hlt' Hj; cbn in Hj.
      * injection Hj as <-. exact Hlt.
      * eapply (Hfirst j); [lia|eassumption].
Qed.

Lemma nearest_index_Fin (cs : list Q) (req : Q) :
  nearest_index (map Fin cs) (Fin req)
  = Np.argmin (map Fin (map (fun c => Qabs (c - req)) cs)).
Proof. unfold nearest_index. rewrite !map_map. reflexivity. Qed.


(** ** Normalized thermal time *)

Lemma fold_fmin_Fin (r : list Q) : forall x,
  fold_left Np.fmin (map Fin r) (Fin x) = Fin (least x r).
Proof.
  induction r as [|y r IH]; intros x; [reflexivity|].
  cbn [map fold_left].
  assert (Np.fmin (Fin x) (Fin y) = Fin (qmin x y)) as ->.
  { unfold qmin. cbn. destruct (Qle_bool x y); reflexivity. }
  exact (IH (qmin x y)).
Qed.

Lemma fold_fmax_Fin (r : list Q) : forall x,
  fold_left Np.fmax (map Fin r) (Fin x) = Fin (greatest x r).
Proof.
  induction r as [|y r IH]; intros x; [reflexivity|].
  cbn [map fold_left].
  assert (Np.fmax (Fin x) (Fin y) = Fin (qmax x y)) as ->.
  { unfold qmax. cbn. destruct (Qle_bool y x); reflexivity. }
  exact (IH (qmax x y)).
Qed.

Lemma normalize_Fin {St} (x : Q) (r : list Q) (st : St) :
  normalize (map Fin (x :: r)) st = (st, Ok (normalized_thermal_time (x :: r))).
Proof.
  unfold normalize, Np.nanmin, Np.nanmax. cbn [map].
  rewrite fold_fmin_Fin, fold_fmax_Fin. unfold ret, normalized_thermal_time.
  change (Fin x :: map Fin r) with (map Fin (x :: r)). rewrite map_map. reflexivity.
Qed.

Lemma qmin_le_l a b : (qmin a b <= a)%Q.
Proof.
  unfold qmin. destruct (Qle_bool a b) eqn:E; [lra|].
  assert (~ (a <= b)%Q) by (rewrite <- Qle_bool_iff; congruence). lra.
Qed.

Lemma qmin_le_r a b : (qmin a b <= b)%Q.
Proof.
  unfold qmin. destruct (Qle_bool a b) eqn:E; [|lra].
  apply Qle_bool_iff in E. exact E.
Qed.

Lemma qmax_ge_l a b : (a <= qmax a b)%Q.
Proof.
  unfold qmax. destruct (Qle_bool b a) eqn:E; [lra|].
  assert (~ (b <= a)%Q) by (rewrite <- Qle_bool_iff; congruence). lra.
Qed.

Lemma qmax_ge_r a b : (b <= qmax a b)%Q.
Proof.
  unfold qmax. destruct (Qle_bool b a) eqn:E; [|lra].
  apply Qle_bool_iff in E. exact E.
Qed.

(** [least] is a lower bound taken in the series, [greatest] an upper
    bound taken in it. *)
Lemma least_lower (r : list Q) : forall x,
  (least x r <= x)%Q /\ forall y, y ∈ r -> (least x r <= y)%Q.
Proof.
  induction r as [|z r IH]; intros x.
  - split; [cbn; lra|]. intros y Hy. inversion Hy.
  - unfold least. cbn [fold_left]. fold (least (qmin x z) r).
    destruct (IH (qmin x z)) as [H1 H2].
    pose proof (qmin_le_l x z). pose proof (qmin_le_r x z).
    split; [lra|]. intros y Hy. apply elem_of_cons in Hy as [->|Hy]; [lra|].
    apply H2, Hy.
Qed.

Lemma greatest_upper (r : list Q) : forall x,
  (x <= greatest x r)%Q /\ forall y, y ∈ r -> (y <= greatest x r)%Q.
Proof.
  induction r as [|z r IH]; intros x.
  - split; [cbn; lra|]. intros y Hy. inversion Hy.
  - unfold greatest. cbn [fold_left]. fold (greatest (qmax x z) r).
    destruct (IH (qmax x z)) as [H1 H2].
    pose proof (qmax_ge_l x z). pose proof (qmax_ge_r x z).
    split; [lra|]. intros y Hy. apply elem_of_cons in Hy as [->|Hy]; [lra|].
    apply H2, Hy.
Qed.

Lemma least_member (r : list Q) : forall x, least x r ∈ x :: r.
Proof.
  induction r as [|z r IH]; intros x; [left|].
  unfold least. cbn [fold_left]. fold (least (qmin x z) r).
  specialize (IH (qmin x z)). apply elem_of_cons in IH as [E|IH].
  - rewrite E. unfold qmin. destruct (Qle_bool x z); [left|right; left].
  - right; right; exact IH.
Qed.

Lemma greatest_member (r : list Q) : forall x, greatest x r ∈ x :: r.
Proof.
  induction r as [|z r IH]; intros x; [left|].
  unfold greatest. cbn [fold_left]. fold (greatest (qmax x z) r).
  specialize (IH (qmax x z)). apply elem_of_cons in IH as [E|IH].
  - rewrite E. unfold qmax. destruct (Qle_bool z x); [left|right; left].
  - right; right; exact IH.
Qed.

Lemma Qsgn_zero (q : Q) : (Np.Qsgn q =? 0)%Z = true <-> (q == 0)%Q.
Proof.
  unfold Np.Qsgn, Qeq. destruct q as [n d]. cbn.
  rewrite Z.eqb_eq, Z.sgn_null_iff. lia.
Qed.

Lemma div_Fin_nonzero (a b : Q) :
  ~ (b == 0)%Q -> Np.div (Fin a) (Fin b) = Fin (a / b).
Proof.
  intros Hb. cbn [Np.div].
  destruct (Np.Qsgn b =? 0)%Z eqn:E; [|reflexivity].
  apply Qsgn_zero in E. contradiction.
Qed.

Lemma div_Fin_zero_zero (a b : Q) :
  (a == 0)%Q -> (b == 0)%Q -> Np.div (Fin a) (Fin b) = NaN.
Proof.
  intros Ha Hb. cbn [Np.div].
  apply Qsgn_zero in Ha, Hb. rewrite Ha, Hb. reflexivity.
Qed.

Lemma increasing_above (r : list Q) : forall x,
  strictly_increasing x r = true -> forall y, y ∈ r -> (x < y)%Q.
Proof.
  induction r as [|z r IH]; intros x H y Hy; [inversion Hy|].
  cbn in H. apply andb_true_iff in H as [Hz Hr].
  assert (x < z)%Q.
  { apply Qnot_le_lt. intros Hle. apply Qle_bool_iff in Hle. rewrite Hle in Hz. discriminate. }
  apply elem_of_cons in Hy as [->|Hy]; [assumption|].
  specialize (IH z Hr y Hy). lra.
Qed.

Lemma least_of_lower_bound (r : list Q) : forall x,
  (forall y, y ∈ r -> (x <= y)%Q) -> least x r = x.
Proof.
  induction r as [|z r IH]; intros x H; [reflexivity|].
  unfold least. cbn [fold_left]. fold (least (qmin x z) r).
  assert (qmin x z = x) as ->.
  { unfold qmin. assert (Qle_bool x z = true) as ->; [|reflexivity].
    apply Qle_bool_iff, H. left. }
  apply IH. intros y Hy. apply H. right. exact Hy.
Qed.

Lemma last_cons_default {A} (l : list A) : forall a d d',
  List.last (a :: l) d = List.last (a :: l) d'.
Proof.
  induction l as [|b l IH]; intros a d d'; [reflexivity|].
  change (List.last (b :: l) d = List.last (b :: l) d'). apply IH.
Qed.

Lemma greatest_of_increasing (r : list Q) : forall x,
  strictly_increasing x r = true -> greatest x r = List.last r x.
Proof.
  induction r as [|z r IH]; intros x H; [reflexivity|].
  cbn in H. apply andb_true_iff in H as [Hz Hr].
  unfold greatest. cbn [fold_left]. fold (greatest (qmax x z) r).
  assert (qmax x z = z) as ->.
  { unfold qmax. destruct (Qle_bool z x); [discriminate Hz|reflexivity]. }
  rewrite (IH z Hr). destruct r as [|q r]; [reflexivity|].
  change (List.last (q :: r) z = List.last (q :: r) x). apply last_cons_default.
Qed.

Lemma last_map_cons {A B} (f : A -> B) (r : list A) : forall x,
  last (map f (x :: r)) = Some (f (List.last r x)).
Proof.
  induction r as [|y r IH]; intros x; [reflexivity|].
  cbn [map]. rewrite last_cons_cons.
  change (f y :: map f r) with (map f (y :: r)). rewrite (IH y).
  f_equal. f_equal. destruct r as [|z r]; [reflexivity|].
  change (List.last (z :: r) y = List.last (z :: r) x). apply last_cons_default.
Qed.

Lemma normalize_into_series (f : string) (o : option (Q * list Q)) (s : Site) :
  normalize_into f (series_arg o) s
  = (set_fields (<[f := normalized_arg o]> (fields s)) s, Ok tt).
Proof.
  destruct o as [[x r]|]; [|reflexivity].
  unfold normalize_into, series_arg, normalized_arg, bind. cbn [fmap option_fmap option_map fst snd].
  rewrite normalize_Fin. reflexivity.
Qed.

(** C5 (amended). [getNormalizeThermalTime] stores, for each series [g]
    it is given, [(g - min(g)) / (max(g) - min(g))] cell by cell and
    records no error; for a strictly increasing series of at least two
    values the first normalized value is 0 and the last is 1; when the
    greatest and the least value are equal every cell is [nan], and the
    method still returns normally. *)
Theorem getNormalizeThermalTime_formula (s : Site)
    (EH pEH EpH pEpH HM pHM pHpM HpM : option (Q * list Q)) (x : Q) (r : list Q) :
  getNormalizeThermalTime (series_arg EH) (series_arg pEH) (series_arg EpH)
      (series_arg pEpH) (series_arg HM) (series_arg pHM) (series_arg pHpM)
      (series_arg HpM) s
    = (set_fields
         (<["Norm_TT_pHpM" := normalized_arg pHpM]>
          (<["Norm_TT_HpM" := normalized_arg HpM]>
           (<["Norm_TT_pHM" := normalized_arg pHM]>
            (<["Norm_TT_HM" := normalized_arg HM]>
             (<["Norm_TT_pEpH" := normalized_arg pEpH]>
              (<["Norm_TT_pEH" := normalized_arg pEH]>
               (<["Norm_TT_EpH" := normalized_arg EpH]>
                (<["Norm_TT_EH" := normalized_arg EH]> (fields s))))))))) s,
       Ok tt)
  /\ (least x r ∈ x :: r /\ greatest x r ∈ x :: r
      /\ forall y, y ∈ x :: r -> (least x r <= y)%Q /\ (y <= greatest x r)%Q)
  /\ (strictly_increasing x r = true -> r <> [] ->
      exists v0 v1 : Q,
        head (normalized_thermal_time (x :: r)) = Some (Fin v0) /\ (v0 == 0)%Q
        /\ last (normalized_thermal_time (x :: r)) = Some (Fin v1) /\ (v1 == 1)%Q)
  /\ ((greatest x r == least x r)%Q ->
      forall c, c ∈ normalized_thermal_time (x :: r) -> c = NaN).
Proof.
  split; [|split; [|split]].
  - unfold getNormalizeThermalTime, try_except, bind.
    repeat (rewrite normalize_into_series; cbv beta iota).
    reflexivity.
  - split; [apply least_member|]. split; [apply greatest_member|].
    intros y Hy. destruct (least_lower r x) as [L1 L2].
    destruct (greatest_upper r x) as [G1 G2].
    apply elem_of_cons in Hy as [->|Hy]; [split; assumption|].
    split; [apply L2|apply G2]; exact Hy.
  - intros Hinc Hne.
    pose proof (increasing_above r x Hinc) as Habove.
    assert (least x r = x) as Hl.
    { apply least_of_lower_bound. intros y Hy. apply Qlt_le_weak, Habove, Hy. }
    pose proof (greatest_of_increasing r x Hinc) as Hg.
    assert (x < List.last r x)%Q as Hlt.
    { apply Habove. destruct r as [|z r]; [contradiction|].
      destruct (@exists_last _ (z :: r)) as (l' & a & E); [discriminate|].
      rewrite E, List.last_last. apply elem_of_app. right. left. }
    unfold normalized_thermal_time. rewrite last_map_cons. cbn [map head].
    rewrite Hl, Hg.
    rewrite !div_Fin_nonzero by lra.
    do 2 eexists. split; [reflexivity|]. split; [field; lra|].
    split; [reflexivity|]. field. lra.
  - intros E c Hc. unfold normalized_thermal_time in Hc.
    apply list_elem_of_fmap in Hc as (v & -> & Hv).
    destruct (least_lower r x) as [L1 L2]. destruct (greatest_upper r x) as [G1 G2].
    assert ((least x r <= v)%Q /\ (v <= greatest x r)%Q) as [Hlo Hhi].
    { apply elem_of_cons in Hv as [->|Hv]; [split; assumption|].
      split; [apply L2|apply G2]; exact Hv. }
    apply div_Fin_zero_zero; lra.
Qed.

(** ** Yield *)

Lemma round_half_even_near (q : Q) :
  (- (1 # 2) <= inject_Z (Np.round_half_even q) - q)%Q
  /\ (inject_Z (Np.round_half_even q) - q <= 1 # 2)%Q.
Proof.
  unfold Np.round_half_even.
  pose proof (Qfloor_le q) as Hlo. pose proof (Qlt_floor q) as Hhi.
  rewrite inject_Z_plus in Hhi. change (inject_Z 1) with 1%Q in Hhi.
  destruct (q - inject_Z (Qfloor q) ?= 1 # 2)%Q eqn:E.
  - apply Qeq_alt in E.
    destruct (Z.even (Qfloor q)); [|rewrite inject_Z_plus; change (inject_Z 1) with 1%Q];
      split; lra.
  - apply Qlt_alt in E. split; lra.
  - apply Qgt_alt in E. rewrite inject_Z_plus. change (inject_Z 1) with 1%Q.
    split; lra.
Qed.

Lemma round_dec_2_near (x : Q) :
  exists r, Np.round_dec 2 (Fin x) = Fin r /\ (Qabs (r - x) <= 1 # 200)%Q.
Proof.
  unfold Np.round_dec. eexists. split; [reflexivity|].
  change (10 ^ Z.of_nat 2)%Z with 100%Z.
  destruct (round_half_even_near (x * inject_Z 100)) as [Hlo Hhi].
  set (z := inject_Z (Np.round_half_even (x * inject_Z 100))) in *.
  apply Qabs_Qle_condition. rewrite Qred_correct.
  change (z / inject_Z 100)%Q with (z * (1 # 100))%Q.
  change (inject_Z 100) with 100%Q in *.
  split; lra.
Qed.

Lemma yield_of_value (f : Q) (g : option Q) (src dst : string) (s : Site) :
  attributes s !! src = Some (gpp_attr g) ->
  yield_of (PyFloat (Fin f)) src dst s
  = (set_attributes (<[dst := yield_attr f g]> (attributes s)) s, Ok tt).
Proof.
  intros H. unfold yield_of, get_attr. unfold bind at 1 2. unfold get at 1.
  cbv beta iota. rewrite H. destruct g as [q|]; reflexivity.
Qed.

(** C6 (amended). When the four summed productions are there, each [None]
    or a float, and the factor is a float, [getIPAR] stores under
    [SimYield], [SimYield_pH], [SimYield_pM] and [SimYield_pHpM] the
    product of the summed production of the variant with [YIELD_FACTOR] at
    two decimals ([float("{:.2f}".format(...))], at most 0.005 away from
    the product), or [None] when that production is [None]; nothing else
    changes and no error is recorded. *)
Theorem estimate_yield_two_decimals (s : Site) (f : Q)
    (gHM gpHM gHpM gpHpM : option Q) :
  attributes s !! "sumGPP_HM" = Some (gpp_attr gHM) ->
  attributes s !! "sumGPP_pHM" = Some (gpp_attr gpHM) ->
  attributes s !! "sumGPP_HpM" = Some (gpp_attr gHpM) ->
  attributes s !! "sumGPP_pHpM" = Some (gpp_attr gpHpM) ->
  estimate_yield (PyFloat (Fin f)) s
  = (set_attributes
       (<["SimYield_pHpM" := yield_attr f gpHpM]>
        (<["SimYield_pM" := yield_attr f gHpM]>
         (<["SimYield_pH" := yield_attr f gpHM]>
          (<["SimYield" := yield_attr f gHM]> (attributes s))))) s,
     Ok tt)
  /\ forall q, exists r,
       yield_attr f (Some q) = PyFloat (Fin r) /\ (Qabs (r - q * f) <= 1 # 200)%Q.
Proof.
  intros H1 H2 H3 H4. split.
  - unfold estimate_yield, try_except.
    unfold bind at 1. rewrite (yield_of_value f gHM _ _ s H1).
    unfold bind at 1. rewrite (yield_of_value f gpHM).
    2: { cbn [attributes set_attributes]. rewrite lookup_insert_ne by discriminate. exact H2. }
    unfold bind at 1. rewrite (yield_of_value f gHpM).
    2: { cbn [attributes set_attributes]. rewrite !lookup_insert_ne by discriminate. exact H3. }
    rewrite (yield_of_value f gpHpM).
    2: { cbn [attributes set_attributes]. rewrite !lookup_insert_ne by discriminate. exact H4. }
    reflexivity.
  - intros q. destruct (round_dec_2_near (q * f)) as (r & Hr & Hn).
    exists r. unfold yield_attr, rounded. rewrite Hr. split; [reflexivity|exact Hn].
Qed.

(** ** The NDVI at heading corrected from the production *)


(** ** Maturity from the two heading dates *)

Lemma select_filter {A} (f : A -> bool) (l : list A) (x : A) :
  x ∈ select (map f l) l -> f x = true /\ x ∈ l.
Proof.
  induction l as [|y l IH]; cbn [map select].
  - intros H. apply elem_of_nil in H. contradiction.
  - destruct (f y) eqn:E.
    + intros H. apply elem_of_cons in H as [->|H].
      * split; [exact E|left].
      * destruct (IH H) as [H1 H2]. split; [exact H1|right; exact H2].
    + intros H. destruct (IH H) as [H1 H2]. split; [exact H1|right; exact H2].
Qed.

Lemma optional_date_anchor {St} (v : option pyval) (a : option Z) (st : St) :
  anchor_is v a -> optional_date v st = (st, Ok a).
Proof.
  unfold anchor_is, optional_date. destruct a as [t|].
  - intros (x & -> & Hv & Ht). rewrite Hv. unfold bind, lift. rewrite Ht. reflexivity.
  - destruct v as [x|]; [intros ->|]; reflexivity.
Qed.

(** What a variant returns: a date of the weather table not before the
    anchor, the days from sowing to it and the days from the anchor to it. *)
Lemma maturity_from_shape {St} (w : DataFrame) (a sow : Z) (th sc rt gf : pyval)
    (st st' : St) (est : Z * Z * Z) :
  maturity_from w a sow th sc rt gf st = (st', Ok est) ->
  exists d, est = (d, (d - sow)%Z, (d - a)%Z) /\ (a <= d)%Z
            /\ d ∈ map Date (df_rows w).
Proof.
  unfold maturity_from, col_Date, col, bind, lift, as_float.
  destruct (has_column w "Date"); [|discriminate]. cbn [ret].
  destruct (has_column _ "TAVG"); [|discriminate]. cbn [ret].
  destruct (estimate_TAdjDay _ th sc rt) as [tadj|e]; [|discriminate].
  assert (forall g : npfloat,
    match nearest_index (Np.cumsum tadj) g with
    | Some n =>
        match df_rows (df_select (map (fun x => (x >=? a)%Z) (map Date (df_rows w))) w) !! n with
        | Some r => ret (Date r, (Date r - sow)%Z, (Date r - a)%Z)
        | None => raise (key_error (pretty n))
        end
    | None => raise "attempt to get argmin of an empty sequence"
    end st = (st', Ok est) ->
    exists d, est = (d, (d - sow)%Z, (d - a)%Z) /\ (a <= d)%Z /\ d ∈ map Date (df_rows w)) as K.
  { intros g. destruct (nearest_index _ g) as [n|]; [|discriminate].
    destruct (_ !! n) as [r|] eqn:Hr; [|discriminate].
    intros [= <- <-]. exists (Date r). split; [reflexivity|].
    apply list_elem_of_lookup_2 in Hr. cbn [df_rows df_select] in Hr.
    rewrite map_map in Hr. apply select_filter in Hr as [H1 H2].
    split; [lia|]. apply list_elem_of_fmap. exists r. split; [reflexivity|exact H2]. }
  destruct gf; try discriminate; apply K.
Qed.

Lemma variant_at {A} (w : DataFrame) (sow : Z) (th sc rt gf : pyval)
    (a : option Z) (e : option (Z * Z * Z)) (s : Site) (l : maturity_locals)
    (f : Z * Z * Z -> maturity_locals -> maturity_locals)
    (k : M (Site * maturity_locals) A) :
  variant_is w sow th sc rt gf a e ->
  (match a with
   | Some t => est <- maturity_from w t sow th sc rt gf;; set_local (f est)
   | None => ret tt
   end;; k) (s, l)
  = k (s, match e with Some est => f est l | None => l end).
Proof.
  unfold variant_is. destruct a as [t|].
  - intros (est & -> & H). unfold bind at 1 2. rewrite H. reflexivity.
  - intros ->. reflexivity.
Qed.

(** C8 (amended). On a site with weather whose sowing date is valid and
    parses, whose parameters are there, and whose heading dates (observed
    and estimated) are each absent, not valid, or a date that parses:
    when the variant of every anchor that is there runs through,
    [getMaturityDate] returns the estimate of each anchor that is there
    and [None] for the other, whatever the other anchor is; an estimate is
    a date [d] of the weather table on or after its anchor with the days
    from sowing to [d] and from the anchor to [d]. Both variants run in
    one [try]: when the variant of the observed heading raises, the
    variant of the estimated heading is not run, both estimates are
    [None] and the error is recorded. *)
Theorem getMaturityDate_both_variants (m : option Model)
    (threshold scale rate daysGF : pyval) (s : Site) (w : DataFrame)
    (gf th sc rt sv : pyval) (sow : Z) (hd phd : option Z) :
  weather s = Some w ->
  default_parameter daysGF m "DAYS_GRAIN_FILLING" s = (s, Ok gf) ->
  default_parameter threshold m "TDAYS_THRESHOLD_MATURITY" s = (s, Ok th) ->
  default_parameter scale m "TDAYS_SCALE_MATURITY" s = (s, Ok sc) ->
  default_parameter rate m "TDAYS_RATE_MATURITY" s = (s, Ok rt) ->
  attributes s !! "sowing" = Some sv ->
  not_valid_or_empty sv = false ->
  to_datetime_ymd (py_str sv) = Ok sow ->
  anchor_is (attributes s !! "heading") hd ->
  anchor_is (attributes s !! "PredHeading") phd ->
  (forall eh eph,
     variant_is w sow th sc rt gf hd eh ->
     variant_is w sow th sc rt gf phd eph ->
     getMaturityDate m threshold scale rate daysGF s = (s, Ok (Some (eh, eph))))
  /\ (forall h e,
        hd = Some h ->
        (forall st : Site * maturity_locals,
           maturity_from w h sow th sc rt gf st = (st, Raise e)) ->
        getMaturityDate m threshold scale rate daysGF s
        = (fst (log_error
                  ("Estimating maturity date from weather using TAdjDays. Error: " +:+ e) s),
           Ok (Some (None, None))))
  /\ (forall a (st st' : Site * maturity_locals) est,
        maturity_from w a sow th sc rt gf st = (st', Ok est) ->
        exists d, est = (d, (d - sow)%Z, (d - a)%Z) /\ (a <= d)%Z
                  /\ d ∈ map Date (df_rows w)).
Proof.
  intros Hw Hgf Hth Hsc Hrt Hsv Hvalid Hsow Hh Hph.
  assert (
    getMaturityDate m threshold scale rate daysGF s
    = (r <- with_locals (None, None)
             (try_except
                (attrs <- call (gets attributes);;
                 let sowing_date := default PyNone (attrs !! "sowing") in
                 if not_valid_or_empty sowing_date then ret true
                 else
                   sow' <- lift (to_datetime_ymd (py_str sowing_date));;
                   heading_date <- optional_date (attrs !! "heading");;
                   pred_heading_date <- optional_date (attrs !! "PredHeading");;
                   (match heading_date with
                    | Some h =>
                        est <- maturity_from w h sow' th sc rt gf;;
                        set_local (fun l => (Some est, snd l))
                    | None => ret tt
                    end);;
                   (match pred_heading_date with
                    | Some ph =>
                        est <- maturity_from w ph sow' th sc rt gf;;
                        set_local (fun l => (fst l, Some est))
                    | None => ret tt
                    end);;
                   ret false)
                (fun err =>
                   call (log_error
                     ("Estimating maturity date from weather using TAdjDays. Error: " +:+ err));;
                   ret false));;
       match r with
       | (_, Ok true) => ret None
       | (l, _) => ret (Some l)
       end) s) as Hstart.
  { unfold getMaturityDate.
    unfold bind at 1. rewrite Hgf. unfold bind at 1. rewrite Hth.
    unfold bind at 1. rewrite Hsc. unfold bind at 1. rewrite Hrt.
    unfold bind at 1. unfold gets at 1. rewrite Hw. reflexivity. }
  rewrite Hstart. clear Hstart.
  split; [|split].
  - intros eh eph Veh Veph.
    unfold bind at 1. unfold with_locals, try_except.
    unfold bind at 1. unfold call at 1, gets at 1. cbn [fst snd].
    rewrite Hsv. cbn [from_option id]. rewrite Hvalid.
    unfold bind at 1. unfold lift at 1. rewrite Hsow.
    unfold bind at 1. rewrite (optional_date_anchor _ hd _ Hh).
    unfold bind at 1. rewrite (optional_date_anchor _ phd _ Hph).
    rewrite (variant_at w sow th sc rt gf hd eh s (None, None)
               (fun est l => (Some est, snd l)) _ Veh).
    rewrite (variant_at w sow th sc rt gf phd eph s _
               (fun est l => (fst l, Some est)) _ Veph).
    destruct eh, eph; reflexivity.
  - intros h e -> Hr.
    unfold bind at 1. unfold with_locals, try_except.
    unfold bind at 1. unfold call at 1, gets at 1. cbn [fst snd].
    rewrite Hsv. cbn [from_option id]. rewrite Hvalid.
    unfold bind at 1. unfold lift at 1. rewrite Hsow.
    unfold bind at 1. rewrite (optional_date_anchor _ (Some h) _ Hh).
    unfold bind at 1. rewrite (optional_date_anchor _ phd _ Hph).
    unfold bind at 1 2. rewrite Hr. reflexivity.
  - intros a st st' est. apply maturity_from_shape.
Qed.

(** ** Weather of the site *)

Lemma select_is_filter {A} (f : A -> bool) (l : list A) :
  select (map f l) l = List.filter f l.
Proof.
  induction l as [|x l IH]; [reflexivity|].
  cbn [map select List.filter]. rewrite IH. reflexivity.
Qed.

Lemma mask_and_map {A} (f g : A -> bool) (l : list A) :
  mask_and (map f l) (map g l) = map (fun x => f x && g x) l.
Proof.
  unfold mask_and. induction l as [|x l IH]; [reflexivity|].
  cbn [map zip_with]. rewrite IH. reflexivity.
Qed.

(** X1. With a weather table that has the columns [Date] and [location],
    a site whose location is not [None] and two valid dates that pandas
    reads as the timestamps [ts] and [te], [getWeather] stores and returns
    the rows of the table, in their order, whose date is in [[ts, te]]
    (both ends included) and whose location is the one of the site; it
    records no error. *)
Theorem getWeather_stores_window (df : DataFrame) (s e : pyval) (ts te : Z) (st : Site) :
  has_column df "Date" = true ->
  has_column df "location" = true ->
  is_none (loc st) = false ->
  not_valid s = false ->
  not_valid e = false ->
  as_timestamp s = Ok (Some ts) ->
  as_timestamp e = Ok (Some te) ->
  let w := {| df_columns := df_columns df;
              df_rows := List.filter
                (fun r => (Date r >=? ts)%Z && (Date r <=? te)%Z
                          && py_eqb (location r) (loc st))
                (df_rows df) |} in
  getWeather (Some df) s e st = (set_weather (Some w) st, Ok (Some w)).
Proof.
  intros Hd Hl Hloc Hs He Hts Hte w. subst w.
  unfold getWeather. unfold bind at 1. unfold modify at 1.
  unfold bind at 1. unfold try_except.
  unfold bind at 1. rewrite (valid_not_none s Hs). cbn [ret].
  unfold bind at 1. unfold gets at 1. cbn [loc set_weather].
  rewrite Hloc. cbn [fst snd]. rewrite Hs, He. cbn [orb].
  unfold date_ge, date_le, date_cmp, col_Date, col_location, bind, lift.
  rewrite Hd, Hl, Hts, Hte. cbn [ret modify gets].
  rewrite !map_map, !mask_and_map.
  unfold df_select. rewrite select_is_filter. reflexivity.
Qed.

Lemma bind_modify {St B} (f : St -> St) (k : unit -> M St B) (st : St) :
  bind (modify f) k st = k tt (f st).
Proof. reflexivity. Qed.

Lemma returns_stored {A} (c : M Site unit) (proj : Site -> A) (st : Site) :
  never_raises c ->
  snd ((c;; gets proj) st) = Ok (proj (fst ((c;; gets proj) st))).
Proof.
  intros H. unfold bind. destruct (H st) as [a Ha].
  destruct (c st) as [st' r]. cbn [snd] in Ha. subst r. reflexivity.
Qed.

(** X2. [getWeather] never raises, and what it returns is the table it
    left in [self.weather], for every table, dates and site. *)
Theorem getWeather_returns_stored (weatherDF : option DataFrame) (s e : pyval) (st : Site) :
  snd (getWeather weatherDF s e st) = Ok (weather (fst (getWeather weatherDF s e st))).
Proof.
  unfold getWeather. rewrite !bind_modify.
  destruct weatherDF as [df|]; [|reflexivity].
  apply returns_stored, never_raises_try. intros err. apply never_raises_log.
Qed.

(** ** Range of dates *)

(** X3. [getRangeDates] never raises and returns what it left in
    [self.pheno_dates]. Called with two dates of which one is not valid it
    stores and returns [None] and records one error: the statement
    [raise ("...")] raises a [TypeError], which the handler catches. *)
Theorem getRangeDates_returns_stored (s e : pyval) (st : Site) :
  snd (getRangeDates s e st) = Ok (pheno_dates (fst (getRangeDates s e st)))
  /\ (is_none s = false -> is_none e = false -> not_valid s || not_valid e = true ->
      getRangeDates s e st
      = (fst (log_error
                ("Estimating range dates. Error: " +:+ "exceptions must derive from BaseException")
                (set_pheno_dates None st)),
         Ok None)).
Proof.
  split.
  - unfold getRangeDates. rewrite !bind_modify.
    apply returns_stored, never_raises_try. intros err. apply never_raises_log.
  - intros Hs He Hv. unfold getRangeDates. rewrite bind_modify.
    unfold bind at 1. unfold try_except. unfold bind at 1.
    rewrite Hs, He. cbn [orb ret]. rewrite Hv. reflexivity.
Qed.

(** ** Day length *)

(** X4. With a date and a latitude, [getDayLength] returns the day length
    of the collaborator at two decimals and leaves the site alone; when
    the collaborator raises, the error is recorded and the method itself
    then raises, since it formats [None]. *)
Theorem getDayLength_formats (d lat p : pyval) (st : Site) :
  is_none d = false ->
  is_none lat = false ->
  (forall x, calculateDayLength d lat p = Ok (PyFloat x) ->
     getDayLength d lat p st = (st, Ok (PyFloat (Np.round_dec 2 x))))
  /\ (forall e, calculateDayLength d lat p = Raise e ->
        getDayLength d lat p st
        = (fst (log_error ("Getting Daylength. Error: " +:+ e) st),
           Raise "unsupported format string passed to __format__")).
Proof.
  intros Hd Hlat. unfold getDayLength. rewrite Hd, Hlat.
  unfold bind at 1. unfold gets at 1. cbv beta iota.
  split; intros x Hx; unfold bind at 1; unfold try_except, lift; rewrite Hx; reflexivity.
Qed.

(** ** Days to heading *)

(** X5. On a site of the nursery SAWYT the method
    [_getDaysToHeading_SAWYT] and [getDaysToHeading] are the same: same
    result, same exceptions, same site afterwards. *)
Theorem getDaysToHeading_SAWYT_agrees (m : option Model) (dayHR : pyval) (st : Site) :
  is_sawyt st = true ->
  _getDaysToHeading_SAWYT m dayHR st = getDaysToHeading m dayHR st.
Proof.
  unfold is_sawyt, _getDaysToHeading_SAWYT, getDaysToHeading.
  unfold bind at 1. unfold gets. cbv beta iota.
  destruct (attributes st !! "Nursery") as [n|]; [|discriminate].
  intros ->. reflexivity.
Qed.

(** ** Day temperature and growing degree days *)

(** X6. [getTDay] and [getGDD] with a table and their parameter at hand:
    without one of the columns [TMIN] and [TMAX] they return the empty
    list and record nothing; when the collaborator raises they record the
    error and return the empty list as well. *)
Theorem getTDay_getGDD_fall_back (m : option Model) (df : DataFrame)
    (tminFactor Tbase f tb : pyval) (st : Site) :
  default_parameter tminFactor m "TMIN_PERC_FACTOR" st = (st, Ok f) ->
  default_parameter Tbase m "CROP_TBASE_GDD" st = (st, Ok tb) ->
  (has_column df "TMIN" && has_column df "TMAX" = false ->
     getTDay m (Some df) tminFactor st = (st, Ok (Some []))
     /\ getGDD m (Some df) Tbase st = (st, Ok (Some [])))
  /\ (has_column df "TMIN" && has_column df "TMAX" = true ->
      (forall e,
         estimate_TDay (map TMIN (df_rows df)) (map TMAX (df_rows df)) f = Raise e ->
         getTDay m (Some df) tminFactor st
         = (fst (log_error ("Calculating Day temperature. Error: " +:+ e) st), Ok (Some [])))
      /\ (forall e,
            calculateGDD (map TMIN (df_rows df)) (map TMAX (df_rows df)) tb = Raise e ->
            getGDD m (Some df) Tbase st
            = (fst (log_error ("Calculating Growing degree days. Error: " +:+ e) st),
               Ok (Some [])))).
Proof.
  intros Hf Htb. split.
  - intros Hc. split.
    + unfold getTDay. unfold bind at 1. rewrite Hf.
      unfold try_except. rewrite Hc. reflexivity.
    + unfold getGDD. unfold bind at 1. rewrite Htb.
      unfold try_except. rewrite Hc. reflexivity.
  - intros Hc. apply andb_prop in Hc as [H1 H2].
    split; intros e He.
    + unfold getTDay. unfold bind at 1. rewrite Hf. unfold try_except.
      rewrite H1, H2. cbn [andb]. unfold col, bind, lift. rewrite H1, H2.
      unfold ret. cbv beta iota.
      change (map (numeric_cell "TMIN") (df_rows df)) with (map TMIN (df_rows df)).
      change (map (numeric_cell "TMAX") (df_rows df)) with (map TMAX (df_rows df)).
      rewrite He. reflexivity.
    + unfold getGDD. unfold bind at 1. rewrite Htb. unfold try_except.
      rewrite H1, H2. cbn [andb]. unfold col, bind, lift. rewrite H1, H2.
      unfold ret. cbv beta iota.
      change (map (numeric_cell "TMIN") (df_rows df)) with (map TMIN (df_rows df)).
      change (map (numeric_cell "TMAX") (df_rows df)) with (map TMAX (df_rows df)).
      rewrite He. reflexivity.
Qed.

(** ** Estimated maturity *)

(** X7. When the sowing date is not rejected and [getMaturityDate] returns
    the two estimates, [getEstimatedMaturity] writes six attributes and
    nothing else: for each variant the date of maturity as a string, the
    days from heading to maturity and the days from sowing to maturity;
    for a variant without estimate the date is the string ['None'] and the
    two day counts are [None]. *)
Theorem getEstimatedMaturity_writes (m : option Model) (threshold scale rate daysGF : pyval)
    (s s1 : Site) (H pH : option (Z * Z * Z)) :
  sowing_rejected (attributes s) = false ->
  getMaturityDate m threshold scale rate daysGF s = (s1, Ok (Some (H, pH))) ->
  getEstimatedMaturity m threshold scale rate daysGF s
  = (set_attributes
       (<["PredDaysToMaturity_pH" := snd (maturity_attrs pH)]>
        (<["PredDays_pHM" := snd (fst (maturity_attrs pH))]>
         (<["PredMaturity_pH" := fst (fst (maturity_attrs pH))]>
          (<["PredDaysToMaturity_H" := snd (maturity_attrs H)]>
           (<["PredDays_HM" := snd (fst (maturity_attrs H))]>
            (<["PredMaturity_H" := fst (fst (maturity_attrs H))]> (attributes s1)))))))
       s1,
     Ok tt).
Proof.
  intros Hs Hm. unfold getEstimatedMaturity. unfold bind at 1. unfold gets at 1.
  cbv beta iota. rewrite Hs. unfold try_except. unfold bind at 1. rewrite Hm.
  destruct H as [[[d a] b]|], pH as [[[d' a'] b']|]; reflexivity.
Qed.

(** X8. Without weather, and with a sowing date that is not rejected,
    [getEstimatedMaturity] writes no attribute and records exactly one
    error, whatever the parameters are: [getMaturityDate] returns [None]
    (or fails on a parameter), and unpacking that raises inside the [try]. *)
Theorem getEstimatedMaturity_without_weather (m : option Model)
    (threshold scale rate daysGF : pyval) (s : Site) :
  weather s = None ->
  sowing_rejected (attributes s) = false ->
  exists e,
    getEstimatedMaturity m threshold scale rate daysGF s
    = (fst (log_error ("Estimating Maturity date. Error: " +:+ e) s), Ok tt).
Proof.
  intros Hw Hs. unfold getEstimatedMaturity. unfold bind at 1. unfold gets at 1.
  cbv beta iota. rewrite Hs. unfold try_except, getMaturityDate.
  pose proof (stateless_default_parameter (St:=Site)) as Hp.
  unfold bind at 1. unfold bind at 1.
  pose proof (Hp daysGF m "DAYS_GRAIN_FILLING" s) as E1.
  destruct (default_parameter daysGF m "DAYS_GRAIN_FILLING" s) as [s1 [gf|e]];
    cbn [fst] in E1; subst s1; [|eexists; reflexivity].
  unfold bind at 1.
  pose proof (Hp threshold m "TDAYS_THRESHOLD_MATURITY" s) as E2.
  destruct (default_parameter threshold m "TDAYS_THRESHOLD_MATURITY" s) as [s1 [th|e]];
    cbn [fst] in E2; subst s1; [|eexists; reflexivity].
  unfold bind at 1.
  pose proof (Hp scale m "TDAYS_SCALE_MATURITY" s) as E3.
  destruct (default_parameter scale m "TDAYS_SCALE_MATURITY" s) as [s1 [sc|e]];
    cbn [fst] in E3; subst s1; [|eexists; reflexivity].
  unfold bind at 1.
  pose proof (Hp rate m "TDAYS_RATE_MATURITY" s) as E4.
  destruct (default_parameter rate m "TDAYS_RATE_MATURITY" s) as [s1 [rt|e]];
    cbn [fst] in E4; subst s1; [|eexists; reflexivity].
  unfold bind at 1. unfold gets at 1. rewrite Hw. eexists. reflexivity.
Qed.

(** X9. On a site that has weather but no key [sowing],
    [getEstimatedPhenologyDates] estimates nothing: [getEstimatedEmergence]
    reads its local [s] before any assignment, outside its [try], and the
    only trace is the error that [getEstimatedPhenologyDates] records. *)
Theorem getEstimatedPhenologyDates_without_sowing (m : option Model) (s : Site) (w : DataFrame) :
  weather s = Some w ->
  attributes s !! "sowing" = None ->
  getEstimatedPhenologyDates m s
  = (fst (log_error
            ("Estimating phenology dates. Error: "
             +:+ "local variable 's' referenced before assignment") s),
     Ok tt).
Proof.
  intros Hw Hs. unfold getEstimatedPhenologyDates, try_except.
  unfold bind at 1. unfold getEstimatedEmergence. unfold bind at 1.
  unfold ensure_weather. unfold bind at 1. unfold gets at 1. rewrite Hw.
  cbn [ret]. unfold bind at 1. unfold gets at 1. cbv beta iota.
  unfold sowing_rejected, local_s. rewrite Hs. reflexivity.
Qed.

(** ** Light interception *)

(** X10. [getIPAR] returns at once, leaving the site as it is, when the
    four normalized NDVI curves from emergence to heading are all [None];
    when the first of them was never assigned (no call of
    [getWeatherParameters] got that far) it raises an [AttributeError],
    also leaving the site as it is. *)
Theorem getIPAR_without_NDVI (m : option Model) (bounds constantIPAR RUE YIELD_FACTOR : pyval)
    (s : Site) :
  (fields s !! "Norm_SimNDVI_EH" = Some None ->
   fields s !! "Norm_SimNDVI_pEH" = Some None ->
   fields s !! "Norm_SimNDVI_EpH" = Some None ->
   fields s !! "Norm_SimNDVI_pEpH" = Some None ->
   getIPAR m bounds constantIPAR RUE YIELD_FACTOR s = (s, Ok tt))
  /\ (fields s !! "Norm_SimNDVI_EH" = None ->
      getIPAR m bounds constantIPAR RUE YIELD_FACTOR s
      = (s, Raise "'Site' object has no attribute 'Norm_SimNDVI_EH'")).
Proof.
  split.
  - intros H1 H2 H3 H4. unfold getIPAR.
    unfold bind at 1. unfold get_field at 1. unfold bind at 1. unfold get at 1.
    cbv beta iota. rewrite H1. cbn [ret].
    unfold bind at 1. unfold get_field at 1. unfold bind at 1. unfold get at 1.
    cbv beta iota. rewrite H2. cbn [ret].
    unfold bind at 1. unfold get_field at 1. unfold bind at 1. unfold get at 1.
    cbv beta iota. rewrite H3. cbn [ret].
    unfold bind at 1. unfold get_field at 1. unfold bind at 1. unfold get at 1.
    cbv beta iota. rewrite H4. reflexivity.
  - intros H1. unfold getIPAR.
    unfold bind at 1. unfold get_field at 1. unfold bind at 1. unfold get at 1.
    cbv beta iota. rewrite H1. reflexivity.
Qed.

(** ** Weather parameters without masks *)

(** X11. On a site with weather whose sowing date is not valid
    [getFilters] returns [None] and changes nothing, and
    [getWeatherParameters], which unpacks that result outside its [try],
    raises a [TypeError] after it has set its sixteen fields back to
    [None]; without weather it returns and changes nothing. *)
Theorem getWeatherParameters_without_sowing (m : option Model) (season : bool) (s : Site) :
  (weather s = None -> getWeatherParameters m season s = (s, Ok tt))
  /\ (weather s <> None ->
      not_valid (default PyNone (attributes s !! "sowing")) = true ->
      getFilters m season s = (s, Ok None)
      /\ getWeatherParameters m season s
         = (fst (set_fields_None reset_fields s),
            Raise "cannot unpack non-iterable NoneType object")).
Proof.
  split.
  - intros Hw. unfold getWeatherParameters. unfold bind at 1. unfold gets at 1.
    rewrite Hw. reflexivity.
  - intros Hw Hs. destruct (weather s) as [w|] eqn:E; [|contradiction].
    assert (forall s', weather s' = Some w -> attributes s' = attributes s ->
                       getFilters m season s' = (s', Ok None)) as HF.
    { intros s' Hw' Ha. unfold getFilters. unfold bind at 1. unfold gets at 1.
      rewrite Hw'. unfold bind at 1. unfold gets at 1. cbv beta iota.
      rewrite Ha, Hs. reflexivity. }
    split; [apply HF; [exact E|reflexivity]|].
    unfold getWeatherParameters. unfold bind at 1. unfold gets at 1. rewrite E.
    unfold bind at 1. unfold set_fields_None at 1. unfold modify at 1.
    unfold bind at 1. rewrite HF; [reflexivity|exact E|reflexivity].
Qed.

(** ** Attributes handed out *)

(** X12. [getAttr] returns the attributes of the site with the key
    [errors] bound to the error list, every other key as it was; it
    changes nothing but that key, and a second call returns the same
    mapping and changes nothing at all. *)
Theorem getAttr_idempotent (s : Site) :
  exists s' a,
    getAttr s = (s', Ok a)
    /\ a = attributes s'
    /\ a !! "errors" = Some PyErrorsRef
    /\ (forall k, k <> "errors" -> a !! k = attributes s !! k)
    /\ errors s' = errors s
    /\ getAttr s' = (s', Ok a).
Proof.
  eexists _, _. split; [reflexivity|]. cbn [attributes set_attributes errors].
  split; [reflexivity|]. split; [apply lookup_insert_eq|].
  split; [intros k Hk; apply lookup_insert_ne; congruence|].
  split; [reflexivity|].
  unfold getAttr, set_attr, bind, modify, gets. cbn [attributes set_attributes].
  rewrite insert_insert_eq. reflexivity.
Qed.

(** ** Statistics of the periods *)

Lemma same_but_refl (written : string -> Prop) (s : Site) : same_but written s s.
Proof. repeat split. Qed.

Lemma same_but_set_attr (s0 : Site) (base suffix : string) (v : pyval) :
  base ∈ season_stats ->
  keeps (same_but statistic s0) (set_attr (base +:+ suffix) v).
Proof.
  intros Hb. apply keeps_modify. intros s (Ha & Hr). split; [|exact Hr].
  intros x Hx. cbn [attributes set_attributes].
  rewrite lookup_insert_ne; [apply Ha, Hx|].
  intros <-. apply Hx. exists base, suffix. split; [exact Hb|reflexivity].
Qed.

Lemma same_but_write_stats (s0 : Site) (suffix : string) (mk : option mask) :
  keeps (same_but statistic s0) (write_stats suffix mk).
Proof.
  unfold write_stats.
  keeps_tac; apply same_but_set_attr; unfold season_stats; set_solver.
Qed.


(** ** Days of a period *)

Lemma between_timestamps {St} (w : DataFrame) (a b : pyval) (ta tb : Z) (st : St) :
  has_column w "Date" = true ->
  as_timestamp a = Ok (Some ta) ->
  as_timestamp b = Ok (Some tb) ->
  between w a b st
  = (st, Ok (map (fun r => (Date r >? ta)%Z && (Date r <=? tb)%Z) (df_rows w))).
Proof.
  intros Hd Ha Hb. unfold between, date_gt, date_le, date_cmp, col_Date, bind, lift.
  rewrite Hd, Ha, Hb. cbn [ret]. rewrite !map_map, mask_and_map. reflexivity.
Qed.

Lemma rows_between_empty (w : DataFrame) (ta tb : Z) :
  (tb <= ta)%Z -> rows_between w ta tb = [].
Proof.
  intros Hle. unfold rows_between.
  induction (df_rows w) as [|x rows IH]; [reflexivity|].
  cbn [List.filter].
  destruct ((Date x >? ta)%Z && (Date x <=? tb)%Z) eqn:E; [|exact IH].
  apply andb_prop in E as [E1 E2]. lia.
Qed.

(** X14. The mask of a period between two dates that pandas reads as the
    timestamps [ta] and [tb], followed by its day count: the count stored
    under [Days_p] is the number of weather rows with [ta < Date <= tb]
    (open at the start, closed at the end), and the mask is set back to
    [None] exactly when that number is 0, as it is whenever [tb <= ta]. *)
Theorem period_days_counted (p : period) (w : DataFrame) (a b : pyval) (ta tb : Z)
    (s : Site) (l : filter_locals) :
  has_column w "Date" = true ->
  as_timestamp a = Ok (Some ta) ->
  as_timestamp b = Ok (Some tb) ->
  let r := (assign_between p w a b;; count_days w p) (s, l) in
  let n := length (rows_between w ta tb) in
  snd r = Ok tt
  /\ attributes (fst (fst r)) !! days_key p = Some (PyInt (Z.of_nat n))
  /\ (fl_masks (snd (fst r)) p = None <-> n = 0%nat)
  /\ ((tb <= ta)%Z -> n = 0%nat).
Proof.
  intros Hd Ha Hb r n.
  set (mk := map (fun r => (Date r >? ta)%Z && (Date r <=? tb)%Z) (df_rows w)).
  assert (length (select mk (df_rows w)) = n) as Hn.
  { subst mk n. rewrite select_is_filter. reflexivity. }
  assert ((tb <= ta)%Z -> n = 0%nat) as Hempty.
  { intros Hle. subst n. rewrite (rows_between_empty w ta tb Hle). reflexivity. }
  assert (r = ((set_attributes (<[days_key p := PyInt (Z.of_nat n)]> (attributes s)) s,
                if (Z.of_nat n <=? 0)%Z
                then fl_set_mask p None (fl_set_mask p (Some mk) l)
                else fl_set_mask p (Some mk) l),
               Ok tt)) as Hr.
  { subst r. unfold assign_between. unfold bind at 1 2.
    rewrite (between_timestamps w a b ta tb (s, l) Hd Ha Hb). fold mk.
    unfold assign_mask at 1. unfold set_local at 1. unfold modify at 1.
    cbn [fst snd]. unfold count_days. unfold bind at 1. unfold get_local, gets.
    cbn [fst snd fl_masks fl_set_mask]. unfold set_mask at 1.
    destruct (decide (p = p)) as [_|]; [|contradiction].
    unfold df_len, df_select. cbn [df_rows]. rewrite Hn.
    unfold bind at 1. unfold call at 1, set_attr at 1, modify at 1. cbn [fst snd].
    destruct (Z.of_nat n <=? 0)%Z; reflexivity. }
  rewrite Hr. cbn [fst snd attributes set_attributes].
  split; [reflexivity|]. split; [apply lookup_insert_eq|].
  split; [|exact Hempty].
  destruct (Z.of_nat n <=? 0)%Z eqn:E; cbn [fl_masks fl_set_mask]; unfold set_mask;
    destruct (decide (p = p)) as [_|]; try contradiction.
  - split; [intros _; lia|reflexivity].
  - split; [discriminate|intros ->; discriminate E].
Qed.

(** ** An estimated heading without an estimated emergence *)

Lemma unbound_call_log (s0 : Site) (msg : string) :
  keeps (emergence_unbound s0) (call (log_error msg)).
Proof.
  intros [s l] (Ha & Hx & Hl). split; [exact Ha|].
  split; [apply extends_log_error; exact Hx|exact Hl].
Qed.

Lemma unbound_assign_mask (s0 : Site) (q : period) (v : option mask) :
  keeps (emergence_unbound s0) (assign_mask q v).
Proof. intros [s l] H. exact H. Qed.

Lemma unbound_assign_between (s0 : Site) (q : period) (w : DataFrame) (a b : pyval) :
  keeps (emergence_unbound s0) (assign_between q w a b).
Proof.
  unfold assign_between. apply keeps_bind.
  - apply keeps_stateless. stateless_tac.
  - intros mk. apply unbound_assign_mask.
Qed.

Lemma unbound_set_pred_heading (s0 : Site) (v : pyval) :
  keeps (emergence_unbound s0) (set_local (fl_set_pred_heading v)).
Proof. intros [s l] H. exact H. Qed.

Ltac unbound_tac :=
  repeat first
    [ match goal with
      | |- keeps _ (bind _ _) => apply keeps_bind; [|intros ?]
      | |- keeps _ (assign_mask _ _) => apply unbound_assign_mask
      | |- keeps _ (assign_between _ _ _ _) => apply unbound_assign_between
      | |- keeps _ (set_local (fl_set_pred_heading _)) => apply unbound_set_pred_heading
      | |- keeps _ (call (log_error _)) => apply unbound_call_log
      | |- keeps _ (if ?b then _ else _) => destruct b
      | |- keeps _ (match ?x with _ => _ end) => destruct x
      end
    | solve [apply keeps_stateless; stateless_tac] ].

Ltac unbound_step :=
  eapply triple_bind; [apply triple_keeps; unbound_tac|intros ?].

Lemma getFilters_body_unbound (s0 : Site) (m : option Model) (season : bool)
    (w : DataFrame) (attrs : gmap string pyval) (sowing emergence h mt ph : pyval) :
  attrs !! "PredEmergence" = None ->
  attrs !! "PredHeading" = Some ph ->
  not_valid ph = false ->
  triple (emergence_unbound s0)
    (getFilters_body m season w attrs sowing emergence h mt)
    (fun _ => False) (emergence_unbound s0).
Proof.
  intros Hpe Hph Hv. unfold getFilters_body. cbv zeta. rewrite Hpe, Hph, Hv.
  do 7 unbound_step.
  eapply triple_bind; [|intros ? st HF; exact (False_ind _ HF)].
  do 4 unbound_step.
  intros [s l] H. pose proof H as (_ & _ & Hl).
  unfold bind, get_local, gets. cbn [fst snd] in *. rewrite Hl. exact H.
Qed.

(** X15. On a site with weather and a valid sowing date that has a valid
    estimated heading ([PredHeading]) but no key [PredEmergence],
    [getFilters] cannot finish its [try]: the local [pred_emergence_date]
    is read before any assignment (if nothing fails before). It returns
    the masks set so far, writes no attribute at all (no day count, no
    statistic), and the last error of the site is the one of its handler. *)
Theorem getFilters_unbound_pred_emergence (m : option Model) (season : bool)
    (s : Site) (w : DataFrame) (ph : pyval) :
  weather s = Some w ->
  not_valid (default PyNone (attributes s !! "sowing")) = false ->
  attributes s !! "PredEmergence" = None ->
  attributes s !! "PredHeading" = Some ph ->
  not_valid ph = false ->
  exists s' ms e,
    getFilters m season s = (s', Ok (Some ms))
    /\ attributes s' = attributes s
    /\ extends s s'
    /\ last (errors s')
       = Some (entry_of s ("Getting filters for weather. Error: " +:+ e)).
Proof.
  intros Hw Hsow Hpe Hph Hv.
  set (l0 := {| fl_masks := no_masks; pred_emergence_date := None;
                pred_heading_date := PyNone; pred_maturity_date := PyNone |}).
  assert (emergence_unbound s (s, l0)) as H0.
  { split; [reflexivity|]. split; [apply extends_refl|reflexivity]. }
  pose proof (getFilters_body_unbound s m season w (attributes s)
                (default PyNone (attributes s !! "sowing"))
                (checked (default PyNone (attributes s !! "emergence")))
                (checked (default PyNone (attributes s !! "heading")))
                (checked (default PyNone (attributes s !! "maturity")))
                ph Hpe Hph Hv (s, l0) H0) as T.
  unfold getFilters. unfold bind at 1. unfold gets at 1. rewrite Hw.
  unfold bind at 1. unfold gets at 1. cbv beta iota. rewrite Hsow.
  unfold bind at 1. unfold with_locals, try_except. fold l0.
  match type of T with match ?b ?st with _ => _ end =>
    destruct (b st) as [[s1 l1] [[]|e]] end; [contradiction|].
  destruct T as (Ha & Hx & _). cbn [fst snd] in Ha, Hx.
  exists (fst (log_error ("Getting filters for weather. Error: " +:+ e) s1)),
    (fl_masks l1), e.
  split; [reflexivity|]. split; [exact Ha|].
  split; [apply extends_log_error; exact Hx|].
  cbn [fst log_error modify errors set_errors]. rewrite last_snoc.
  destruct Hx as (Hu & Hl & _). unfold entry_of. rewrite Hu, Hl. reflexivity.
Qed.

(** ** Emergence inside the range of dates *)

(** X16. With a model, a numeric requirement and a range of dates at
    least as long as the cumulative thermal time, [getEmergenceDate]
    always returns a date of that range, records no error and leaves the
    site as it is; with no thermal time, or an empty one, it returns
    [None]. *)
Theorem getEmergenceDate_in_range (m : Model) (s : Site) (dates : list Z)
    (c0 : Q) (cs : list Q) (req : Q) :
  (length (c0 :: cs) <= length dates)%nat ->
  (exists t,
     t ∈ dates
     /\ getEmergenceDate (Some m) (Some (map Fin (c0 :: cs))) (PyFloat (Fin req))
          (set_pheno_dates (Some dates) s)
        = (set_pheno_dates (Some dates) s, Ok (PyStr (date_str t))))
  /\ getEmergenceDate (Some m) None (PyFloat (Fin req)) s = (s, Ok PyNone)
  /\ getEmergenceDate (Some m) (Some []) (PyFloat (Fin req)) s = (s, Ok PyNone).
Proof.
  intros Hlen. split; [|split; reflexivity].
  destruct (argmin_first_least (Qabs (c0 - req)) (map (fun c => Qabs (c - req)) cs))
    as (idx & v & Hidx & Hv & _).
  change (Qabs (c0 - req) :: map (fun c => Qabs (c - req)) cs)
    with (map (fun c => Qabs (c - req)) (c0 :: cs)) in *.
  apply lookup_lt_Some in Hv. rewrite length_map in Hv.
  destruct (lookup_lt_is_Some_2 dates idx) as [t Ht]; [lia|].
  exists t. split; [apply list_elem_of_lookup_2 in Ht; exact Ht|].
  unfold getEmergenceDate, default_parameter, bind. cbn [is_none ret map].
  unfold gets at 1. cbn [pheno_dates set_pheno_dates ret as_float].
  change (Fin c0 :: map Fin cs) with (map Fin (c0 :: cs)).
  rewrite nearest_index_Fin, Hidx.
  unfold try_except, bind, gets. cbn [pheno_dates set_pheno_dates].
  rewrite Ht. reflexivity.
Qed.

(** ** The two groups of the normalization *)

(** X17. The two groups of [getNormalizeThermalTime] fail apart. Whatever
    the series from emergence to heading are, the first group lets no
    exception escape, and the four series from heading to maturity are
    normalized and stored after it. An empty series from emergence to
    heading makes the first group stop at its first statement: one error
    is recorded and none of its four fields is assigned. *)
Theorem getNormalizeThermalTime_groups (s : Site) (EH pEH EpH pEpH : option ndarray)
    (HM pHM pHpM HpM : option (Q * list Q)) :
  exists s1,
    try_except
      (normalize_into "Norm_TT_EH" EH;;
       normalize_into "Norm_TT_EpH" EpH;;
       normalize_into "Norm_TT_pEH" pEH;;
       normalize_into "Norm_TT_pEpH" pEpH)
      (fun err => log_error
         ("Normalizing GDD or thermal time from Emergence to Heading. Error: " +:+ err)) s
    = (s1, Ok tt)
    /\ getNormalizeThermalTime EH pEH EpH pEpH (series_arg HM) (series_arg pHM)
         (series_arg pHpM) (series_arg HpM) s
       = (set_fields
            (<["Norm_TT_pHpM" := normalized_arg pHpM]>
             (<["Norm_TT_HpM" := normalized_arg HpM]>
              (<["Norm_TT_pHM" := normalized_arg pHM]>
               (<["Norm_TT_HM" := normalized_arg HM]> (fields s1))))) s1,
          Ok tt)
    /\ (EH = Some [] ->
        s1 = fst (log_error
                    ("Normalizing GDD or thermal time from Emergence to Heading. Error: "
                     +:+ "zero-size array to reduction operation fmin which has no identity")
                    s)).
Proof.
  unfold getNormalizeThermalTime.
  match goal with |- context [bind (try_except ?a ?h) (fun _ => ?b)] =>
    set (g1 := try_except a h); set (g2 := b) end.
  assert (never_raises g1) as N
    by (apply never_raises_try; intros err; apply never_raises_log).
  destruct (N s) as [[] Hr]. destruct (g1 s) as [s1 r] eqn:E.
  cbn [snd] in Hr. subst r. exists s1. split; [reflexivity|]. split.
  - unfold bind at 1. rewrite E. subst g2. unfold try_except, bind.
    repeat (rewrite normalize_into_series; cbv beta iota). reflexivity.
  - intros ->.
    assert (g1 s
            = (fst (log_error
                      ("Normalizing GDD or thermal time from Emergence to Heading. Error: "
                       +:+ "zero-size array to reduction operation fmin which has no identity")
                      s),
               Ok tt)) as E' by reflexivity.
    rewrite E' in E. congruence.
Qed.

End Properties.

(** * Closed examples

    Runs of the methods on the sites of [Examples], with the reference
    collaborators. *)

Import Reference Examples.

(** The theorem on the checked pairs at an observed heading on the day of
    maturity. *)
Lemma getFilters_drops_violated_witness :
  violated Heading_Maturity heading_at_maturity = true
  /\ exists s' ms,
       getFilters (Some dap_model) false heading_at_maturity = (s', Ok (Some ms))
       /\ ms HM = None
       /\ attributes s' !! "Days_HM" = None
       /\ extends heading_at_maturity s'
       /\ length (errors heading_at_maturity) < length (errors s').
Proof.
  assert (violated Heading_Maturity heading_at_maturity = true) as Hv
    by (vm_compute; reflexivity).
  split; [exact Hv|].
  destruct (getFilters_drops_violated Heading_Maturity (Some dap_model) false
              heading_at_maturity Hv) as (s' & ms & H1 & H2 & H3 & H4 & H5).
  exists s', ms. split; [exact H1|]. split; [exact H2|].
  split; [|split; [exact H4|exact H5]].
  refine (eq_trans H3 _). vm_compute. reflexivity.
Defined.

(** Two pairs out of order that [getFilters] treats otherwise: emergence
    after heading is not recorded as an error and the day count [Days_EH]
    is written, as [0]; estimated heading after maturity is recorded as an
    error and the day count [Days_pHM] is written all the same, as [0]. *)
Lemma getFilters_unchecked_pairs :
  str_ge (PyStr "2015-11-20") (PyStr "2015-11-18") = true
  /\ str_ge (PyStr "2015-11-26") (PyStr "2015-11-25") = true
  /\ map (fun e => e !! "error")
       (errors (fst (getFilters (Some dap_model) false unordered_site)))
     = [Some (PyStr "Estimated heading is equal or greater than maturity")]
  /\ attributes unordered_site !! "Days_EH" = None
  /\ attributes (fst (getFilters (Some dap_model) false unordered_site)) !! "Days_EH"
     = Some (PyInt 0)
  /\ attributes unordered_site !! "Days_pHM" = None
  /\ attributes (fst (getFilters (Some dap_model) false unordered_site)) !! "Days_pHM"
     = Some (PyInt 0).
Proof. repeat split; vm_compute; reflexivity. Qed.


(** The theorem on the days to heading at the boundary of 10.8 hours. *)
Lemma getDaysToHeading_truncates_witness :
  parameters boundary_10_8 !! "CONST_DAYHR_AS" = Some (PyFloat (Fin 10.8))
  /\ exists v : Q,
       selected_line (is_sawyt sawyt_site) 10.8 10.8 = Fin v
       /\ getDaysToHeading (Some boundary_10_8) (PyFloat (Fin 10.8)) sawyt_site
          = (sawyt_site, Ok (truncate v))
       /\ ((10.8 == 10.8)%Q ->
           selected_line (is_sawyt sawyt_site) 10.8 10.8
           = heading_line_from (is_sawyt sawyt_site) (Fin 10.8))
       /\ ((0 <= v)%Q -> truncate v = Qfloor v).
Proof.
  assert (parameters boundary_10_8 !! "CONST_DAYHR_AS" = Some (PyFloat (Fin 10.8))) as Hc
    by (vm_compute; reflexivity).
  exact (conj Hc (getDaysToHeading_truncates boundary_10_8 sawyt_site 10.8 10.8 Hc)).
Defined.

(** Below the boundary the line of a SAWYT site is negative from 12.02
    hours on: at 12.5 hours it gives -24.895, [getDaysToHeading] returns
    -24 and the floor is -25. *)
Lemma getDaysToHeading_not_floor :
  exists v : Q,
    selected_line (is_sawyt sawyt_site) 13 12.5 = Fin v
    /\ Qfloor v = (-25)%Z
    /\ getDaysToHeading (Some boundary_13) (PyFloat (Fin 12.5)) sawyt_site
       = (sawyt_site, Ok (-24)%Z).
Proof.
  eexists. split; [reflexivity|]. split; vm_compute; reflexivity.
Qed.

(** A series of one value is strictly increasing, and its normalized
    value is [nan], neither 0 nor 1. *)
Lemma normalize_singleton_nan :
  strictly_increasing 5 [] = true
  /\ fields (fst (getNormalizeThermalTime (Some [Fin 5]) None None None None None None None
                    (site_with []))) !! "Norm_TT_EH"
     = Some (Some [NaN]).
Proof. split; vm_compute; reflexivity. Qed.

(** The theorem on the yield at a factor of 1. *)
Lemma estimate_yield_two_decimals_witness :
  attributes (fst (estimate_yield (PyFloat (Fin 1)) gpp_site)) !! "SimYield"
  = Some (PyFloat (Fin 1.23))
  /\ attributes (fst (estimate_yield (PyFloat (Fin 1)) gpp_site)) !! "SimYield_pH"
     = Some PyNone
  /\ snd (estimate_yield (PyFloat (Fin 1)) gpp_site) = Ok tt.
Proof.
  destruct (estimate_yield_two_decimals gpp_site 1%Q (Some 1.234%Q) None (Some 2.5%Q) None)
    as [H _].
  1-4: vm_compute; reflexivity.
  rewrite H. repeat split; vm_compute; reflexivity.
Defined.

(** A summed production of 1.234 at a factor of 1 gives the yield 1.23,
    not the product. *)
Lemma estimate_yield_not_product :
  attributes gpp_site !! "sumGPP_HM" = Some (PyFloat (Fin 1.234))
  /\ attributes (fst (estimate_yield (PyFloat (Fin 1)) gpp_site)) !! "SimYield"
     = Some (PyFloat (Fin 1.23))
  /\ Qeq_bool 1.23 (1.234 * 1) = false.
Proof. repeat split; vm_compute; reflexivity. Qed.



(** The theorem on the two variants at anchors three and five days after
    sowing. *)
Lemma getMaturityDate_both_variants_witness :
  getMaturityDate (Some maturity_model) PyNone PyNone PyNone PyNone
    (maturity_site "2015-11-18" "2015-11-20")
  = (maturity_site "2015-11-18" "2015-11-20",
     Ok (Some (Some (16766, 12, 9)%Z, Some (16766, 12, 7)%Z))).
Proof.
  destruct (getMaturityDate_both_variants (Some maturity_model) PyNone PyNone PyNone PyNone
              (maturity_site "2015-11-18" "2015-11-20") (weather_from_sowing 12)
              (PyInt 40) (PyInt 45) (PyInt 45) (PyFloat (Fin 0.5)) (PyStr "2015-11-15")
              16754 (Some 16757%Z) (Some 16759%Z)) as (H & _).
  1-8: vm_compute; reflexivity.
  1-2: eexists; split; [reflexivity|]; split; vm_compute; reflexivity.
  apply H.
  - eexists. split; [reflexivity|]. intros st. vm_compute. reflexivity.
  - eexists. split; [reflexivity|]. intros st. vm_compute. reflexivity.
Defined.

(** An observed heading after the last day of weather makes its variant
    raise; the estimated heading is there and inside the weather, and its
    variant is not computed: both estimates are [None]. *)
Lemma getMaturityDate_shared_try :
  attributes (maturity_site "2015-12-30" "2015-11-20") !! "PredHeading"
  = Some (PyStr "2015-11-20")
  /\ snd (getMaturityDate (Some maturity_model) PyNone PyNone PyNone PyNone
            (maturity_site "2015-12-30" "2015-11-20"))
     = Ok (Some (None, None))
  /\ snd (getMaturityDate (Some maturity_model) PyNone PyNone PyNone PyNone
            (maturity_site "None" "2015-11-20"))
     = Ok (Some (None, Some (16766, 12, 7)%Z)).
Proof. repeat split; vm_compute; reflexivity. Qed.

(** The window of three days at location 1 out of a table of two
    locations. *)
Lemma getWeather_stores_window_witness :
  snd (getWeather (Some two_locations) (PyStr "2015-11-17") (PyStr "2015-11-19")
         (site_with []))
  = Ok (Some {| df_columns := all_columns;
                df_rows := [wrow_at 16756; wrow_at 16757; wrow_at 16758] |}).
Proof.
  rewrite (getWeather_stores_window two_locations (PyStr "2015-11-17") (PyStr "2015-11-19")
             16756 16758 (site_with [])); vm_compute; reflexivity.
Defined.

(** The day length of the reference collaborator, 10.5 hours. *)
Lemma getDayLength_formats_witness :
  getDayLength (PyStr "2015-12-20") (PyFloat (Fin 27)) (PyFloat (Fin 0)) (site_with [])
  = (site_with [], Ok (PyFloat (Np.round_dec 2 (Fin 10.5)))).
Proof.
  destruct (getDayLength_formats (PyStr "2015-12-20") (PyFloat (Fin 27)) (PyFloat (Fin 0))
              (site_with []) eq_refl eq_refl) as [H _].
  apply H. reflexivity.
Defined.

(** The two methods on the SAWYT site at 12.5 hours. *)
Lemma getDaysToHeading_SAWYT_agrees_witness :
  is_sawyt sawyt_site = true
  /\ _getDaysToHeading_SAWYT (Some boundary_13) (PyFloat (Fin 12.5)) sawyt_site
     = getDaysToHeading (Some boundary_13) (PyFloat (Fin 12.5)) sawyt_site.
Proof.
  assert (is_sawyt sawyt_site = true) as H by (vm_compute; reflexivity).
  exact (conj H (getDaysToHeading_SAWYT_agrees (Some boundary_13) (PyFloat (Fin 12.5))
                   sawyt_site H)).
Defined.

(** A table without the column [TMAX]. *)
Lemma getTDay_getGDD_fall_back_witness :
  getTDay None (Some {| df_columns := ["Date"; "TMIN"]; df_rows := [wrow_at 16754] |})
    (PyFloat (Fin 0.25)) (site_with [])
  = (site_with [], Ok (Some []))
  /\ getGDD None (Some {| df_columns := ["Date"; "TMIN"]; df_rows := [wrow_at 16754] |})
       (PyInt 0) (site_with [])
     = (site_with [], Ok (Some [])).
Proof.
  destruct (getTDay_getGDD_fall_back None
              {| df_columns := ["Date"; "TMIN"]; df_rows := [wrow_at 16754] |}
              (PyFloat (Fin 0.25)) (PyInt 0) (PyFloat (Fin 0.25)) (PyInt 0) (site_with [])
              eq_refl eq_refl) as [H _].
  apply H. vm_compute. reflexivity.
Defined.

(** The six attributes after the two estimates of the twelfth day. *)
Lemma getEstimatedMaturity_writes_witness :
  map (fun k => attributes
                  (fst (getEstimatedMaturity (Some maturity_model) PyNone PyNone PyNone PyNone
                          (maturity_site "2015-11-18" "2015-11-20"))) !! k)
    ["PredMaturity_H"; "PredDays_HM"; "PredDaysToMaturity_H";
     "PredMaturity_pH"; "PredDays_pHM"; "PredDaysToMaturity_pH"]
  = [Some (PyStr "2015-11-27"); Some (PyInt 9); Some (PyInt 12);
     Some (PyStr "2015-11-27"); Some (PyInt 7); Some (PyInt 12)].
Proof.
  rewrite (getEstimatedMaturity_writes (Some maturity_model) PyNone PyNone PyNone PyNone
             (maturity_site "2015-11-18" "2015-11-20")
             (maturity_site "2015-11-18" "2015-11-20")
             (Some (16766, 12, 9)%Z) (Some (16766, 12, 7)%Z));
    vm_compute; reflexivity.
Defined.

(** A sown site that never got its weather. *)
Lemma getEstimatedMaturity_without_weather_witness :
  exists e,
    getEstimatedMaturity (Some maturity_model) PyNone PyNone PyNone PyNone sown_site
    = (fst (log_error ("Estimating Maturity date. Error: " +:+ e) sown_site), Ok tt).
Proof.
  apply (getEstimatedMaturity_without_weather (Some maturity_model) PyNone PyNone PyNone
           PyNone sown_site); vm_compute; reflexivity.
Defined.

(** A site with weather and no attribute. *)
Lemma getEstimatedPhenologyDates_without_sowing_witness :
  map (fun e => e !! "error") (errors (fst (getEstimatedPhenologyDates (Some dap_model) bare_site)))
  = [Some (PyStr "Estimating phenology dates. Error: local variable 's' referenced before assignment")].
Proof.
  rewrite (getEstimatedPhenologyDates_without_sowing (Some dap_model) bare_site
             (weather_from_sowing 3)); vm_compute; reflexivity.
Defined.

(** Three days from sowing to heading, and none the other way round. *)
Lemma period_days_counted_witness :
  attributes (fst (fst ((assign_between SH (weather_from_sowing 12) (PyStr "2015-11-15")
                           (PyStr "2015-11-18");;
                         count_days (weather_from_sowing 12) SH)
                          (site_with [], {| fl_masks := no_masks; pred_emergence_date := None;
                                            pred_heading_date := PyNone;
                                            pred_maturity_date := PyNone |}))))
    !! "Days_SH"
  = Some (PyInt 3).
Proof.
  destruct (period_days_counted SH (weather_from_sowing 12) (PyStr "2015-11-15")
              (PyStr "2015-11-18") 16754 16757 (site_with [])
              {| fl_masks := no_masks; pred_emergence_date := None;
                 pred_heading_date := PyNone; pred_maturity_date := PyNone |})
    as (_ & H & _).
  1-3: vm_compute; reflexivity.
  exact H.
Defined.

(** An estimated heading without an estimated emergence. *)
Lemma getFilters_unbound_pred_emergence_witness :
  exists s' ms e,
    getFilters (Some dap_model) false no_emergence_site = (s', Ok (Some ms))
    /\ attributes s' = attributes no_emergence_site
    /\ extends no_emergence_site s'
    /\ last (errors s')
       = Some (entry_of no_emergence_site ("Getting filters for weather. Error: " +:+ e)).
Proof.
  apply (getFilters_unbound_pred_emergence (Some dap_model) false no_emergence_site
           (weather_from_sowing 12) (PyStr "2015-11-20")); vm_compute; reflexivity.
Defined.

(** Three values of thermal time and three dates. *)
Lemma getEmergenceDate_in_range_witness :
  exists t,
    t ∈ [16754; 16755; 16756]%Z
    /\ getEmergenceDate (Some boundary_13) (Some (map Fin [5; 10; 15]%Q)) (PyFloat (Fin 9))
         (set_pheno_dates (Some [16754; 16755; 16756]%Z) (site_with []))
       = (set_pheno_dates (Some [16754; 16755; 16756]%Z) (site_with []),
          Ok (PyStr (date_str t))).
Proof.
  destruct (getEmergenceDate_in_range boundary_13 (site_with []) [16754; 16755; 16756]%Z
              5 [10; 15]%Q 9) as [H _]; [cbn; lia|exact H].
Defined.
